(** * Conversion and editor-lifecycle orchestrator (lib/x2t.ts)

    A shallow embedding of the converter session, the CSV pipeline, the
    media extractor, the write-file handler and the editor operation queue,
    with the properties the design document states about them. *)

From Stdlib Require Import List NArith ZArith Lia Bool String Ascii DecimalString.
From Stdlib Require Strings.Byte.
From stdpp Require Import base gmap list.
Import ListNotations.

Local Open Scope N_scope.

(** ** JavaScript strings

    A JavaScript string is a sequence of UTF-16 code units.  A code unit is
    an [N]; nothing below depends on the 16-bit bound. *)

Module JsString.

Abbreviation jsstring := (list N).

(** String literals of the source, written as Rocq strings. *)
Definition js (s : string) : jsstring :=
  List.map N_of_ascii (list_ascii_of_string s).

Definition DOT : N := 46.
Definition SLASH : N := 47.

Definition jsstring_eqb (a b : jsstring) : bool :=
  bool_decide (a = b).

Definition isEmpty (s : jsstring) : bool :=
  match s with [] => true | _ => false end.

(** [a || b] on strings: the empty string is falsy. *)
Definition orElse (a b : jsstring) : jsstring :=
  if isEmpty a then b else a.

(** [String.prototype.split] with a one-unit separator.  The result is
    never empty: splitting the empty string gives one empty part. *)
Fixpoint split (sep : N) (s : jsstring) : list jsstring :=
  match s with
  | [] => [[]]
  | c :: s' =>
      if c =? sep then [] :: split sep s'
      else match split sep s' with
           | [] => [[c]]
           | p :: ps => (c :: p) :: ps
           end
  end.

(** [Array.prototype.join] with a one-unit separator. *)
Fixpoint join (sep : N) (parts : list jsstring) : jsstring :=
  match parts with
  | [] => []
  | [p] => p
  | p :: ps => p ++ sep :: join sep ps
  end.

(** [parts.pop()]: the last element ([undefined] on an empty array, which
    [||] then treats like the empty string) and the array without it. *)
Definition pop (parts : list jsstring) : jsstring * list jsstring :=
  (List.last parts [], List.removelast parts).

(** ECMAScript WhiteSpace and LineTerminator code points, as stripped by
    [String.prototype.trim]. *)
Definition isWhite (c : N) : bool :=
  ((9 <=? c) && (c <=? 13)) || (c =? 32) || (c =? 160) || (c =? 5760)
  || ((8192 <=? c) && (c <=? 8202)) || (c =? 8232) || (c =? 8233)
  || (c =? 8239) || (c =? 8287) || (c =? 12288) || (c =? 65279).

Fixpoint trimStart (s : jsstring) : jsstring :=
  match s with
  | [] => []
  | c :: s' => if isWhite c then trimStart s' else s
  end.

Fixpoint trimEnd (s : jsstring) : jsstring :=
  match s with
  | [] => []
  | c :: s' =>
      match trimEnd s' with
      | [] => if isWhite c then [] else [c]
      | t => c :: t
      end
  end.

Definition trim (s : jsstring) : jsstring := trimEnd (trimStart s).

(** [String.prototype.toLowerCase] and [toUpperCase], unit by unit.  The
    mapping is the engine's on every unit that it sends to Basic Latin
    letters only: the capitals and the Kelvin sign when lowering; the small
    letters, the sharp s, the dotless i, the long s and the seven Latin
    ligatures when raising, where one unit can become two or three.  Any
    other unit is kept; what the engine makes of it holds a unit outside
    Basic Latin, and so does the unit kept here.  So wherever the source
    compares the mapped text with a literal made of Basic Latin units, as a
    whole or as a suffix, the comparison comes out as in the engine; where
    it spells the mapped text out (the extension of a saved file) the
    spelling is the engine's for text made of Basic Latin units. *)
Definition lowerUnit (c : N) : N :=
  if (65 <=? c) && (c <=? 90) then c + 32
  else if c =? 8490 then 107
  else c.

Definition upperUnits (c : N) : list N :=
  if (97 <=? c) && (c <=? 122) then [c - 32]
  else if c =? 223 then [83; 83]
  else if c =? 305 then [73]
  else if c =? 383 then [83]
  else if c =? 64256 then [70; 70]
  else if c =? 64257 then [70; 73]
  else if c =? 64258 then [70; 76]
  else if c =? 64259 then [70; 70; 73]
  else if c =? 64260 then [70; 70; 76]
  else if (c =? 64261) || (c =? 64262) then [83; 84]
  else [c].

Definition toLowerCase (s : jsstring) : jsstring := List.map lowerUnit s.
Definition toUpperCase (s : jsstring) : jsstring :=
  List.concat (List.map upperUnits s).

(** [s.endsWith(suffix)]. *)
Definition endsWith (s suffix : jsstring) : bool :=
  jsstring_eqb (skipn (length s - length suffix)%nat s) suffix
  && (length suffix <=? length s)%nat.

(** [s.slice(0, n)]. *)
Definition slice0 (n : nat) (s : jsstring) : jsstring := firstn n s.

End JsString.

Import JsString.

(** ** File-name sanitisation (X2TConverter.sanitizeFileName) *)

Module Sanitize.

(** The class [illegalChars]: slash, question mark, angle brackets,
    backslash, colon, star, vertical bar and the double quote. *)
Definition illegalChar (c : N) : bool :=
  (c =? 47) || (c =? 63) || (c =? 60) || (c =? 62) || (c =? 92)
  || (c =? 58) || (c =? 42) || (c =? 124) || (c =? 34).

(** The class [controlChars]: units 0x00-0x1f and 0x80-0x9f. *)
Definition controlChar (c : N) : bool :=
  (c <=? 31) || ((128 <=? c) && (c <=? 159)).

(** The class [unsafeChars]: ampersand, single quote, percent, exclamation
    mark, double quote, braces and square brackets. *)
Definition unsafeChar (c : N) : bool :=
  (c =? 38) || (c =? 39) || (c =? 37) || (c =? 33) || (c =? 34)
  || (c =? 123) || (c =? 125) || (c =? 91) || (c =? 93).

(** Global replace of a character class by the empty string. *)
Definition removeAll (cls : N -> bool) (s : jsstring) : jsstring :=
  List.filter (fun c => negb (cls c)) s.

(** [reservedPattern] matches: one or more dots and nothing else. *)
Definition allDots (s : jsstring) : bool :=
  negb (isEmpty s) && forallb (fun c => c =? DOT) s.

(** Replace of [reservedPattern] by the empty string. *)
Definition removeReserved (s : jsstring) : jsstring :=
  if allDots s then [] else s.

(** The local [ext]: [parts.pop() || 'bin']. *)
Definition extOf (input : jsstring) : jsstring :=
  orElse (fst (pop (split DOT input))) (js "bin").

(** The local [name]: [parts.join('.')] after the pop. *)
Definition nameOf (input : jsstring) : jsstring :=
  join DOT (snd (pop (split DOT input))).

(** The local [sanitized] just before the length limit is applied. *)
Definition cleanName (name : jsstring) : jsstring :=
  let sanitized :=
    removeAll unsafeChar
      (removeReserved
         (removeAll controlChar
            (removeAll illegalChar name))) in
  orElse (trim sanitized) (js "file").

Definition sanitizeFileName (input : jsstring) : jsstring :=
  if isEmpty (trim input) then js "file.bin"
  else
    let ext := extOf input in
    let name := nameOf input in
    let sanitized := cleanName name in
    slice0 200 sanitized ++ DOT :: ext.


(** No unit of [s] is in the class. *)
Definition noneOf (cls : N -> bool) (s : jsstring) : bool :=
  forallb (fun c => negb (cls c)) s.

Definition isDot (c : N) : bool := c =? DOT.

End Sanitize.

(** ** Thrown values and outcomes *)

Module Js.

(** What a [throw] carries: an [Error] object with its message, or some
    other value (for which [error instanceof Error] is false). *)
Inductive Thrown :=
| ErrorObj (message : jsstring)
| OtherThrown.

Inductive Outcome (A : Type) :=
| Ok (a : A)
| Throw (e : Thrown).
Arguments Ok {A} a.
Arguments Throw {A} e.

(** [error instanceof Error ? error.message : 'Unknown error'] *)
Definition messageOf (e : Thrown) : jsstring :=
  match e with
  | ErrorObj m => m
  | OtherThrown => js "Unknown error"
  end.

(** [error?.message || 'Unknown error'] *)
Definition messageOr (e : Thrown) : jsstring :=
  match e with
  | ErrorObj m => orElse m (js "Unknown error")
  | OtherThrown => js "Unknown error"
  end.

Abbreviation bytes := (list Byte.byte).

(** The UTF-8 byte-order marker [0xEF 0xBB 0xBF]. *)
Definition BOM : bytes := [Byte.xef; Byte.xbb; Byte.xbf].

(** What [FS.writeFile] accepts: a [Uint8Array] or a string. *)
Inductive FileData :=
| FBytes (b : bytes)
| FText (s : jsstring).

(** What [FS.readFile] hands back: a [Uint8Array], or a binary-like value
    that [new Uint8Array(...)] turns into one. *)
Inductive BlobPart :=
| BUint8 (b : bytes)
| BBuffer (b : bytes).

(** [x instanceof Uint8Array ? x : new Uint8Array(x as ArrayBuffer)] *)
Definition toUint8 (x : BlobPart) : bytes :=
  match x with
  | BUint8 b => b
  | BBuffer b => b
  end.

Inductive DocumentType := word | cell | slide.

(** A property read [obj[key]] on an object literal: an own property, a
    property inherited from [Object.prototype], or [undefined]. *)
Inductive Lookup (A : Type) :=
| Own (a : A)
| Inherited (key : jsstring)
| Undefined.
Arguments Own {A} a.
Arguments Inherited {A} key.
Arguments Undefined {A}.

(** The property names every object literal inherits. *)
Definition objectPrototypeKeys : list jsstring :=
  [ js "constructor"; js "__proto__"; js "hasOwnProperty";
    js "isPrototypeOf"; js "propertyIsEnumerable"; js "toLocaleString";
    js "toString"; js "valueOf"; js "__defineGetter__";
    js "__defineSetter__"; js "__lookupGetter__"; js "__lookupSetter__" ].

Definition readProp {A} (own : gmap jsstring A) (key : jsstring) : Lookup A :=
  match own !! key with
  | Some a => Own a
  | None =>
      if bool_decide (key ∈ objectPrototypeKeys) then Inherited key
      else Undefined
  end.

(** Decimal rendering of a number inside a template literal. *)
Definition showZ (z : Z) : jsstring :=
  js (DecimalString.NilZero.string_of_int (Z.to_int z)).

End Js.

Import Js.

(** ** External collaborators

    The WASM module, the MIME helper of [ranuts/utils], the SheetJS library
    and the text codecs are not code of this repository.  The page they make
    up is a value of [Host]; every statement below holds for all of them. *)

Module Host.

Record Workbook (sheet : Type) := {
  SheetNames : list jsstring;
  Sheets : gmap jsstring sheet;
}.
Arguments SheetNames {sheet} _.
Arguments Sheets {sheet} _.

Record Host := {
  (** state of the WASM module instance, virtual filesystem included *)
  modst : Type;
  FS_mkdir : jsstring -> modst -> Outcome unit * modst;
  FS_readdir : jsstring -> modst -> Outcome (list jsstring);
  FS_readFile : jsstring -> modst -> Outcome BlobPart;
  FS_writeFile : jsstring -> FileData -> modst -> Outcome unit * modst;
  (** [ccall('main1', 'number', ['string'], [paramsPath])] *)
  ccall_main1 : jsstring -> modst -> Z * modst;
  (** what loading the script yields on this page: [onload] or [onerror] *)
  scriptLoad : Outcome unit;
  (** what the promise built once the script has loaded settles to on this
      page: the module when its runtime has started, or the error of a
      missing module or of the timeout *)
  boot : Outcome modst;
  (** [getExtensions] of ranuts/utils: extensions of a MIME type *)
  getExtensions : jsstring -> list jsstring;
  (** SheetJS *)
  sheet : Type;
  loadXlsx : Outcome unit;
  XLSX_read_string : jsstring -> Outcome (Workbook sheet);
  XLSX_read_array : bytes -> Outcome (Workbook sheet);
  XLSX_write : Workbook sheet -> Outcome bytes;
  XLSX_sheet_to_csv : option sheet -> Outcome jsstring;
  (** [new TextDecoder('utf-8').decode] (never throws: not in fatal mode)
      and [new TextEncoder().encode] *)
  utf8_decode : bytes -> jsstring;
  utf8_encode : jsstring -> bytes;
  (** whether [window.showSaveFilePicker] exists *)
  hasSaveFilePicker : bool;
}.

Existing Class Host.

End Host.

Import Host.

(** ** Editor commands and events *)

Module Editor.

(** The payloads of [window.editor.sendCommand]. *)
Inductive Command :=
| asc_setImageUrls (urls : gmap jsstring nat)
| asc_openDocument (buf : BlobPart)
| asc_writeFileCallback_ok (path : nat) (imgName : jsstring)
| asc_writeFileCallback_fail (error : jsstring)
| asc_onSaveCallback (err_code : Z).

(** Values of type [any]: what an event can be and what its fields can
    hold.  A function is known by an identity and by what a call of it
    does, return or throw. *)
Inductive JsVal :=
| JUndefined
| JNull
| JBool (b : bool)
| JNum (z : Z)
| JStr (s : jsstring)
| JUint8 (b : bytes)
| JObj (fields : Fields)
| JFun (id : nat) (call : Outcome unit)
with Fields :=
| FNil
| FCons (key : jsstring) (value : JsVal) (rest : Fields).

Definition truthy (v : JsVal) : bool :=
  match v with
  | JUndefined | JNull => false
  | JBool b => b
  | JNum z => negb (z =? 0)%Z
  | JStr s => negb (isEmpty s)
  | JUint8 _ | JObj _ | JFun _ _ => true
  end.

Fixpoint assoc (key : jsstring) (fields : Fields) : JsVal :=
  match fields with
  | FNil => JUndefined
  | FCons k v rest => if jsstring_eqb k key then v else assoc key rest
  end.

(** Destructuring a field out of a truthy value: objects give the field,
    anything else gives [undefined]. *)
Definition getField (key : jsstring) (v : JsVal) : JsVal :=
  match v with
  | JObj fields => assoc key fields
  | _ => JUndefined
  end.

(** [null] and [undefined], on which a property read throws. *)
Definition isNullish (v : JsVal) : bool :=
  match v with
  | JUndefined | JNull => true
  | _ => false
  end.

Definition nullishName (v : JsVal) : jsstring :=
  match v with
  | JNull => js "null"
  | _ => js "undefined"
  end.

(** The [TypeError]s raised on a null or undefined event by the
    destructuring of [data] and by the read of [callback]; the wording is
    the engine's. *)
Definition cannotDestructureData (event : JsVal) : Thrown :=
  ErrorObj (js "Cannot destructure property 'data' of 'event' as it is "
            ++ nullishName event ++ js ".").

Definition cannotReadCallback (event : JsVal) : Thrown :=
  ErrorObj (js "Cannot read properties of " ++ nullishName event
            ++ js " (reading 'callback')").

(** The save event.  [sv_data] is [event.data], [sp_data] is
    [event.data.data] with its byte array, [sp_outputformat] is
    [event.data.option.outputformat]. *)
Record SavePayload := {
  sp_data : option bytes;
  sp_outputformat : Z;
}.

Record SaveEvent := {
  sv_data : option SavePayload;
}.

End Editor.

Import Editor.

(** ** The page: converter session, store, editor handle *)

Module Page.

Inductive HostCall :=
| CallMkdir (path : jsstring)
| CallReaddir (path : jsstring)
| CallReadFile (path : jsstring)
| CallWriteFile (path : jsstring) (data : FileData)
| CallMain1 (paramsPath : jsstring).

(** A file handed to the save collaborator ([saveWithFileSystemAPI]). *)
Record SavedFile := {
  saved_name : jsstring;
  saved_data : bytes;
  saved_viaPicker : bool;
}.

Record File := {
  file_name : jsstring;
  file_type : jsstring;
  file_bytes : bytes;
}.

Record ConversionResult := {
  fileName : jsstring;
  type : Lookup DocumentType;
  bin : BlobPart;
  media : gmap jsstring nat;
}.

(** A [Blob]: its part and, when given, its [type] option. *)
Record Blob := {
  blob_part : BlobPart;
  blob_type : option (Lookup jsstring);
}.

Record BinConversionResult := {
  out_fileName : jsstring;
  out_data : BlobPart;
}.

Section WithHost.

Context (H : Host).

Record World := {
  (** the converter singleton *)
  isReady : bool;
  x2tModule : option (modst H);
  (** [initPromise], as far as it can matter: the error of the stored
      promise when that promise is a rejected one, [None] when the field is
      null or holds a fulfilled promise.  A fulfilled promise is stored by a
      ready session only, whose calls do not look at the field: the module
      and the flag are set just before the promise is resolved, and
      [destroy] clears the three together. *)
  initPromise : option Thrown;
  hasScriptLoaded : bool;
  (** calls made on the module, oldest first *)
  hostLog : list HostCall;
  (** blobs given an object URL so far ([URL.createObjectURL]); the URL
      is the position in this list *)
  blobs : list Blob;
  (** files offered for saving, oldest first *)
  saved : list SavedFile;
  (** [getDocmentObj().fileName] of the store *)
  docFileName : option jsstring;
  (** [window.editor]: whether an editor is attached, and what it was sent *)
  editorAttached : bool;
  commands : list Command;
  (** the global [media] map of the editor side *)
  globalMedia : gmap jsstring nat;
  (** results passed to [event.callback] *)
  callbackCalls : list (nat * jsstring);
}.

(** State and exception monad: effects made before a throw stay. *)
Definition M (A : Type) : Type := World -> Outcome A * World.

Definition ret {A} (a : A) : M A := fun w => (Ok a, w).

Definition bind {A B} (m : M A) (k : A -> M B) : M B :=
  fun w =>
    match m w with
    | (Ok a, w') => k a w'
    | (Throw e, w') => (Throw e, w')
    end.

Definition throw {A} (e : Thrown) : M A := fun w => (Throw e, w).

Definition throwError {A} (message : jsstring) : M A :=
  throw (ErrorObj message).

Definition tryCatch {A} (body : M A) (handler : Thrown -> M A) : M A :=
  fun w =>
    match body w with
    | (Ok a, w') => (Ok a, w')
    | (Throw e, w') => handler e w'
    end.

Definition liftOutcome {A} (o : Outcome A) : M A := fun w => (o, w).

End WithHost.

Arguments ret {H A} a.
Arguments bind {H A B} m k.
Arguments throw {H A} e.
Arguments throwError {H A} message.
Arguments tryCatch {H A} body handler.
Arguments liftOutcome {H A} o.
Arguments isReady {H} _.
Arguments x2tModule {H} _.
Arguments hostLog {H} _.
Arguments blobs {H} _.
Arguments saved {H} _.
Arguments docFileName {H} _.
Arguments editorAttached {H} _.
Arguments commands {H} _.
Arguments globalMedia {H} _.
Arguments callbackCalls {H} _.
Arguments initPromise {H} _.
Arguments hasScriptLoaded {H} _.

Notation "'do' x <- m ;; k" := (bind m (fun x => k))
  (at level 10, x name, m at level 99, k at level 200, only parsing).
Notation "'exec' m ;; k" := (bind m (fun _ => k))
  (at level 10, m at level 99, k at level 200, only parsing).

End Page.

Import Page.

(** ** The converter session (class X2TConverter) and the save handler *)

Module Converter.

Definition QUOTE : N := 34.
Definition NEWLINE : N := 10.

Definition DOCUMENT_TYPE_MAP : gmap jsstring DocumentType :=
  list_to_map
    [ (js "docx", word); (js "doc", word); (js "odt", word);
      (js "rtf", word); (js "txt", word);
      (js "xlsx", cell); (js "xls", cell); (js "ods", cell);
      (js "csv", cell);
      (js "pptx", slide); (js "ppt", slide); (js "odp", slide) ].

Definition WORKING_DIRS : list jsstring :=
  [ js "/working"; js "/working/media"; js "/working/fonts";
    js "/working/themes" ].

(** The message of the [TypeError] a property read on [null] raises; its
    wording is the engine's. *)
Definition nullReadMessage : jsstring :=
  js "Cannot read properties of null".

(** [fileName.replace(/\.csv$/i, '.xlsx')] *)
Definition replaceCsvSuffix (name : jsstring) : jsstring :=
  if endsWith (toLowerCase name) (js ".csv")
  then firstn (length name - 4)%nat name ++ js ".xlsx"
  else name.

(** [s.replace(/\.[^/.]+$/, '')]: drops a final dot and what follows it,
    when that is not empty and holds no slash. *)
Definition stripExt (s : jsstring) : jsstring :=
  let '(ext, rest) := pop (split DOT s) in
  if negb (length rest =? 0)%nat && negb (isEmpty ext)
     && forallb (fun c => negb (c =? SLASH)) ext
  then join DOT rest
  else s.

(** [createConversionParams] *)
Definition createConversionParams
    (fromPath toPath additionalParams : jsstring) : jsstring :=
  js "<?xml version=" ++ [QUOTE] ++ js "1.0" ++ [QUOTE]
  ++ js " encoding=" ++ [QUOTE] ++ js "utf-8" ++ [QUOTE] ++ js "?>"
  ++ [NEWLINE]
  ++ js "<TaskQueueDataConvert xmlns:xsi=" ++ [QUOTE]
  ++ js "http://www.w3.org/2001/XMLSchema-instance" ++ [QUOTE]
  ++ js " xmlns:xsd=" ++ [QUOTE]
  ++ js "http://www.w3.org/2001/XMLSchema" ++ [QUOTE] ++ js ">"
  ++ [NEWLINE]
  ++ js "  <m_sFileFrom>" ++ fromPath ++ js "</m_sFileFrom>" ++ [NEWLINE]
  ++ js "  <m_sThemeDir>/working/themes</m_sThemeDir>" ++ [NEWLINE]
  ++ js "  <m_sFileTo>" ++ toPath ++ js "</m_sFileTo>" ++ [NEWLINE]
  ++ js "  <m_bIsNoBase64>false</m_bIsNoBase64>" ++ [NEWLINE]
  ++ js "  " ++ additionalParams ++ [NEWLINE]
  ++ js "</TaskQueueDataConvert>".

(** [sanitizeFileName] on an argument that may be [undefined]. *)
Definition sanitizeFileNameOpt (input : option jsstring) : jsstring :=
  match input with
  | Some s => Sanitize.sanitizeFileName s
  | None => js "file.bin"
  end.

(** The inverse table [c_oAscFileType2]. *)
Definition c_oAscFileType2 (code : Z) : option jsstring :=
  List.fold_right
    (fun kv acc => if (snd kv =? code)%Z then Some (fst kv) else acc)
    None
    [ (js "UNKNOWN", 0); (js "PDF", 513); (js "PDFA", 521); (js "DJVU", 515);
      (js "XPS", 516); (js "DOCX", 65); (js "DOC", 66); (js "ODT", 67); (js "RTF", 68);
      (js "TXT", 69); (js "HTML", 70); (js "MHT", 71); (js "EPUB", 72); (js "FB2", 73);
      (js "MOBI", 74); (js "DOCM", 75); (js "DOTX", 76); (js "DOTM", 77);
      (js "FODT", 78); (js "OTT", 79); (js "DOC_FLAT", 80); (js "DOCX_FLAT", 81);
      (js "HTML_IN_CONTAINER", 82); (js "DOCX_PACKAGE", 84); (js "OFORM", 85);
      (js "DOCXF", 86); (js "DOCY", 4097); (js "CANVAS_WORD", 8193);
      (js "JSON", 2056); (js "XLSX", 257); (js "XLS", 258); (js "ODS", 259);
      (js "CSV", 260); (js "XLSM", 261); (js "XLTX", 262); (js "XLTM", 263);
      (js "XLSB", 264); (js "FODS", 265); (js "OTS", 266); (js "XLSX_FLAT", 267);
      (js "XLSX_PACKAGE", 268); (js "XLSY", 4098); (js "PPTX", 129); (js "PPT", 130);
      (js "ODP", 131); (js "PPSX", 132); (js "PPTM", 133); (js "PPSM", 134);
      (js "POTX", 135); (js "POTM", 136); (js "FODP", 137); (js "OTP", 138);
      (js "PPTX_PACKAGE", 139); (js "IMG", 1024); (js "JPG", 1025);
      (js "TIFF", 1026); (js "TGA", 1027); (js "GIF", 1028); (js "PNG", 1029);
      (js "EMF", 1030); (js "WMF", 1031); (js "BMP", 1032); (js "CR2", 1033);
      (js "PCX", 1034); (js "RAS", 1035); (js "PSD", 1036); (js "ICO", 1037) ]%Z.

Section WithHost.

Context {H : Host}.

Abbreviation World := (World H).
Abbreviation M := (M H).

Definition withHostLog (w : World) (l : list HostCall) : World :=
  {| isReady := isReady w; x2tModule := x2tModule w; hostLog := l;
     blobs := blobs w; saved := saved w; docFileName := docFileName w;
     editorAttached := editorAttached w; commands := commands w;
     globalMedia := globalMedia w; callbackCalls := callbackCalls w;
     initPromise := initPromise w; hasScriptLoaded := hasScriptLoaded w |}.

Definition withModule (w : World) (ready : bool) (m : option (modst H))
  : World :=
  {| isReady := ready; x2tModule := m; hostLog := hostLog w;
     blobs := blobs w; saved := saved w; docFileName := docFileName w;
     editorAttached := editorAttached w; commands := commands w;
     globalMedia := globalMedia w; callbackCalls := callbackCalls w;
     initPromise := initPromise w; hasScriptLoaded := hasScriptLoaded w |}.

Definition withBlobs (w : World) (b : list Blob) : World :=
  {| isReady := isReady w; x2tModule := x2tModule w; hostLog := hostLog w;
     blobs := b; saved := saved w; docFileName := docFileName w;
     editorAttached := editorAttached w; commands := commands w;
     globalMedia := globalMedia w; callbackCalls := callbackCalls w;
     initPromise := initPromise w; hasScriptLoaded := hasScriptLoaded w |}.

Definition withSaved (w : World) (s : list SavedFile) : World :=
  {| isReady := isReady w; x2tModule := x2tModule w; hostLog := hostLog w;
     blobs := blobs w; saved := s; docFileName := docFileName w;
     editorAttached := editorAttached w; commands := commands w;
     globalMedia := globalMedia w; callbackCalls := callbackCalls w;
     initPromise := initPromise w; hasScriptLoaded := hasScriptLoaded w |}.

Definition withCommands (w : World) (c : list Command) : World :=
  {| isReady := isReady w; x2tModule := x2tModule w; hostLog := hostLog w;
     blobs := blobs w; saved := saved w; docFileName := docFileName w;
     editorAttached := editorAttached w; commands := c;
     globalMedia := globalMedia w; callbackCalls := callbackCalls w;
     initPromise := initPromise w; hasScriptLoaded := hasScriptLoaded w |}.

Definition withGlobalMedia (w : World) (g : gmap jsstring nat) : World :=
  {| isReady := isReady w; x2tModule := x2tModule w; hostLog := hostLog w;
     blobs := blobs w; saved := saved w; docFileName := docFileName w;
     editorAttached := editorAttached w; commands := commands w;
     globalMedia := g; callbackCalls := callbackCalls w;
     initPromise := initPromise w; hasScriptLoaded := hasScriptLoaded w |}.

Definition withCallbackCalls (w : World) (c : list (nat * jsstring))
  : World :=
  {| isReady := isReady w; x2tModule := x2tModule w; hostLog := hostLog w;
     blobs := blobs w; saved := saved w; docFileName := docFileName w;
     editorAttached := editorAttached w; commands := commands w;
     globalMedia := globalMedia w; callbackCalls := c;
     initPromise := initPromise w; hasScriptLoaded := hasScriptLoaded w |}.

(** *** Calls on the module: [this.x2tModule!.FS.*] and [ccall] *)

Definition fsMkdir (m : modst H) (path : jsstring) (log : list HostCall)
  : Outcome unit * modst H * list HostCall :=
  (FS_mkdir H path m, log ++ [CallMkdir path]).

Definition fsReaddir (path : jsstring) : M (list jsstring) := fun w =>
  match x2tModule w with
  | None => (Throw (ErrorObj nullReadMessage), w)
  | Some m =>
      (FS_readdir H path m, withHostLog w (hostLog w ++ [CallReaddir path]))
  end.

Definition fsReadFile (path : jsstring) : M BlobPart := fun w =>
  match x2tModule w with
  | None => (Throw (ErrorObj nullReadMessage), w)
  | Some m =>
      (FS_readFile H path m,
       withHostLog w (hostLog w ++ [CallReadFile path]))
  end.

Definition fsWriteFile (path : jsstring) (data : FileData) : M unit :=
  fun w =>
    match x2tModule w with
    | None => (Throw (ErrorObj nullReadMessage), w)
    | Some m =>
        let '(o, m') := FS_writeFile H path data m in
        (o, withHostLog (withModule w (isReady w) (Some m'))
              (hostLog w ++ [CallWriteFile path data]))
    end.

(** [URL.createObjectURL(blob)] *)
Definition createObjectURL (b : Blob) : M nat := fun w =>
  (Ok (length (blobs w)), withBlobs w (blobs w ++ [b])).

(** *** initialize, as seen by a caller that awaits it

    No other call is in flight.  A ready session answers from its cache.
    Otherwise a stored promise is returned as it is, and when it is a
    rejected one the call fails with its error and nothing is booted.  With
    none stored, doInitialize runs: the script is loaded unless it has
    been, then the boot of this page decides; a boot that succeeds creates
    the working directories ([createWorkingDirectories], each [mkdir]
    guarded) before the module is stored.  The promise of a boot that fails
    stays stored: it is returned from inside the [try] without being
    awaited, so only a failed script load reaches the [catch] that clears
    the field. *)
Definition createWorkingDirectories (m : modst H) (log : list HostCall)
  : modst H * list HostCall :=
  List.fold_left
    (fun acc dir =>
       let '(_, m', log') := fsMkdir (fst acc) dir (snd acc) in (m', log'))
    WORKING_DIRS (m, log).

Definition withInit (w : World) (p : option Thrown) (loaded : bool)
  : World :=
  {| isReady := isReady w; x2tModule := x2tModule w; hostLog := hostLog w;
     blobs := blobs w; saved := saved w; docFileName := docFileName w;
     editorAttached := editorAttached w; commands := commands w;
     globalMedia := globalMedia w; callbackCalls := callbackCalls w;
     initPromise := p; hasScriptLoaded := loaded |}.

Definition doInitialize : M unit := fun w =>
  match (if hasScriptLoaded w then Ok tt else scriptLoad H) with
  | Throw e => (Throw e, withInit w None (hasScriptLoaded w))
  | Ok _ =>
      match boot H with
      | Ok m =>
          let '(m', log') := createWorkingDirectories m (hostLog w) in
          (Ok tt,
           withInit (withHostLog (withModule w true (Some m')) log')
             None true)
      | Throw e => (Throw e, withInit w (Some e) true)
      end
  end.

Definition initialize : M unit := fun w =>
  match isReady w, x2tModule w with
  | true, Some _ => (Ok tt, w)
  | _, _ =>
      match initPromise w with
      | Some e => (Throw e, w)
      | None => doInitialize w
      end
  end.

(** *** getDocumentType (private method) *)
Definition getDocumentType (extension : jsstring)
  : M (Lookup DocumentType) :=
  match readProp DOCUMENT_TYPE_MAP (toLowerCase extension) with
  | Undefined =>
      throwError (js "Unsupported file format: " ++ extension)
  | docType => ret docType
  end.

(** *** executeConversion *)
Definition executeConversion (paramsPath : jsstring) : M unit := fun w =>
  match x2tModule w with
  | None => (Throw (ErrorObj (js "X2T module not initialized")), w)
  | Some m =>
      let '(result, m') := ccall_main1 H paramsPath m in
      let w1 := withHostLog (withModule w (isReady w) (Some m'))
                  (hostLog w ++ [CallMain1 paramsPath]) in
      if (result =? 0)%Z then (Ok tt, w1)
      else
        (* the params file is read back for the console only *)
        let '(_, w2) := fsReadFile paramsPath w1 in
        (Throw (ErrorObj (js "Conversion failed with code: "
                          ++ showZ result)), w2)
  end.

(** *** readMediaFiles *)
Definition mediaDir : jsstring := js "/working/media/".

(** The key an extracted file is stored under. *)
Definition mediaKey (file : jsstring) : jsstring := js "media/" ++ file.

(** Whether the module lets the extracted file be read. *)
Definition readable (m : modst H) (file : jsstring) : bool :=
  match FS_readFile H (mediaDir ++ file) m with
  | Ok _ => true
  | Throw _ => false
  end.

Definition readOneMedia (file : jsstring) (acc : gmap jsstring nat)
  : M (gmap jsstring nat) :=
  tryCatch
    (do fileData <- fsReadFile (mediaDir ++ file) ;;
     do mediaUrl <- createObjectURL
                      {| blob_part := fileData; blob_type := None |} ;;
     ret (<[mediaKey file := mediaUrl]> acc))
    (fun _ => ret acc).

Fixpoint readEachMedia (files : list jsstring) (acc : gmap jsstring nat)
  : M (gmap jsstring nat) :=
  match files with
  | [] => ret acc
  | file :: rest =>
      do acc' <- readOneMedia file acc ;;
      readEachMedia rest acc'
  end.

Definition notPseudoEntry (file : jsstring) : bool :=
  negb (jsstring_eqb file (js ".")) && negb (jsstring_eqb file (js "..")).

Definition readMediaFiles : M (gmap jsstring nat) := fun w =>
  match x2tModule w with
  | None => (Ok ∅, w)
  | Some _ =>
      tryCatch
        (do files <- fsReaddir mediaDir ;;
         readEachMedia (List.filter notPseudoEntry files) ∅)
        (fun _ => ret ∅) w
  end.

(** *** loadXlsxLibrary and convertCsvToXlsx *)
Definition loadXlsxLibrary : M unit := liftOutcome (loadXlsx H).

Definition xlsxMimeType : jsstring :=
  js "application/vnd.openxmlformats-officedocument.spreadsheetml.sheet".

(** The decoder is not in fatal mode, so the first [decode] of the
    no-marker branch returns and its latin1 handler never runs. *)
Definition decodeCsv (csvData : bytes) : jsstring :=
  match csvData with
  | Byte.xef :: Byte.xbb :: Byte.xbf :: rest => utf8_decode H rest
  | _ => utf8_decode H csvData
  end.

Definition convertCsvToXlsx (csvData : bytes) (name : jsstring) : M File :=
  tryCatch
    (exec loadXlsxLibrary ;;
     let csvText := decodeCsv csvData in
     do workbook <- liftOutcome (XLSX_read_string H csvText) ;;
     do xlsxBuffer <- liftOutcome (XLSX_write H workbook) ;;
     let xlsxFileName := replaceCsvSuffix name in
     ret {| file_name := xlsxFileName; file_type := xlsxMimeType;
            file_bytes := xlsxBuffer |})
    (fun error =>
       throwError
         (js "Failed to convert CSV to XLSX: " ++ messageOf error
          ++ js ". "
          ++ js "Please convert your CSV file to XLSX format manually and try again.")).

(** *** convertDocument *)

(** [getExtensions(file?.type)[0] || fileName.split('.').pop() || ''] *)
Definition resolveExtension (file : File) : jsstring :=
  orElse
    (orElse (List.hd [] (getExtensions H (file_type file)))
            (fst (pop (split DOT (file_name file)))))
    [].

(** The statements both branches of convertDocument share (lines 415-429
    and 450-464): stage the input, write the parameters, run the
    converter, read the output. *)
Definition runX2t (inputPath : jsstring) (data : bytes) : M BlobPart :=
  let outputPath := inputPath ++ js ".bin" in
  exec fsWriteFile inputPath (FBytes data) ;;
  let params := createConversionParams inputPath outputPath [] in
  exec fsWriteFile (js "/working/params.xml") (FText params) ;;
  exec executeConversion (js "/working/params.xml") ;;
  fsReadFile outputPath.

(** Lines 449-472: the path every format other than CSV takes. *)
Definition convertStandard (name : jsstring) (data : bytes)
    (documentType : Lookup DocumentType) : M ConversionResult :=
  let sanitizedName := Sanitize.sanitizeFileName name in
  let inputPath := js "/working/" ++ sanitizedName in
  do result <- runX2t inputPath data ;;
  do media <- readMediaFiles ;;
  ret {| fileName := sanitizedName; type := documentType;
         bin := result; media := media |}.

(** Lines 397-446: the CSV branch. *)
Definition convertCsv (name : jsstring) (data : bytes)
    (documentType : Lookup DocumentType) : M ConversionResult :=
  if (length data =? 0)%nat then throwError (js "CSV file is empty")
  else
    tryCatch
      (do xlsxFile <- convertCsvToXlsx data name ;;
       let xlsxData := file_bytes xlsxFile in
       let sanitizedName := Sanitize.sanitizeFileName (file_name xlsxFile) in
       let inputPath := js "/working/" ++ sanitizedName in
       do result <- runX2t inputPath xlsxData ;;
       do media <- readMediaFiles ;;
       ret {| fileName := Sanitize.sanitizeFileName name;
              type := documentType; bin := result; media := media |})
      (fun conversionError =>
         throwError
           (js "Failed to convert CSV file: " ++ messageOr conversionError
            ++ js ". "
            ++ js "Please ensure your CSV file is properly formatted and try again.")).

Definition convertDocument (file : File) : M ConversionResult :=
  exec initialize ;;
  let name := file_name file in
  let fileExt := resolveExtension file in
  do documentType <- getDocumentType fileExt ;;
  tryCatch
    (let data := file_bytes file in
     if jsstring_eqb (toLowerCase fileExt) (js "csv")
     then convertCsv name data documentType
     else convertStandard name data documentType)
    (fun error =>
       throwError (js "Document conversion failed: " ++ messageOf error)).

(** *** saveWithFileSystemAPI

    Called without [await]: what it does later (the dialog, the write)
    cannot reach the caller.  The file it is given is what is offered for
    saving, through the picker when the page has one and through an anchor
    download otherwise. *)
Definition saveWithFileSystemAPI (data : bytes) (name : jsstring) : M unit :=
  fun w =>
    (Ok tt,
     withSaved w
       (saved w ++ [{| saved_name := name; saved_data := data;
                       saved_viaPicker := hasSaveFilePicker H |}])).

(** *** convertBinToDocumentAndDownload *)

(** [workbook.Sheets[workbook.SheetNames[0]]]; an absent first name reads
    the property called undefined. *)
Definition firstSheet (workbook : Workbook (sheet H)) : option (sheet H) :=
  let firstSheetName := List.hd (js "undefined") (SheetNames workbook) in
  Sheets workbook !! firstSheetName.

(** Lines 540-583. *)
Definition binToCsv (binData : bytes) (sanitizedBase binFileName
    outputFileName : jsstring) : M BinConversionResult :=
  let xlsxFileName := sanitizedBase ++ js ".xlsx" in
  exec fsWriteFile (js "/working/" ++ binFileName) (FBytes binData) ;;
  let params :=
    createConversionParams (js "/working/" ++ binFileName)
      (js "/working/" ++ xlsxFileName) [] in
  exec fsWriteFile (js "/working/params.xml") (FText params) ;;
  exec executeConversion (js "/working/params.xml") ;;
  do xlsxResult <- fsReadFile (js "/working/" ++ xlsxFileName) ;;
  let xlsxArray := toUint8 xlsxResult in
  exec loadXlsxLibrary ;;
  do workbook <- liftOutcome (XLSX_read_array H xlsxArray) ;;
  let worksheet := firstSheet workbook in
  do csvText <- liftOutcome (XLSX_sheet_to_csv H worksheet) ;;
  let csvTextBytes := utf8_encode H csvText in
  let csvArray := BOM ++ csvTextBytes in
  exec saveWithFileSystemAPI csvArray outputFileName ;;
  ret {| out_fileName := outputFileName; out_data := BUint8 csvArray |}.

(** Lines 585-619. *)
Definition binToStandard (binData : bytes) (targetExt binFileName
    outputFileName : jsstring) : M BinConversionResult :=
  exec fsWriteFile (js "/working/" ++ binFileName) (FBytes binData) ;;
  let additionalParams :=
    if jsstring_eqb targetExt (js "PDF")
    then js "<m_sFontDir>/working/fonts/</m_sFontDir>"
    else [] in
  let params :=
    createConversionParams (js "/working/" ++ binFileName)
      (js "/working/" ++ outputFileName) additionalParams in
  exec fsWriteFile (js "/working/params.xml") (FText params) ;;
  exec executeConversion (js "/working/params.xml") ;;
  do result <- fsReadFile (js "/working/" ++ outputFileName) ;;
  let resultArray := toUint8 result in
  exec saveWithFileSystemAPI resultArray outputFileName ;;
  ret {| out_fileName := outputFileName; out_data := result |}.

Definition convertBinToDocumentAndDownload (binData : bytes)
    (originalFileName : option jsstring) (targetExtArg : option jsstring)
  : M BinConversionResult :=
  let targetExt := default (js "DOCX") targetExtArg in
  exec initialize ;;
  let sanitizedBase := stripExt (sanitizeFileNameOpt originalFileName) in
  let binFileName := sanitizedBase ++ js ".bin" in
  let outputFileName := sanitizedBase ++ js "." ++ toLowerCase targetExt in
  tryCatch
    (if jsstring_eqb (toUpperCase targetExt) (js "CSV")
     then binToCsv binData sanitizedBase binFileName outputFileName
     else binToStandard binData targetExt binFileName outputFileName)
    (fun error =>
       throwError
         (js "Bin to document conversion failed: " ++ messageOf error)).

(** *** The editor side: sendCommand, handleSaveDocument, handleWriteFile *)

(** [window.editor?.sendCommand(c)]; the editor attached to the page is
    one that takes the command and returns. *)
Definition sendCommand (c : Command) : M unit := fun w =>
  if editorAttached w then (Ok tt, withCommands w (commands w ++ [c]))
  else (Ok tt, w).

(** [fileName && fileName.toLowerCase().endsWith('.csv')] *)
Definition tracksCsv (tracked : option jsstring) : bool :=
  match tracked with
  | Some name => negb (isEmpty name) && endsWith (toLowerCase name) (js ".csv")
  | None => false
  end.

Definition handleSaveDocument (event : SaveEvent) : M unit :=
  exec
    (match sv_data event with
     | Some payload =>
         match sp_data payload with
         | Some binData =>
             fun w =>
               let tracked := docFileName w in
               let targetFormat :=
                 if tracksCsv tracked then Some (js "CSV")
                 else c_oAscFileType2 (sp_outputformat payload) in
               (exec convertBinToDocumentAndDownload binData tracked
                       targetFormat ;;
                ret tt) w
         | None => ret tt
         end
     | None => ret tt
     end) ;;
  sendCommand (asc_onSaveCallback 0).

(** The module-level [getMimeTypeFromExtension] (image types). *)
Definition imageMimeMap : gmap jsstring jsstring :=
  list_to_map
    [ (js "png", js "image/png"); (js "jpg", js "image/jpeg");
      (js "jpeg", js "image/jpeg"); (js "gif", js "image/gif");
      (js "bmp", js "image/bmp"); (js "webp", js "image/webp");
      (js "svg", js "image/svg+xml"); (js "ico", js "image/x-icon");
      (js "tiff", js "image/tiff"); (js "tif", js "image/tiff") ].

Definition getMimeTypeFromExtension (extension : jsstring)
  : Lookup jsstring :=
  match readProp imageMimeMap (toLowerCase extension) with
  | Undefined => Own (js "image/png")
  | found => found
  end.

(** [if (event.callback && typeof event.callback === 'function')
    event.callback({...})], in the [catch] block: the read of [callback]
    throws on an event that is null or undefined, and a function found
    there is called with the failure record and does what it does. *)
Definition notifyCallback (event : JsVal) (message : jsstring) : M unit :=
  fun w =>
    if isNullish event then (Throw (cannotReadCallback event), w)
    else
      match getField (js "callback") event with
      | JFun id call =>
          (call, withCallbackCalls w (callbackCalls w ++ [(id, message)]))
      | _ => (Ok tt, w)
      end.

(** The two validations of handleWriteFile: [data] is a [Uint8Array] and
    [file] is a non-empty string. *)
Definition validWritePayload (eventData : JsVal) : bool :=
  match getField (js "data") eventData, getField (js "file") eventData with
  | JUint8 _, JStr fileName => negb (isEmpty fileName)
  | _, _ => false
  end.

(** The body of the [try] block of handleWriteFile, on an event of type
    [any]. *)
Definition writeFileBody (event : JsVal) : M unit :=
  if isNullish event then throw (cannotDestructureData event)
  else
  let eventData := getField (js "data") event in
  if negb (truthy eventData) then ret tt
  else
    let imageData := getField (js "data") eventData in
    let name := getField (js "file") eventData in
    match imageData with
    | JUint8 image =>
        match name with
        | JStr fileName =>
            if isEmpty fileName then throwError (js "Invalid file name")
            else
              let fileExtension :=
                orElse (toLowerCase (fst (pop (split DOT fileName))))
                       (js "png") in
              let mimeType := getMimeTypeFromExtension fileExtension in
              do objectUrl <- createObjectURL
                                {| blob_part := BUint8 image;
                                   blob_type := Some mimeType |} ;;
              fun w =>
                let media' :=
                  <[js "media/" ++ fileName := objectUrl]> (globalMedia w) in
                (exec sendCommand (asc_setImageUrls media') ;;
                 sendCommand (asc_writeFileCallback_ok objectUrl fileName))
                  (withGlobalMedia w media')
        | _ => throwError (js "Invalid file name")
        end
    | _ => throwError (js "Invalid image data: expected Uint8Array")
    end.

(** The [catch] block is not itself guarded: what its two calls throw
    leaves the handler. *)
Definition handleWriteFile (event : JsVal) : M unit :=
  tryCatch
    (writeFileBody event)
    (fun error =>
       exec sendCommand (asc_writeFileCallback_fail (messageOf error)) ;;
       notifyCallback event (messageOf error)).

End WithHost.

End Converter.

(** ** Promises, microtasks and timers

    The part of the event loop the asynchronous code relies on.  A
    continuation of type [K] stands for the rest of an async function after
    an [await], or for a callback; the code that owns [K] says how each one
    resumes. *)

Module Runtime.

Inductive Settled (V : Type) :=
| Fulfilled (v : V)
| Rejected (e : Thrown).
Arguments Fulfilled {V} v.
Arguments Rejected {V} e.

Inductive PromiseState (K V : Type) :=
| Pending (reactions : list K)
| Done (s : Settled V).
Arguments Pending {K V} reactions.
Arguments Done {K V} s.

Record Timer (K : Type) := {
  timer_id : nat;
  timer_due : N;
  timer_callback : K;
}.
Arguments timer_id {K} _.
Arguments timer_due {K} _.
Arguments timer_callback {K} _.

Record Rt (K V : Type) := {
  promises : list (PromiseState K V);
  microtasks : list (K * Settled V);
  timers : list (Timer K);
  nextTimer : nat;
  clock : N;
}.
Arguments promises {K V} _.
Arguments microtasks {K V} _.
Arguments timers {K V} _.
Arguments nextTimer {K V} _.
Arguments clock {K V} _.

Section Ops.

Context {K V : Type}.

Definition emptyRt : Rt K V :=
  {| promises := []; microtasks := []; timers := []; nextTimer := 0%nat;
     clock := 0%N |}.

Definition withPromises (rt : Rt K V) (ps : list (PromiseState K V))
  : Rt K V :=
  {| promises := ps; microtasks := microtasks rt; timers := timers rt;
     nextTimer := nextTimer rt; clock := clock rt |}.

Definition withMicrotasks (rt : Rt K V) (ms : list (K * Settled V))
  : Rt K V :=
  {| promises := promises rt; microtasks := ms; timers := timers rt;
     nextTimer := nextTimer rt; clock := clock rt |}.

(** [new Promise(...)], pending. *)
Definition newPromise (rt : Rt K V) : nat * Rt K V :=
  (length (promises rt), withPromises rt (promises rt ++ [Pending []])).

(** [Promise.resolve()] and an async function that returned already. *)
Definition newSettled (s : Settled V) (rt : Rt K V) : nat * Rt K V :=
  (length (promises rt), withPromises rt (promises rt ++ [Done s])).

(** Calling a promise's [resolve] or [reject] with a plain value.  Only the
    first call counts; the reactions become microtasks, in order. *)
Definition settle (p : nat) (s : Settled V) (rt : Rt K V) : Rt K V :=
  match promises rt !! p with
  | Some (Pending reactions) =>
      withMicrotasks
        (withPromises rt (<[p := Done s]> (promises rt)))
        (microtasks rt ++ List.map (fun k => (k, s)) reactions)
  | _ => rt
  end.

(** [await p] (or [p.then]) with continuation [k]. *)
Definition await (p : nat) (k : K) (rt : Rt K V) : Rt K V :=
  match promises rt !! p with
  | Some (Pending reactions) =>
      withPromises rt (<[p := Pending (reactions ++ [k])]> (promises rt))
  | Some (Done s) => withMicrotasks rt (microtasks rt ++ [(k, s)])
  | None => rt
  end.

(** [setTimeout(callback, delay)] *)
Definition setTimeout (k : K) (delay : N) (rt : Rt K V) : nat * Rt K V :=
  (nextTimer rt,
   {| promises := promises rt; microtasks := microtasks rt;
      timers := timers rt
                ++ [{| timer_id := nextTimer rt;
                       timer_due := (clock rt + delay)%N;
                       timer_callback := k |}];
      nextTimer := S (nextTimer rt); clock := clock rt |}).

(** [clearTimeout(id)] *)
Definition clearTimeout (id : nat) (rt : Rt K V) : Rt K V :=
  {| promises := promises rt; microtasks := microtasks rt;
     timers := List.filter (fun t => negb (timer_id t =? id)%nat) (timers rt);
     nextTimer := nextTimer rt; clock := clock rt |}.

(** The timer that fires next: the earliest due, the oldest among equals. *)
Fixpoint earliest (ts : list (Timer K)) : option (Timer K) :=
  match ts with
  | [] => None
  | t :: rest =>
      match earliest rest with
      | Some t' => if (timer_due t' <? timer_due t)%N then Some t'
                   else Some t
      | None => Some t
      end
  end.

(** Takes the next timer off the list and moves the clock to its time. *)
Definition popTimer (rt : Rt K V) : option (K * Rt K V) :=
  match earliest (timers rt) with
  | None => None
  | Some t =>
      Some (timer_callback t,
            {| promises := promises rt; microtasks := microtasks rt;
               timers := List.filter
                           (fun t' => negb (timer_id t' =? timer_id t)%nat)
                           (timers rt);
               nextTimer := nextTimer rt;
               clock := N.max (clock rt) (timer_due t) |})
  end.

Definition promiseState (p : nat) (rt : Rt K V)
  : option (PromiseState K V) :=
  promises rt !! p.

End Ops.

End Runtime.

Import Runtime.

(** ** The editor operation queue and createEditorInstance *)

Module EditorQueue.

Record Config := {
  cfg_fileName : jsstring;
  cfg_fileType : jsstring;
  cfg_binData : BlobPart;
  cfg_media : option (gmap jsstring nat);
}.

(** Points where the asynchronous code is suspended. *)
Inductive Kont :=
| KAfterTail (resultP : nat) (cfg : Config)
    (* queueEditorOperation, after [await editorOperationQueue] *)
| KAfterOperation (resultP operationPromise : nat)
    (* queueEditorOperation, after [await operation()] *)
| KAfterDestroyWait (opP : nat) (cfg : Config)
    (* the operation, after the wait that follows destroyEditor *)
| KAfterCleanupWait (opP : nat) (cfg : Config)
    (* the operation, after the wait that follows the container cleanup *)
| KTimerResolve (p : nat).
    (* the [resolve] handed to setTimeout *)

Inductive Event :=
| BodyStarted (fileName : jsstring)
| DestroyCalled (instance : nat)
| ContainerCleared
| Constructed (instance : nat) (fileName : jsstring)
| ConstructFailed (fileName : jsstring).

Record State := {
  rt : Rt Kont unit;
  (** [window.editor] *)
  editor : option nat;
  (** instances constructed and not torn down by destroyEditor *)
  live : list nat;
  nextInstance : nat;
  (** the module variable [editorOperationQueue] *)
  editorOperationQueue : nat;
  (** whether [window.DocsAPI] is defined *)
  docsApiLoaded : bool;
  (** whether the attached editor's destroyEditor throws *)
  destroyThrows : bool;
  trace : list Event;
}.

Definition withRt (st : State) (r : Rt Kont unit) : State :=
  {| rt := r; editor := editor st; live := live st;
     nextInstance := nextInstance st;
     editorOperationQueue := editorOperationQueue st;
     docsApiLoaded := docsApiLoaded st; destroyThrows := destroyThrows st;
     trace := trace st |}.

Definition withEditor (st : State) (e : option nat) : State :=
  {| rt := rt st; editor := e; live := live st;
     nextInstance := nextInstance st;
     editorOperationQueue := editorOperationQueue st;
     docsApiLoaded := docsApiLoaded st; destroyThrows := destroyThrows st;
     trace := trace st |}.

Definition withLive (st : State) (l : list nat) : State :=
  {| rt := rt st; editor := editor st; live := l;
     nextInstance := nextInstance st;
     editorOperationQueue := editorOperationQueue st;
     docsApiLoaded := docsApiLoaded st; destroyThrows := destroyThrows st;
     trace := trace st |}.

Definition withQueue (st : State) (q : nat) : State :=
  {| rt := rt st; editor := editor st; live := live st;
     nextInstance := nextInstance st; editorOperationQueue := q;
     docsApiLoaded := docsApiLoaded st; destroyThrows := destroyThrows st;
     trace := trace st |}.

Definition withDocsApi (st : State) (b : bool) : State :=
  {| rt := rt st; editor := editor st; live := live st;
     nextInstance := nextInstance st;
     editorOperationQueue := editorOperationQueue st;
     docsApiLoaded := b; destroyThrows := destroyThrows st;
     trace := trace st |}.

Definition logEvent (st : State) (e : Event) : State :=
  {| rt := rt st; editor := editor st; live := live st;
     nextInstance := nextInstance st;
     editorOperationQueue := editorOperationQueue st;
     docsApiLoaded := docsApiLoaded st; destroyThrows := destroyThrows st;
     trace := trace st ++ [e] |}.

(** The page right after the module is evaluated:
    [editorOperationQueue = Promise.resolve()], no editor. *)
Definition initial (docsApi : bool) : State :=
  let '(q, r) := newSettled (Fulfilled tt) emptyRt in
  {| rt := r; editor := None; live := []; nextInstance := 0;
     editorOperationQueue := q; docsApiLoaded := docsApi;
     destroyThrows := false; trace := [] |}.

(** [await new Promise((resolve) => setTimeout(resolve, 150))] *)
Definition awaitTimeout (delay : N) (k : Kont) (st : State) : State :=
  let '(p, r1) := newPromise (rt st) in
  let '(_, r2) := setTimeout (KTimerResolve p) delay r1 in
  withRt st (await p k r2).

(** Lines 1078-1089: empty the container, then wait. *)
Definition opCleanup (opP : nat) (cfg : Config) (st : State) : State :=
  awaitTimeout 150%N (KAfterCleanupWait opP cfg)
    (logEvent st ContainerCleared).

(** Lines 1066-1076: the operation from its start to its first [await]. *)
Definition opStart (opP : nat) (cfg : Config) (st : State) : State :=
  let st := logEvent st (BodyStarted (cfg_fileName cfg)) in
  match editor st with
  | Some e =>
      let st := logEvent st (DestroyCalled e) in
      if destroyThrows st then
        (* caught and logged; the wait is skipped *)
        opCleanup opP cfg (withEditor st None)
      else
        let st := withLive st (List.filter (fun i => negb (i =? e)%nat)
                                           (live st)) in
        awaitTimeout 150%N (KAfterDestroyWait opP cfg) st
  | None => opCleanup opP cfg st
  end.

(** The message of the [TypeError] raised by [new window.DocsAPI.DocEditor]
    when [window.DocsAPI] is undefined; its wording is the engine's. *)
Definition docsApiMissing : Thrown :=
  ErrorObj (js "Cannot read properties of undefined").

(** Lines 1091-1156: construct the editor; a failure is logged and
    rethrown, which rejects the operation's promise. *)
Definition opConstruct (opP : nat) (cfg : Config) (st : State) : State :=
  if docsApiLoaded st then
    let i := nextInstance st in
    let st :=
      {| rt := settle opP (Fulfilled tt) (rt st); editor := Some i;
         live := live st ++ [i]; nextInstance := S i;
         editorOperationQueue := editorOperationQueue st;
         docsApiLoaded := docsApiLoaded st;
         destroyThrows := destroyThrows st; trace := trace st |} in
    logEvent st (Constructed i (cfg_fileName cfg))
  else
    logEvent (withRt st (settle opP (Rejected docsApiMissing) (rt st)))
             (ConstructFailed (cfg_fileName cfg)).

(** [queueEditorOperation(operation)] up to its first [await]; the result
    is the promise handed back to the caller. *)
Definition queueEditorOperation (cfg : Config) (st : State) : nat * State :=
  let '(resultP, r1) := newPromise (rt st) in
  (resultP,
   withRt st (await (editorOperationQueue st) (KAfterTail resultP cfg) r1)).

Definition createEditorInstance (cfg : Config) (st : State) : nat * State :=
  queueEditorOperation cfg st.

(** How each suspended point goes on once what it waits for settles. *)
Definition resume (k : Kont) (s : Settled unit) (st : State) : State :=
  match k, s with
  | KAfterTail resultP cfg, Fulfilled _ =>
      (* lines 957-969: install the new tail, start the operation *)
      let '(operationPromise, r1) := newPromise (rt st) in
      let st := withQueue (withRt st r1) operationPromise in
      let '(opP, r2) := newPromise (rt st) in
      let st := opStart opP cfg (withRt st r2) in
      withRt st (await opP (KAfterOperation resultP operationPromise) (rt st))
  | KAfterTail resultP cfg, Rejected e =>
      (* line 955 is outside the try: the call rejects here *)
      withRt st (settle resultP (Rejected e) (rt st))
  | KAfterOperation resultP operationPromise, Fulfilled v =>
      withRt st (settle resultP (Fulfilled v)
                   (settle operationPromise (Fulfilled tt) (rt st)))
  | KAfterOperation resultP operationPromise, Rejected e =>
      withRt st (settle resultP (Rejected e)
                   (settle operationPromise (Rejected e) (rt st)))
  | KAfterDestroyWait opP cfg, _ =>
      opCleanup opP cfg (withEditor st None)
  | KAfterCleanupWait opP cfg, _ => opConstruct opP cfg st
  | KTimerResolve p, _ =>
      withRt st (settle p (Fulfilled tt) (rt st))
  end.

(** Runs microtasks until none is left. *)
Fixpoint drain (fuel : nat) (st : State) : State :=
  match fuel with
  | O => st
  | S fuel' =>
      match microtasks (rt st) with
      | [] => st
      | (k, s) :: rest =>
          drain fuel' (resume k s (withRt st (withMicrotasks (rt st) rest)))
      end
  end.

(** What happens on the page, one task at a time. *)
Inductive Action :=
| Script (creates : list Config)
    (* code that calls createEditorInstance for each config, not awaiting *)
| NextTimer
    (* the next timer fires *)
| LoadDocsApi.
    (* the editor API script has loaded *)

Definition perform (a : Action) (st : State) : State :=
  match a with
  | Script creates =>
      List.fold_left (fun st cfg => snd (createEditorInstance cfg st))
                     creates st
  | NextTimer =>
      match popTimer (rt st) with
      | Some (k, r) => resume k (Fulfilled tt) (withRt st r)
      | None => st
      end
  | LoadDocsApi => withDocsApi st true
  end.

Definition step (fuel : nat) (a : Action) (st : State) : State :=
  drain fuel (perform a st).

Definition runActions (fuel : nat) (actions : list Action) (st : State)
  : State :=
  List.fold_left (fun st a => step fuel a st) actions st.

(** Lets every pending timer fire. *)
Fixpoint quiesce (fuel : nat) (st : State) : State :=
  match fuel with
  | O => st
  | S fuel' =>
      match timers (rt st) with
      | [] => st
      | _ => quiesce fuel' (step fuel NextTimer st)
      end
  end.

Definition quiescent (st : State) : bool :=
  match microtasks (rt st), timers (rt st) with
  | [], [] => true
  | _, _ => false
  end.

Definition simpleConfig (name : string) : Config :=
  {| cfg_fileName := js name; cfg_fileType := js "docx";
     cfg_binData := BUint8 []; cfg_media := None |}.

End EditorQueue.

(** ** Booting the converter (initialize, doInitialize, loadScript) *)

Module Init.

(** A promise here settles with a module handle or with [undefined]. *)
Abbreviation Value := (option nat).

Inductive Kont :=
| KInitAfterLoadScript (doInitP : nat)
    (* doInitialize, after [await this.loadScript()] *)
| KThenableJob (outer inner : nat)
    (* an async function returned the promise [inner]: the job that
       subscribes [outer] to it *)
| KSettleFrom (outer : nat)
    (* [outer] takes over the outcome it is given *)
| KTimeout (innerP : nat).
    (* the callback given to setTimeout in doInitialize *)

(** What [x2t.onRuntimeInitialized] closes over. *)
Record ReadyHandler := {
  rh_innerP : nat;
  rh_timeoutId : nat;
  rh_module : nat;
}.

Record State := {
  rt : Rt Kont Value;
  (** fields of the converter *)
  isReady : bool;
  x2tModule : option nat;
  initPromise : option nat;
  hasScriptLoaded : bool;
  (** [window.Module] and the handler stored on it *)
  windowModule : option nat;
  onRuntimeInitialized : option ReadyHandler;
  (** script elements appended and not yet loaded or failed, with the
      promise each one settles *)
  pendingScripts : list nat;
  (** number of times doInitialize was entered *)
  boots : nat;
  (** directories asked of [FS.mkdir] *)
  mkdirs : list jsstring;
}.

Definition INIT_TIMEOUT : N := 300000.

Definition withRt (st : State) (r : Rt Kont Value) : State :=
  {| rt := r; isReady := isReady st; x2tModule := x2tModule st;
     initPromise := initPromise st; hasScriptLoaded := hasScriptLoaded st;
     windowModule := windowModule st;
     onRuntimeInitialized := onRuntimeInitialized st;
     pendingScripts := pendingScripts st; boots := boots st;
     mkdirs := mkdirs st |}.

Definition withInitPromise (st : State) (p : option nat) : State :=
  {| rt := rt st; isReady := isReady st; x2tModule := x2tModule st;
     initPromise := p; hasScriptLoaded := hasScriptLoaded st;
     windowModule := windowModule st;
     onRuntimeInitialized := onRuntimeInitialized st;
     pendingScripts := pendingScripts st; boots := boots st;
     mkdirs := mkdirs st |}.

Definition withHandler (st : State) (h : option ReadyHandler) : State :=
  {| rt := rt st; isReady := isReady st; x2tModule := x2tModule st;
     initPromise := initPromise st; hasScriptLoaded := hasScriptLoaded st;
     windowModule := windowModule st; onRuntimeInitialized := h;
     pendingScripts := pendingScripts st; boots := boots st;
     mkdirs := mkdirs st |}.

Definition initial : State :=
  {| rt := emptyRt; isReady := false; x2tModule := None;
     initPromise := None; hasScriptLoaded := false; windowModule := None;
     onRuntimeInitialized := None; pendingScripts := []; boots := 0;
     mkdirs := [] |}.

(** An async function returns the promise [inner]: its own promise
    [outer] follows it, one job later. *)
Definition adopt (outer inner : nat) (r : Rt Kont Value) : Rt Kont Value :=
  withMicrotasks r (microtasks r ++ [(KThenableJob outer inner, Fulfilled None)]).

(** [loadScript()] up to its return. *)
Definition loadScript (st : State) : nat * State :=
  if hasScriptLoaded st then
    let '(p, r) := newSettled (Fulfilled None) (rt st) in (p, withRt st r)
  else
    let '(p, r1) := newPromise (rt st) in
    let '(scriptP, r2) := newPromise r1 in
    (p,
     {| rt := adopt p scriptP r2; isReady := isReady st;
        x2tModule := x2tModule st; initPromise := initPromise st;
        hasScriptLoaded := hasScriptLoaded st;
        windowModule := windowModule st;
        onRuntimeInitialized := onRuntimeInitialized st;
        pendingScripts := pendingScripts st ++ [scriptP];
        boots := boots st; mkdirs := mkdirs st |}).

(** [doInitialize()] up to its first [await]. *)
Definition doInitialize (st : State) : nat * State :=
  let '(doInitP, r1) := newPromise (rt st) in
  let st :=
    {| rt := r1; isReady := isReady st; x2tModule := x2tModule st;
       initPromise := initPromise st; hasScriptLoaded := hasScriptLoaded st;
       windowModule := windowModule st;
       onRuntimeInitialized := onRuntimeInitialized st;
       pendingScripts := pendingScripts st; boots := S (boots st);
       mkdirs := mkdirs st |} in
  let '(loadP, st) := loadScript st in
  (doInitP, withRt st (await loadP (KInitAfterLoadScript doInitP) (rt st))).

(** [initialize()]; the result is the promise the caller gets. *)
Definition initialize (st : State) : nat * State :=
  match isReady st, x2tModule st with
  | true, Some m =>
      let '(p, r) := newSettled (Fulfilled (Some m)) (rt st) in
      (p, withRt st r)
  | _, _ =>
      let '(p, r) := newPromise (rt st) in
      let st := withRt st r in
      match initPromise st with
      | Some shared => (p, withRt st (adopt p shared (rt st)))
      | None =>
          let '(doInitP, st) := doInitialize st in
          let st := withInitPromise st (Some doInitP) in
          (p, withRt st (adopt p doInitP (rt st)))
      end
  end.

Definition moduleMissing : Thrown :=
  ErrorObj (js "X2T module not found after script loading").

Definition initTimeout : Thrown :=
  ErrorObj (js "X2T initialization timeout after 300000ms").

Definition scriptFailed : Thrown :=
  ErrorObj (js "Failed to load X2T WASM script").

Definition resume (k : Kont) (s : Settled Value) (st : State) : State :=
  match k, s with
  | KInitAfterLoadScript doInitP, Fulfilled _ =>
      (* lines 154-180: the promise built and returned inside the try *)
      let '(innerP, r1) := newPromise (rt st) in
      let st := withRt st r1 in
      let st :=
        match windowModule st with
        | None => withRt st (settle innerP (Rejected moduleMissing) (rt st))
        | Some x2t =>
            let '(timeoutId, r2) :=
              setTimeout (KTimeout innerP) INIT_TIMEOUT (rt st) in
            withHandler (withRt st r2)
              (Some {| rh_innerP := innerP; rh_timeoutId := timeoutId;
                       rh_module := x2t |})
        end in
      withRt st (adopt doInitP innerP (rt st))
  | KInitAfterLoadScript doInitP, Rejected e =>
      (* lines 181-184: the catch block *)
      let st := withInitPromise st None in
      withRt st (settle doInitP (Rejected e) (rt st))
  | KThenableJob outer inner, _ =>
      withRt st (await inner (KSettleFrom outer) (rt st))
  | KSettleFrom outer, s => withRt st (settle outer s (rt st))
  | KTimeout innerP, _ =>
      if isReady st then st
      else withRt st (settle innerP (Rejected initTimeout) (rt st))
  end.

Fixpoint drain (fuel : nat) (st : State) : State :=
  match fuel with
  | O => st
  | S fuel' =>
      match microtasks (rt st) with
      | [] => st
      | (k, s) :: rest =>
          drain fuel' (resume k s (withRt st (withMicrotasks (rt st) rest)))
      end
  end.

(** What happens on the page, one task at a time. *)
Inductive Action :=
| CallInitialize (times : nat)
    (* code that calls initialize this many times, not awaiting *)
| ScriptLoaded (defines : option nat)
    (* the oldest pending script has run and its onload fires; [defines]
       is the module it registered as window.Module, if any *)
| ScriptFailed
    (* the oldest pending script fires onerror *)
| RuntimeReady
    (* the module calls its onRuntimeInitialized *)
| NextTimer.

Definition perform (a : Action) (st : State) : State :=
  match a with
  | CallInitialize times =>
      Nat.iter times (fun st => snd (initialize st)) st
  | ScriptLoaded defines =>
      match pendingScripts st with
      | [] => st
      | scriptP :: rest =>
          {| rt := settle scriptP (Fulfilled None) (rt st);
             isReady := isReady st; x2tModule := x2tModule st;
             initPromise := initPromise st; hasScriptLoaded := true;
             windowModule :=
               match defines with
               | Some m => Some m
               | None => windowModule st
               end;
             onRuntimeInitialized := onRuntimeInitialized st;
             pendingScripts := rest; boots := boots st;
             mkdirs := mkdirs st |}
      end
  | ScriptFailed =>
      match pendingScripts st with
      | [] => st
      | scriptP :: rest =>
          {| rt := settle scriptP (Rejected scriptFailed) (rt st);
             isReady := isReady st; x2tModule := x2tModule st;
             initPromise := initPromise st;
             hasScriptLoaded := hasScriptLoaded st;
             windowModule := windowModule st;
             onRuntimeInitialized := onRuntimeInitialized st;
             pendingScripts := rest; boots := boots st;
             mkdirs := mkdirs st |}
      end
  | RuntimeReady =>
      match onRuntimeInitialized st with
      | None => st
      | Some h =>
          (* lines 168-179; each mkdir is guarded on its own *)
          {| rt := settle (rh_innerP h) (Fulfilled (Some (rh_module h)))
                     (clearTimeout (rh_timeoutId h) (rt st));
             isReady := true; x2tModule := Some (rh_module h);
             initPromise := initPromise st;
             hasScriptLoaded := hasScriptLoaded st;
             windowModule := windowModule st;
             onRuntimeInitialized := onRuntimeInitialized st;
             pendingScripts := pendingScripts st; boots := boots st;
             mkdirs := mkdirs st ++ Converter.WORKING_DIRS |}
      end
  | NextTimer =>
      match popTimer (rt st) with
      | Some (k, r) => resume k (Fulfilled None) (withRt st r)
      | None => st
      end
  end.

Definition step (fuel : nat) (a : Action) (st : State) : State :=
  drain fuel (perform a st).

Definition runActions (fuel : nat) (actions : list Action) (st : State)
  : State :=
  List.fold_left (fun st a => step fuel a st) actions st.

(** The promise handed to the [n]-th caller of initialize, when those
    calls are the only source of promises numbered this way. *)
Definition settledAs (p : nat) (st : State) : option (Settled Value) :=
  match promiseState p (rt st) with
  | Some (Done s) => Some s
  | _ => None
  end.

End Init.

(** ** What a computation may touch

    Two worlds are related by [moduleStep] when the second differs from the
    first only on the converter side: calls were appended to the log, blobs
    were added, a module that was there is still there, and nothing on the
    editor side (saved files, commands, tracked document, editor handle)
    moved. *)

Module Effects.

Section WithHost.

Context {H : Host}.

Definition moduleStep (w w' : World H) : Prop :=
  (exists calls, hostLog w' = hostLog w ++ calls)
  /\ (is_Some (x2tModule w) -> is_Some (x2tModule w'))
  /\ saved w' = saved w
  /\ commands w' = commands w
  /\ docFileName w' = docFileName w
  /\ editorAttached w' = editorAttached w.

Definition moduleOnly {A} (m : M H A) : Prop :=
  forall w o w', m w = (o, w') -> moduleStep w w'.


End WithHost.

End Effects.

Import Effects.

(** ** A sample page

    One concrete choice of the collaborators, on which the statements can be
    run: an in-memory filesystem, a converter that always reports success and
    leaves the outputs of the document [report] behind, and a spreadsheet
    library whose sheets are their CSV text. *)

Module Sample.

Definition readFile (path : jsstring) (m : gmap jsstring FileData)
  : Outcome BlobPart :=
  match m !! path with
  | Some (FBytes b) => Ok (BUint8 b)
  | Some (FText _) => Ok (BBuffer [])
  | None => Throw (ErrorObj (js "ENOENT"))
  end.

Definition main1 (paramsPath : jsstring) (m : gmap jsstring FileData)
  : Z * gmap jsstring FileData :=
  (0%Z,
   <[js "/working/report.xlsx.bin" := FBytes [Byte.x01]]>
     (<[js "/working/report.xlsx" := FBytes [Byte.x50; Byte.x4b]]>
        (<[js "/working/report.docx.bin" := FBytes [Byte.x02]]>
           (<[js "/working/notes.constructor.bin" := FBytes [Byte.x03]]>
              (<[js "/working/media/image1.png" := FBytes [Byte.x89]]>
                 (<[js "/working/media/image2.png" := FBytes [Byte.x8a]]>
                    m)))))).

Definition sampleWorkbook : Workbook jsstring :=
  {| SheetNames := [js "Sheet1"; js "Sheet2"];
     Sheets := <[js "Sheet1" := js "a,b"]> (<[js "Sheet2" := js "c"]> ∅) |}.

Definition page : Host :=
  {| modst := gmap jsstring FileData;
     FS_mkdir := fun _ m => (Ok tt, m);
     FS_readdir := fun path m =>
       if jsstring_eqb path (js "/working/media/")
       then Ok [js "."; js ".."; js "image1.png"; js "broken";
                js "image2.png"]
       else Throw (ErrorObj (js "ENOTDIR"));
     FS_readFile := readFile;
     FS_writeFile := fun path data m => (Ok tt, <[path := data]> m);
     ccall_main1 := main1;
     scriptLoad := Ok tt;
     boot := Ok ∅;
     getExtensions := fun mime =>
       if jsstring_eqb mime (js "text/csv") then [js "csv"] else [];
     sheet := jsstring;
     loadXlsx := Ok tt;
     XLSX_read_string := fun text =>
       Ok {| SheetNames := [js "Sheet1"];
             Sheets := <[js "Sheet1" := text]> ∅ |};
     XLSX_read_array := fun _ => Ok sampleWorkbook;
     XLSX_write := fun _ => Ok [Byte.x50; Byte.x4b];
     XLSX_sheet_to_csv := fun s =>
       match s with
       | Some text => Ok text
       | None => Throw (ErrorObj (js "no sheet"))
       end;
     utf8_decode := List.map (fun b => N_of_ascii (ascii_of_byte b));
     utf8_encode := List.map (fun c => byte_of_ascii (ascii_of_N c));
     hasSaveFilePicker := false |}.

(** The page with a ready converter, an attached editor and [name] as the
    tracked document. *)
Definition readyWorld (name : string) : World page :=
  {| isReady := true; x2tModule := Some (snd (main1 [] ∅) : modst page);
     hostLog := []; blobs := []; saved := [];
     docFileName := Some (js name); editorAttached := true;
     commands := []; globalMedia := ∅; callbackCalls := [];
     initPromise := None; hasScriptLoaded := true |}.

Definition reportCsv : File :=
  {| file_name := js "report.csv"; file_type := js "text/csv";
     file_bytes := [Byte.x61; Byte.x2c; Byte.x62] |}.

End Sample.

(** ** Tables and helpers around the converter *)

Module Tables.

(** The constant [oAscFileType], as written. *)
Definition oAscFileType : list (jsstring * Z) :=
    [ (js "UNKNOWN", 0); (js "PDF", 513); (js "PDFA", 521); (js "DJVU", 515);
      (js "XPS", 516); (js "DOCX", 65); (js "DOC", 66); (js "ODT", 67); (js "RTF", 68);
      (js "TXT", 69); (js "HTML", 70); (js "MHT", 71); (js "EPUB", 72); (js "FB2", 73);
      (js "MOBI", 74); (js "DOCM", 75); (js "DOTX", 76); (js "DOTM", 77);
      (js "FODT", 78); (js "OTT", 79); (js "DOC_FLAT", 80); (js "DOCX_FLAT", 81);
      (js "HTML_IN_CONTAINER", 82); (js "DOCX_PACKAGE", 84); (js "OFORM", 85);
      (js "DOCXF", 86); (js "DOCY", 4097); (js "CANVAS_WORD", 8193);
      (js "JSON", 2056); (js "XLSX", 257); (js "XLS", 258); (js "ODS", 259);
      (js "CSV", 260); (js "XLSM", 261); (js "XLTX", 262); (js "XLTM", 263);
      (js "XLSB", 264); (js "FODS", 265); (js "OTS", 266); (js "XLSX_FLAT", 267);
      (js "XLSX_PACKAGE", 268); (js "XLSY", 4098); (js "PPTX", 129); (js "PPT", 130);
      (js "ODP", 131); (js "PPSX", 132); (js "PPTM", 133); (js "PPSM", 134);
      (js "POTX", 135); (js "POTM", 136); (js "FODP", 137); (js "OTP", 138);
      (js "PPTX_PACKAGE", 139); (js "IMG", 1024); (js "JPG", 1025);
      (js "TIFF", 1026); (js "TGA", 1027); (js "GIF", 1028); (js "PNG", 1029);
      (js "EMF", 1030); (js "WMF", 1031); (js "BMP", 1032); (js "CR2", 1033);
      (js "PCX", 1034); (js "RAS", 1035); (js "PSD", 1036); (js "ICO", 1037) ]%Z.

(** The exported [getDocumentType(fileType)] (lines 933-943); [None] is
    its [null]. *)
Definition getDocumentTypeExported (fileType : jsstring)
  : option DocumentType :=
  let type := toLowerCase fileType in
  if jsstring_eqb type (js "docx") || jsstring_eqb type (js "doc")
  then Some word
  else if jsstring_eqb type (js "xlsx") || jsstring_eqb type (js "xls")
          || jsstring_eqb type (js "csv")
  then Some cell
  else if jsstring_eqb type (js "pptx") || jsstring_eqb type (js "ppt")
  then Some slide
  else None.

(** The converter's own [getMimeTypeFromExtension] (lines 650-682). *)
Definition mimeMap : gmap jsstring jsstring :=
  list_to_map
    [ (js "docx",
       js "application/vnd.openxmlformats-officedocument.wordprocessingml.document");
      (js "doc", js "application/msword");
      (js "odt", js "application/vnd.oasis.opendocument.text");
      (js "rtf", js "application/rtf");
      (js "txt", js "text/plain");
      (js "pdf", js "application/pdf");
      (js "xlsx",
       js "application/vnd.openxmlformats-officedocument.spreadsheetml.sheet");
      (js "xls", js "application/vnd.ms-excel");
      (js "ods", js "application/vnd.oasis.opendocument.spreadsheet");
      (js "csv", js "text/csv");
      (js "pptx",
       js "application/vnd.openxmlformats-officedocument.presentationml.presentation");
      (js "ppt", js "application/vnd.ms-powerpoint");
      (js "odp", js "application/vnd.oasis.opendocument.presentation");
      (js "png", js "image/png"); (js "jpg", js "image/jpeg");
      (js "jpeg", js "image/jpeg"); (js "gif", js "image/gif");
      (js "bmp", js "image/bmp"); (js "webp", js "image/webp");
      (js "svg", js "image/svg+xml") ].

Definition converterMimeType (extension : jsstring) : Lookup jsstring :=
  match readProp mimeMap (toLowerCase extension) with
  | Undefined => Own (js "application/octet-stream")
  | found => found
  end.

(** [getFileDescription] (lines 687-705). *)
Definition descriptionMap : gmap jsstring jsstring :=
  list_to_map
    [ (js "docx", js "Word Document");
      (js "doc", js "Word 97-2003 Document");
      (js "odt", js "OpenDocument Text");
      (js "pdf", js "PDF Document");
      (js "xlsx", js "Excel Workbook");
      (js "xls", js "Excel 97-2003 Workbook");
      (js "ods", js "OpenDocument Spreadsheet");
      (js "pptx", js "PowerPoint Presentation");
      (js "ppt", js "PowerPoint 97-2003 Presentation");
      (js "odp", js "OpenDocument Presentation");
      (js "txt", js "Text Document");
      (js "rtf", js "Rich Text Format");
      (js "csv", js "CSV File") ].

Definition getFileDescription (extension : jsstring) : Lookup jsstring :=
  match readProp descriptionMap (toLowerCase extension) with
  | Undefined => Own (js "Document")
  | found => found
  end.

(** What saveWithFileSystemAPI hands to [showSaveFilePicker] (lines
    716-731) when no MIME type is passed in. *)
Record PickerRequest := {
  suggestedName : jsstring;
  description : Lookup jsstring;
  acceptMime : Lookup jsstring;
  acceptExtension : jsstring;
}.

Definition pickerRequest (name : jsstring) : PickerRequest :=
  let extension := orElse (toLowerCase (fst (pop (split DOT name)))) [] in
  {| suggestedName := name;
     description := getFileDescription extension;
     acceptMime := converterMimeType extension;
     acceptExtension := DOT :: extension |}.

(** The first lines of the unused [convertCsvDirectly]: the data with the
    marker put in front unless it is there already. *)
Definition hasBOM (data : bytes) : bool :=
  match data with
  | Byte.xef :: Byte.xbb :: Byte.xbf :: _ => true
  | _ => false
  end.

Definition withBOM (data : bytes) : bytes :=
  if hasBOM data then data else BOM ++ data.

(** [getBasePath] (lines 64-76), on [window.location.pathname]; [None]
    stands for a missing [window]. *)
Definition startsWith (s prefix : jsstring) : bool :=
  jsstring_eqb (firstn (length prefix) s) prefix.

Definition getBasePath (pathname : option jsstring) : jsstring :=
  match pathname with
  | None => js "/"
  | Some p =>
      if startsWith p (js "/document/") || jsstring_eqb p (js "/document")
      then js "/document/"
      else js "/"
  end.

End Tables.

(** ** Internationalisation (lib/i18n.ts) *)

Module I18n.

Inductive Language := ZH | EN.

(** The enum values: ['zh'] and ['en']. *)
Definition languageCode (l : Language) : jsstring :=
  match l with
  | ZH => js "zh"
  | EN => js "en"
  end.

Definition HYPHEN : N := 45.
Definition UNDERSCORE : N := 95.
Definition SPACE : N := 32.
Definition SEMICOLON : N := 59.

(** [s.split(/[-_]/)[0]]: the text before the first hyphen or underscore. *)
Fixpoint firstSegment (s : jsstring) : jsstring :=
  match s with
  | [] => []
  | c :: s' =>
      if (c =? HYPHEN) || (c =? UNDERSCORE) then [] else c :: firstSegment s'
  end.

(** normalizeLanguage; [None] on the left is [null], on the right too. *)
Definition normalizeLanguage (lang : option jsstring) : option Language :=
  match lang with
  | None => None
  | Some l =>
      if isEmpty l then None
      else
        let normalized := firstSegment (toLowerCase l) in
        if jsstring_eqb normalized (js "zh") then Some ZH
        else if jsstring_eqb normalized (js "en") then Some EN
        else None
  end.

(** [while (c.charAt(0) === ' ') c = c.substring(1, c.length)] *)
Fixpoint dropSpaces (c : jsstring) : jsstring :=
  match c with
  | [] => []
  | x :: rest => if x =? SPACE then dropSpaces rest else c
  end.

(** The loop of getCookie over the parts of [document.cookie]. *)
Fixpoint findCookie (nameEQ : jsstring) (ca : list jsstring)
  : option jsstring :=
  match ca with
  | [] => None
  | c :: rest =>
      let c := dropSpaces c in
      if Tables.startsWith c nameEQ
      then Some (skipn (length nameEQ) c)
      else findCookie nameEQ rest
  end.

(** getCookie; the first argument of the model is [document.cookie], absent
    when there is no [document]. *)
Definition getCookie (cookie : option jsstring) (name : jsstring)
  : option jsstring :=
  match cookie with
  | None => None
  | Some text => findCookie (name ++ js "=") (split SEMICOLON text)
  end.

(** What the constructor reads from the page. *)
Record Environment := {
  urlLocale : option jsstring;        (* the URL parameter [locale] *)
  documentCookie : option jsstring;   (* [document.cookie] *)
  storedLang : option jsstring;       (* localStorage item [document-lang] *)
  navigatorLanguage : option jsstring;
}.

(** [a || b] on detected languages. *)
Definition orLang (a b : option Language) : option Language :=
  match a with
  | Some l => Some l
  | None => b
  end.

(** The constructor: URL, then cookie, then localStorage, then the browser
    language, then English. *)
Definition detectLanguage (env : Environment) : Language :=
  let detected := normalizeLanguage (urlLocale env) in
  let detected :=
    match detected with
    | Some l => Some l
    | None => normalizeLanguage (getCookie (documentCookie env) (js "locale"))
    end in
  let detected :=
    match detected with
    | Some l => Some l
    | None =>
        match storedLang env with
        | Some saved =>
            if negb (isEmpty saved)
               && (jsstring_eqb saved (js "zh") || jsstring_eqb saved (js "en"))
            then (if jsstring_eqb saved (js "zh") then Some ZH else Some EN)
            else None
        | None => None
        end
    end in
  let detected :=
    match detected with
    | Some l => Some l
    | None =>
        let browserLang :=
          match navigatorLanguage env with
          | Some l => if isEmpty l then js "en" else l
          | None => js "en"
          end in
        normalizeLanguage (Some browserLang)
    end in
  match detected with
  | Some l => l
  | None => EN
  end.

(** The instance: its language, the stored item and the language-change
    events it has dispatched. *)
Record I18nState := {
  currentLanguage : Language;
  localStorageLang : option jsstring;
  dispatched : list jsstring;
}.

(** setLanguage, on whatever string it is called with. *)
Definition setLanguage (lang : jsstring) (st : I18nState) : I18nState :=
  if jsstring_eqb lang (js "zh") || jsstring_eqb lang (js "en")
  then {| currentLanguage := if jsstring_eqb lang (js "zh") then ZH else EN;
          localStorageLang := Some lang;
          dispatched := dispatched st ++ [lang] |}
  else st.

(** getOnlyOfficeLang *)
Definition getOnlyOfficeLang (l : Language) : jsstring :=
  match l with
  | ZH => js "zh-CN"
  | EN => js "en"
  end.

End I18n.

(** ** Failing computations *)

Module Failures.

Section WithHost.

Context {H : Host}.

(** [quietOnThrow m]: when [m] throws it has offered nothing for saving,
    sent no command and left the editor handle alone. *)
Definition quietOnThrow {A} (m : M H A) : Prop :=
  forall w e w', m w = (Throw e, w') ->
    saved w' = saved w /\ commands w' = commands w
    /\ editorAttached w' = editorAttached w.

(** A world of the page before any boot: no module, nothing logged. *)
Definition freshWorld : World H :=
  {| isReady := false; x2tModule := None; hostLog := []; blobs := [];
     saved := []; docFileName := None; editorAttached := false;
     commands := []; globalMedia := ∅; callbackCalls := [];
     initPromise := None; hasScriptLoaded := false |}.

End WithHost.

End Failures.

Import Failures.

(** ** The document operation entry point (handleDocumentOperation) *)

Module Facade.

(** The message keys this file asks of [t]. *)
Inductive MessageKey :=
| unsupportedFileType
| invalidFileObject
| documentOperationFailed.

Record Options := {
  opt_isNew : bool;
  opt_fileName : jsstring;
  opt_file : option File;
}.

(** What a call leaves behind for its caller and the user: how the returned
    promise settles, the alerts shown, and the configurations handed to
    createEditorInstance. *)
Record Report := {
  outcome : Outcome unit;
  alerts : list jsstring;
  created : list EditorQueue.Config;
}.

(** [error.message] inside a template literal; a thrown value that is not
    an [Error] is taken to be one with no [message] property. *)
Definition messageText (e : Thrown) : jsstring :=
  match e with
  | ErrorObj m => m
  | OtherThrown => js "undefined"
  end.

Section WithHost.

Context {H : Host}.

(** The empty-template table of [./empty_bin] (its truthy entries), the
    translation function, and what awaiting createEditorInstance yields for a
    configuration. *)
Context (g_sEmpty_bin : jsstring -> option BlobPart).
Context (t : MessageKey -> jsstring).
Context (awaitCreate : EditorQueue.Config -> Outcome unit).

(** [getExtensions(file?.type || '')[0] || fileName.split('.').pop() || ''] *)
Definition resolveFileType (options : Options) : jsstring :=
  let mime :=
    match opt_file options with
    | Some f => file_type f
    | None => []
    end in
  orElse
    (orElse (List.hd [] (getExtensions H mime))
            (fst (pop (split DOT (opt_fileName options)))))
    [].

(** Lines 1177-1189: the binary payload and the media, from the template
    table or from the converter. *)
Definition documentData (options : Options)
  : M H (BlobPart * option (gmap jsstring nat)) :=
  let fileType := resolveFileType options in
  if opt_isNew options then
    match g_sEmpty_bin (DOT :: fileType) with
    | None => throwError (t unsupportedFileType ++ fileType)
    | Some emptyBin => ret (emptyBin, None)
    end
  else
    match opt_file options with
    | None => throwError (t invalidFileObject)
    | Some file =>
        do r <- Converter.convertDocument file ;;
        ret (bin r, Some (media r))
    end.

Definition failure (e : Thrown) (created : list EditorQueue.Config)
  : Report :=
  {| outcome := Throw e;
     alerts := [t documentOperationFailed ++ messageText e];
     created := created |}.

Definition handleDocumentOperation (options : Options) (w : World H)
  : Report * World H :=
  match documentData options w with
  | (Ok (binData, mediaMap), w') =>
      let cfg :=
        {| EditorQueue.cfg_fileName := opt_fileName options;
           EditorQueue.cfg_fileType := resolveFileType options;
           EditorQueue.cfg_binData := binData;
           EditorQueue.cfg_media := mediaMap |} in
      match awaitCreate cfg with
      | Ok _ => ({| outcome := Ok tt; alerts := []; created := [cfg] |}, w')
      | Throw e => (failure e [cfg], w')
      end
  | (Throw e, w') => (failure e [], w')
  end.

End WithHost.

End Facade.
(** ** An idle page *)

Module QueueState.

Import EditorQueue.

(** Nothing is in flight: no microtask and no timer is pending, the tail of
    the queue has been fulfilled, the editor API is loaded, the attached
    editor can be destroyed, and the instances alive are the one in
    [window.editor], if any. *)
Definition idle (st : State) : Prop :=
  microtasks (rt st) = []
  /\ timers (rt st) = []
  /\ promises (rt st) !! editorOperationQueue st = Some (Done (Fulfilled tt))
  /\ docsApiLoaded st = true
  /\ destroyThrows st = false
  /\ live st = match editor st with Some e => [e] | None => [] end.

(** A page on which each document is opened once the one before has been
    shown. *)
Definition openInTurn (fuel : nat) (configs : list Config) (st : State)
  : State :=
  List.fold_left
    (fun st cfg => quiesce fuel (step fuel (Script [cfg]) st)) configs st.

End QueueState.

(** * Properties *)

(** ** Strings *)

Section StringFacts.

Lemma split_nonempty sep s : split sep s <> [].
Proof.
  destruct s as [|c s]; simpl; [discriminate|].
  destruct (c =? sep); [discriminate|].
  destruct (split sep s); discriminate.
Qed.

Lemma join_split sep s : join sep (split sep s) = s.
Proof.
  induction s as [|c s IH]; simpl; [reflexivity|].
  destruct (N.eqb_spec c sep) as [->|Hne].
  - pose proof (split_nonempty sep s) as Hn.
    destruct (split sep s) as [|p ps] eqn:E; [congruence|].
    simpl. simpl in IH. rewrite IH. reflexivity.
  - pose proof (split_nonempty sep s) as Hn.
    destruct (split sep s) as [|p ps] eqn:E; [congruence|].
    simpl in *. destruct ps; simpl in *; rewrite <- IH; reflexivity.
Qed.

Lemma split_no_sep sep s :
  forallb (fun c => negb (c =? sep)) s = true -> split sep s = [s].
Proof.
  induction s as [|c s IH]; simpl; [reflexivity|].
  intros Hs. apply andb_prop in Hs as [Hc Hs].
  destruct (c =? sep); [discriminate|].
  rewrite (IH Hs). reflexivity.
Qed.

Lemma split_app_sep sep base ext :
  forallb (fun c => negb (c =? sep)) ext = true ->
  split sep (base ++ sep :: ext) = split sep base ++ [ext].
Proof.
  intros Hext. induction base as [|c b IH]; simpl.
  - rewrite N.eqb_refl, (split_no_sep _ _ Hext). reflexivity.
  - rewrite IH. destruct (c =? sep); [reflexivity|].
    pose proof (split_nonempty sep b) as Hn.
    destruct (split sep b) as [|p ps]; [congruence|]. reflexivity.
Qed.

Lemma split_last_no_sep sep s :
  forallb (fun c => negb (c =? sep)) (List.last (split sep s) []) = true.
Proof.
  induction s as [|c s IH]; [reflexivity|].
  simpl split. pose proof (split_nonempty sep s) as Hn.
  destruct (N.eqb_spec c sep) as [->|Hne].
  - destruct (split sep s) as [|p ps] eqn:E; [congruence|]. exact IH.
  - destruct (split sep s) as [|p ps] eqn:E; [congruence|].
    destruct ps as [|q qs]; [|exact IH].
    simpl in *. rewrite IH.
    apply N.eqb_neq in Hne. rewrite Hne. reflexivity.
Qed.

Lemma pop_snoc parts e : pop (parts ++ [e]) = (e, parts).
Proof.
  unfold pop. rewrite List.last_last, List.removelast_last. reflexivity.
Qed.

Lemma trimEnd_cons c s :
  trimEnd (c :: s) =
  match trimEnd s with
  | [] => if isWhite c then [] else [c]
  | t => c :: t
  end.
Proof. reflexivity. Qed.

Lemma trimEnd_idem s : trimEnd (trimEnd s) = trimEnd s.
Proof.
  induction s as [|c s IH]; [reflexivity|].
  rewrite trimEnd_cons. destruct (trimEnd s) as [|d t] eqn:E.
  - destruct (isWhite c) eqn:W; [reflexivity|].
    rewrite trimEnd_cons. simpl. rewrite W. reflexivity.
  - rewrite trimEnd_cons, IH. reflexivity.
Qed.

Lemma trimEnd_head c s :
  isWhite c = false -> exists t, trimEnd (c :: s) = c :: t.
Proof.
  intros W. rewrite trimEnd_cons. destruct (trimEnd s); rewrite ?W; eauto.
Qed.

Lemma trimStart_head s :
  trimStart s = [] \/ exists c t, trimStart s = c :: t /\ isWhite c = false.
Proof.
  induction s as [|c s IH]; simpl; [left; reflexivity|].
  destruct (isWhite c) eqn:W; [exact IH|]. right. eauto.
Qed.

Lemma trim_idem s : trim (trim s) = trim s.
Proof.
  unfold trim. destruct (trimStart_head s) as [E|(c & t & E & W)].
  - rewrite E. reflexivity.
  - rewrite E. destruct (trimEnd_head c t W) as [u Eu].
    rewrite Eu. simpl trimStart. rewrite W. rewrite <- Eu.
    apply trimEnd_idem.
Qed.

Lemma trimStart_forallb P s :
  forallb P s = true -> forallb P (trimStart s) = true.
Proof.
  induction s as [|c s IH]; simpl; [auto|].
  intros Hs. apply andb_prop in Hs as [Hc Hs].
  destruct (isWhite c); [auto|]. simpl. rewrite Hc, Hs. reflexivity.
Qed.

Lemma trimEnd_forallb P s :
  forallb P s = true -> forallb P (trimEnd s) = true.
Proof.
  induction s as [|c s IH]; simpl; [auto|].
  intros Hs. apply andb_prop in Hs as [Hc Hs]. specialize (IH Hs).
  destruct (trimEnd s) as [|d t].
  - destruct (isWhite c); simpl; rewrite ?Hc; reflexivity.
  - change (P c && forallb P (d :: t) = true). rewrite Hc. exact IH.
Qed.

Lemma trim_forallb P s : forallb P s = true -> forallb P (trim s) = true.
Proof. intros Hs. apply trimEnd_forallb, trimStart_forallb, Hs. Qed.

Lemma trimEnd_keeps_nonwhite s c t :
  isWhite c = false -> trimEnd (s ++ c :: t) <> [].
Proof.
  intros W. induction s as [|d s IH].
  - simpl app. rewrite trimEnd_cons.
    destruct (trimEnd t); rewrite ?W; discriminate.
  - simpl app. rewrite trimEnd_cons.
    destruct (trimEnd (s ++ c :: t)); [congruence|discriminate].
Qed.

Lemma trimStart_keeps_nonwhite s c t :
  isWhite c = false -> exists s', trimStart (s ++ c :: t) = s' ++ c :: t.
Proof.
  intros W. induction s as [|d s IH]; simpl.
  - rewrite W. exists []. reflexivity.
  - destruct (isWhite d); [exact IH|]. exists (d :: s). reflexivity.
Qed.

Lemma trim_keeps_nonwhite s c t :
  isWhite c = false -> isEmpty (trim (s ++ c :: t)) = false.
Proof.
  intros W. unfold trim.
  destruct (trimStart_keeps_nonwhite s c t W) as [s' ->].
  pose proof (trimEnd_keeps_nonwhite s' c t W) as Hn.
  destruct (trimEnd (s' ++ c :: t)); [congruence|reflexivity].
Qed.

End StringFacts.

(** ** sanitizeFileName *)

Section SanitizeFacts.

Import Sanitize.

Lemma removeAll_noneOf cls s : noneOf cls (removeAll cls s) = true.
Proof.
  unfold noneOf, removeAll. induction s as [|c s IH]; simpl; [reflexivity|].
  destruct (cls c) eqn:E; simpl; [exact IH|]. rewrite E. exact IH.
Qed.

Lemma removeAll_forallb P cls s :
  forallb P s = true -> forallb P (removeAll cls s) = true.
Proof.
  unfold removeAll. induction s as [|c s IH]; simpl; [auto|].
  intros Hs. apply andb_prop in Hs as [Hc Hs].
  destruct (cls c); simpl; [auto|]. rewrite Hc. auto.
Qed.

Lemma removeAll_id cls s : noneOf cls s = true -> removeAll cls s = s.
Proof.
  unfold noneOf, removeAll. induction s as [|c s IH]; simpl; [auto|].
  intros Hs. apply andb_prop in Hs as [Hc Hs].
  rewrite Hc, (IH Hs). reflexivity.
Qed.

Lemma removeReserved_forallb P s :
  forallb P s = true -> forallb P (removeReserved s) = true.
Proof. unfold removeReserved. destruct (allDots s); auto. Qed.

Lemma orElse_forallb P a b :
  forallb P a = true -> forallb P b = true -> forallb P (orElse a b) = true.
Proof. unfold orElse. destruct (isEmpty a); auto. Qed.

Lemma firstn_forallb P n (s : jsstring) :
  forallb P s = true -> forallb P (firstn n s) = true.
Proof.
  revert n. induction s as [|c s IH]; intros [|n]; simpl; auto.
  intros Hs. apply andb_prop in Hs as [Hc Hs]. rewrite Hc. simpl. auto.
Qed.

Lemma cleanName_no_illegal name : noneOf illegalChar (cleanName name) = true.
Proof.
  unfold cleanName, noneOf.
  apply orElse_forallb; [|reflexivity].
  apply trim_forallb, removeAll_forallb, removeReserved_forallb,
    removeAll_forallb, removeAll_noneOf.
Qed.

Lemma cleanName_no_control name : noneOf controlChar (cleanName name) = true.
Proof.
  unfold cleanName, noneOf.
  apply orElse_forallb; [|reflexivity].
  apply trim_forallb, removeAll_forallb, removeReserved_forallb,
    removeAll_noneOf.
Qed.

Lemma cleanName_no_unsafe name : noneOf unsafeChar (cleanName name) = true.
Proof.
  unfold cleanName, noneOf.
  apply orElse_forallb; [|reflexivity].
  apply trim_forallb, removeAll_noneOf.
Qed.



Lemma cleanName_nonempty name : isEmpty (cleanName name) = false.
Proof.
  unfold cleanName, orElse.
  destruct (isEmpty (trim _)) eqn:E; [reflexivity | exact E].
Qed.

Lemma cleanName_trimmed name : trim (cleanName name) = cleanName name.
Proof.
  unfold cleanName, orElse.
  destruct (isEmpty (trim _)) eqn:E; [reflexivity | apply trim_idem].
Qed.

(** A cleaned name that is not made of dots only is left as it is by a
    second cleaning. *)
Lemma cleanName_fixed name :
  allDots (cleanName name) = false ->
  cleanName (cleanName name) = cleanName name.
Proof.
  intros Hd.
  pose proof (cleanName_no_illegal name) as Hi.
  pose proof (cleanName_no_control name) as Hc.
  pose proof (cleanName_no_unsafe name) as Hu.
  pose proof (cleanName_trimmed name) as Ht.
  pose proof (cleanName_nonempty name) as Hn.
  remember (cleanName name) as b eqn:Eb. clear Eb.
  unfold cleanName.
  rewrite (removeAll_id illegalChar b Hi), (removeAll_id controlChar b Hc).
  unfold removeReserved. rewrite Hd.
  rewrite (removeAll_id unsafeChar b Hu), Ht.
  unfold orElse. rewrite Hn. reflexivity.
Qed.

Lemma extOf_no_dot input : noneOf isDot (extOf input) = true.
Proof.
  unfold extOf, noneOf, isDot, pop. simpl fst.
  apply orElse_forallb; [apply split_last_no_sep | reflexivity].
Qed.

Lemma extOf_nonempty input : isEmpty (extOf input) = false.
Proof.
  unfold extOf, orElse.
  destruct (isEmpty (fst _)) eqn:E; [reflexivity | exact E].
Qed.

(** Splitting a name that ends in a dot and a dot-free, non-empty
    extension gives the two back. *)
Lemma extOf_rebuilt base ext :
  noneOf isDot ext = true -> isEmpty ext = false ->
  extOf (base ++ DOT :: ext) = ext /\ nameOf (base ++ DOT :: ext) = base.
Proof.
  intros Hnd Hne. unfold extOf, nameOf.
  rewrite (split_app_sep DOT base ext Hnd), pop_snoc. simpl.
  unfold orElse. rewrite Hne. split; [reflexivity | apply join_split].
Qed.

Lemma sanitize_nonblank input :
  isEmpty (trim input) = false ->
  sanitizeFileName input
  = firstn 200 (cleanName (nameOf input)) ++ DOT :: extOf input.
Proof. intros Hb. unfold sanitizeFileName, slice0. rewrite Hb. reflexivity. Qed.

Lemma sanitize_blank input :
  isEmpty (trim input) = true -> sanitizeFileName input = js "file.bin".
Proof. intros Hb. unfold sanitizeFileName. rewrite Hb. reflexivity. Qed.






End SanitizeFacts.

(** ** The media extractor *)

Section MediaFacts.

Import Converter.

Context {H : Host}.

Lemma mediaKey_inj f g : mediaKey f = mediaKey g -> f = g.
Proof. unfold mediaKey. apply app_inv_head. Qed.

(** One iteration of the loop: a readable file adds its entry and mints a
    URL, an unreadable one changes nothing but the call log. *)
Lemma readOneMedia_step (m : modst H) file acc (w : World H) :
  x2tModule w = Some m ->
  exists w',
    x2tModule w' = Some m
    /\ match FS_readFile H (mediaDir ++ file) m with
       | Ok b =>
           readOneMedia file acc w
           = (Ok (<[mediaKey file := length (blobs w)]> acc), w')
           /\ blobs w' = blobs w ++ [{| blob_part := b; blob_type := None |}]
       | Throw _ =>
           readOneMedia file acc w = (Ok acc, w') /\ blobs w' = blobs w
       end.
Proof.
  intros Hm.
  unfold readOneMedia, tryCatch, bind, fsReadFile, createObjectURL, ret.
  rewrite Hm. destruct (FS_readFile H (mediaDir ++ file) m) as [b|e]; simpl.
  - eexists. split; [|split; reflexivity]. exact Hm.
  - eexists. split; [|split; reflexivity]. exact Hm.
Qed.

Lemma readEachMedia_inv (m : modst H) files :
  forall acc (w : World H),
    x2tModule w = Some m ->
    exists media w' extra,
      readEachMedia files acc w = (Ok media, w')
      /\ x2tModule w' = Some m
      /\ blobs w' = blobs w ++ extra
      /\ (forall key,
            is_Some (media !! key) <->
            is_Some (acc !! key)
            \/ exists f, In f files /\ key = mediaKey f /\ readable m f = true)
      /\ (forall key url,
            media !! key = Some url ->
            acc !! key = Some url
            \/ exists f b,
                 In f files /\ key = mediaKey f
                 /\ FS_readFile H (mediaDir ++ f) m = Ok b
                 /\ blobs w' !! url
                    = Some {| blob_part := b; blob_type := None |}).
Proof.
  induction files as [|file rest IH]; intros acc w Hm.
  - exists acc, w, []. simpl. unfold ret. rewrite app_nil_r.
    repeat split; auto.
    intros [Hs|(f & [] & _)]. exact Hs.
  - destruct (readOneMedia_step m file acc w Hm) as (w1 & Hm1 & Hstep).
    simpl readEachMedia. unfold bind at 1.
    destruct (FS_readFile H (mediaDir ++ file) m) as [b|e] eqn:Hread.
    + destruct Hstep as [-> Hb1].
      destruct (IH (<[mediaKey file := length (blobs w)]> acc) w1 Hm1)
        as (media & w' & extra & Hrun & Hm' & Hb' & Hdom & Hval).
      exists media, w', ({| blob_part := b; blob_type := None |} :: extra).
      split; [exact Hrun|]. split; [exact Hm'|].
      split; [rewrite Hb', Hb1, <- app_assoc; reflexivity|].
      split.
      * intros key. rewrite Hdom. split.
        -- intros [Hs|(f & Hin & Hk & Hr)].
           ++ destruct (decide (key = mediaKey file)) as [->|Hne].
              ** right. exists file. unfold readable. rewrite Hread.
                 repeat split. left. reflexivity.
              ** rewrite lookup_insert_ne in Hs by congruence. left. exact Hs.
           ++ right. exists f. repeat split; auto. right. exact Hin.
        -- intros [Hs|(f & [<-|Hin] & Hk & Hr)].
           ++ left. destruct (decide (key = mediaKey file)) as [->|Hne].
              ** rewrite lookup_insert_eq. eauto.
              ** rewrite lookup_insert_ne by congruence. exact Hs.
           ++ left. subst key. rewrite lookup_insert_eq. eauto.
           ++ right. exists f. auto.
      * intros key url Hl. destruct (Hval key url Hl) as [Ha|(f & b' & Hin & Hk & Hr & Hu)].
        -- destruct (decide (key = mediaKey file)) as [->|Hne].
           ++ rewrite lookup_insert_eq in Ha. injection Ha as <-.
              right. exists file, b. repeat split; auto.
              ** left. reflexivity.
              ** rewrite Hb', Hb1, <- app_assoc.
                 rewrite lookup_app_r by lia.
                 rewrite Nat.sub_diag. reflexivity.
           ++ rewrite lookup_insert_ne in Ha by congruence. left. exact Ha.
        -- right. exists f, b'. repeat split; auto. right. exact Hin.
    + destruct Hstep as [-> Hb1].
      destruct (IH acc w1 Hm1)
        as (media & w' & extra & Hrun & Hm' & Hb' & Hdom & Hval).
      exists media, w', extra.
      split; [exact Hrun|]. split; [exact Hm'|].
      split; [rewrite Hb', Hb1; reflexivity|].
      split.
      * intros key. rewrite Hdom. split.
        -- intros [Hs|(f & Hin & Hk & Hr)]; [left; exact Hs|].
           right. exists f. repeat split; auto. right. exact Hin.
        -- intros [Hs|(f & [<-|Hin] & Hk & Hr)]; [left; exact Hs| |].
           ++ unfold readable in Hr. rewrite Hread in Hr. discriminate.
           ++ right. exists f. auto.
      * intros key url Hl.
        destruct (Hval key url Hl) as [Ha|(f & b' & Hin & Hk & Hr & Hu)].
        -- left. exact Ha.
        -- right. exists f, b'. repeat split; auto. right. exact Hin.
Qed.

Lemma readEachMedia_size (m : modst H) files :
  forall acc (w : World H) media w',
    x2tModule w = Some m ->
    List.NoDup files ->
    (forall f, In f files -> acc !! mediaKey f = None) ->
    readEachMedia files acc w = (Ok media, w') ->
    size media = (size acc + length (List.filter (readable m) files))%nat.
Proof.
  induction files as [|file rest IH]; intros acc w media w' Hm Hnd Hfresh Hrun.
  - simpl in Hrun. unfold ret in Hrun. injection Hrun as <- _. simpl. lia.
  - apply NoDup_cons_iff in Hnd as [Hnotin Hnd].
    destruct (readOneMedia_step m file acc w Hm) as (w1 & Hm1 & Hstep).
    simpl readEachMedia in Hrun. unfold bind at 1 in Hrun.
    simpl List.filter. unfold readable at 1.
    destruct (FS_readFile H (mediaDir ++ file) m) as [b|e] eqn:Hread.
    + destruct Hstep as [Hone _]. rewrite Hone in Hrun.
      assert (Hfresh' : forall f, In f rest ->
                 <[mediaKey file := length (blobs w)]> acc !! mediaKey f
                 = None).
      { intros f Hin. rewrite lookup_insert_ne.
        - apply Hfresh. right. exact Hin.
        - intros Heq. apply mediaKey_inj in Heq. subst f. contradiction. }
      rewrite (IH _ _ _ _ Hm1 Hnd Hfresh' Hrun).
      rewrite map_size_insert_None by (apply Hfresh; left; reflexivity).
      simpl. lia.
    + destruct Hstep as [Hone _]. rewrite Hone in Hrun.
      apply (IH acc w1 media w' Hm1 Hnd); [|exact Hrun].
      intros f Hin. apply Hfresh. right. exact Hin.
Qed.

Lemma filter_all_but_one (P : jsstring -> bool) files bad :
  List.NoDup files -> In bad files -> P bad = false ->
  (forall f, In f files -> f <> bad -> P f = true) ->
  length (List.filter P files) = (length files - 1)%nat.
Proof.
  induction files as [|f rest IH]; intros Hnd Hin Hbad Hothers;
    [destruct Hin|].
  apply NoDup_cons_iff in Hnd as [Hnotin Hnd]. simpl.
  destruct Hin as [->|Hin].
  - rewrite Hbad. rewrite Nat.sub_0_r.
    rewrite (forallb_filter_id P rest); [reflexivity|].
    apply forallb_forall. intros g Hg. apply Hothers; [right; exact Hg|].
    intros ->. contradiction.
  - rewrite (Hothers f) by (try (left; reflexivity); intros ->; contradiction).
    simpl. rewrite IH; auto.
    + destruct rest; [destruct Hin|]. simpl. lia.
    + intros g Hg Hne. apply Hothers; [right; exact Hg|exact Hne].
Qed.

End MediaFacts.

Section MediaTheorem.

Import Converter.

(** C8.  With a module in place, readMediaFiles always returns a map.  When
    the directory cannot be listed the map is empty.  When it can, the map
    has an entry [media/<name>] exactly for the listed names, other than the
    two pseudo-entries, whose file could be read, and each entry is the
    object URL of a blob holding that file; so with distinct names and one
    unreadable file among N the map has the other N-1.  In both cases a
    conversion whose earlier steps succeeded returns its result with that
    map. *)
Theorem readMediaFiles_resilient (H : Host) (w : World H) (m : modst H) :
  x2tModule w = Some m ->
  exists media w',
    readMediaFiles w = (Ok media, w')
    /\ (forall e, FS_readdir H mediaDir m = Throw e -> media = ∅)
    /\ (forall files,
          FS_readdir H mediaDir m = Ok files ->
          (forall name,
              is_Some (media !! mediaKey name) <->
              In name files /\ notPseudoEntry name = true
              /\ readable m name = true)
          /\ (forall key url,
                media !! key = Some url ->
                exists name b,
                  key = mediaKey name
                  /\ FS_readFile H (mediaDir ++ name) m = Ok b
                  /\ blobs w' !! url
                     = Some {| blob_part := b; blob_type := None |})
          /\ (forall bad,
                List.NoDup files -> In bad files ->
                notPseudoEntry bad = true -> readable m bad = false ->
                (forall f, In f files -> notPseudoEntry f = true ->
                           f <> bad -> readable m f = true) ->
                size media
                = (length (List.filter notPseudoEntry files) - 1)%nat))
    /\ (forall name data docType result w0,
          runX2t (js "/working/" ++ Sanitize.sanitizeFileName name) data w0
          = (Ok result, w) ->
          convertStandard name data docType w0
          = (Ok {| fileName := Sanitize.sanitizeFileName name;
                   type := docType; bin := result; media := media |}, w')).
Proof.
  intros Hm. unfold readMediaFiles. rewrite Hm.
  unfold tryCatch, bind at 1, fsReaddir. rewrite Hm.
  destruct (FS_readdir H mediaDir m) as [files|e] eqn:Hdir.
  - set (w1 := withHostLog w (hostLog w ++ [CallReaddir mediaDir])).
    assert (Hm1 : x2tModule w1 = Some m) by exact Hm.
    destruct (readEachMedia_inv m (List.filter notPseudoEntry files) ∅ w1 Hm1)
      as (media & w' & extra & Hrun & Hm' & Hb' & Hdom & Hval).
    exists media, w'. rewrite Hrun.
    split; [reflexivity|]. split; [discriminate|]. split.
    + intros files' [= <-]. split; [|split].
      * intros name. rewrite Hdom. split.
        -- intros [Hs|(f & Hin & Hk & Hr)].
           ++ rewrite lookup_empty in Hs. destruct Hs; discriminate.
           ++ apply mediaKey_inj in Hk. subst f.
              apply filter_In in Hin as [Hin Hp]. auto.
        -- intros (Hin & Hp & Hr). right. exists name.
           repeat split; auto. apply filter_In. auto.
      * intros key url Hl.
        destruct (Hval key url Hl) as [Ha|(f & b & Hin & Hk & Hr & Hu)].
        -- rewrite lookup_empty in Ha. discriminate.
        -- exists f, b. auto.
      * intros bad Hnd Hin Hp Hbad Hothers.
        rewrite (readEachMedia_size m _ ∅ w1 media w' Hm1) with (3 := Hrun).
        -- rewrite map_size_empty. simpl.
           apply filter_all_but_one with (bad := bad).
           ++ apply List.NoDup_filter, Hnd.
           ++ apply filter_In. auto.
           ++ exact Hbad.
           ++ intros f Hf Hne. apply filter_In in Hf as [Hf Hpf]. auto.
        -- apply List.NoDup_filter, Hnd.
        -- intros f _. apply lookup_empty.
    + intros name data docType result w0 Hsteps.
      unfold convertStandard, bind at 1. rewrite Hsteps.
      unfold bind at 1, readMediaFiles. rewrite Hm.
      unfold tryCatch, bind at 1, fsReaddir. rewrite Hm, Hdir.
      fold w1. rewrite Hrun. reflexivity.
  - exists ∅. eexists. split; [reflexivity|]. split; [reflexivity|]. split.
    + discriminate.
    + intros name data docType result w0 Hsteps.
      unfold convertStandard, bind at 1. rewrite Hsteps.
      unfold bind at 1, readMediaFiles. rewrite Hm.
      unfold tryCatch, bind at 1, fsReaddir. rewrite Hm, Hdir.
      reflexivity.
Qed.

(** The theorem on the sample page, whose media directory lists two images
    and one entry that cannot be read. *)
Lemma readMediaFiles_resilient_witness :
  exists media w',
    readMediaFiles (Sample.readyWorld "report.csv") = (Ok media, w')
    /\ size media = 2%nat
    /\ is_Some (media !! js "media/image1.png")
    /\ is_Some (media !! js "media/image2.png").
Proof.
  destruct (readMediaFiles_resilient Sample.page
              (Sample.readyWorld "report.csv") _ eq_refl)
    as (media & w' & Hrun & _ & Hfiles & _).
  destruct (Hfiles _ eq_refl) as (Hentry & _ & Hcount).
  exists media, w'. split; [exact Hrun|]. split; [|split].
  - rewrite (Hcount (js "broken")).
    + reflexivity.
    + repeat (constructor; [simpl; intuition discriminate|]). constructor.
    + simpl. tauto.
    + reflexivity.
    + reflexivity.
    + intros f Hin Hp Hne. simpl in Hin.
      intuition (subst; try reflexivity; try discriminate; congruence).
  - apply (Hentry (js "image1.png")). simpl. intuition.
  - apply (Hentry (js "image2.png")). simpl. intuition.
Defined.

End MediaTheorem.

(** ** Effects of the converter's steps *)

Section FrameFacts.

Import Converter.

Context {H : Host}.

Lemma moduleStep_refl (w : World H) : moduleStep w w.
Proof.
  unfold moduleStep. repeat split; auto. exists []. symmetry.
  apply app_nil_r.
Qed.

Lemma moduleStep_trans (w1 w2 w3 : World H) :
  moduleStep w1 w2 -> moduleStep w2 w3 -> moduleStep w1 w3.
Proof.
  intros ([l1 L1] & M1 & S1 & C1 & D1 & E1) ([l2 L2] & M2 & S2 & C2 & D2 & E2).
  unfold moduleStep. repeat split; try congruence; auto.
  exists (l1 ++ l2). rewrite L2, L1, app_assoc. reflexivity.
Qed.

Lemma bind_Ok_inv {A B} (m : M H A) (k : A -> M H B) w b w' :
  bind m k w = (Ok b, w') ->
  exists a w1, m w = (Ok a, w1) /\ k a w1 = (Ok b, w').
Proof.
  unfold bind. destruct (m w) as [[a|e] w1]; [eauto | discriminate].
Qed.

Lemma moduleOnly_ret {A} (a : A) : moduleOnly (H := H) (ret a).
Proof. intros w o w' [= <- <-]. apply moduleStep_refl. Qed.

Lemma moduleOnly_throw {A} e : moduleOnly (H := H) (A := A) (throw e).
Proof. intros w o w' [= <- <-]. apply moduleStep_refl. Qed.

Lemma moduleOnly_liftOutcome {A} (o : Outcome A) :
  moduleOnly (H := H) (liftOutcome o).
Proof. intros w o' w' [= <- <-]. apply moduleStep_refl. Qed.

Lemma moduleOnly_bind {A B} (m : M H A) (k : A -> M H B) :
  moduleOnly m -> (forall a, moduleOnly (k a)) -> moduleOnly (bind m k).
Proof.
  intros Hm Hk w o w'. unfold bind.
  destruct (m w) as [[a|e] w1] eqn:E; intros Hrun.
  - eapply moduleStep_trans; [eapply Hm, E | eapply Hk, Hrun].
  - injection Hrun as <- <-. eapply Hm, E.
Qed.

Lemma moduleOnly_tryCatch {A} (m : M H A) (h : Thrown -> M H A) :
  moduleOnly m -> (forall e, moduleOnly (h e)) -> moduleOnly (tryCatch m h).
Proof.
  intros Hm Hh w o w'. unfold tryCatch.
  destruct (m w) as [[a|e] w1] eqn:E; intros Hrun.
  - injection Hrun as <- <-. eapply Hm, E.
  - eapply moduleStep_trans; [eapply Hm, E | eapply Hh, Hrun].
Qed.

Lemma moduleOnly_fsWriteFile path data : moduleOnly (fsWriteFile path data).
Proof.
  intros w o w'. unfold fsWriteFile.
  destruct (x2tModule w) as [m|] eqn:Hm.
  - destruct (FS_writeFile H path data m) as [o1 m1].
    intros [= <- <-]. unfold moduleStep. simpl.
    repeat split; eauto.
  - intros [= <- <-]. apply moduleStep_refl.
Qed.

Lemma moduleOnly_fsReadFile path : moduleOnly (fsReadFile path).
Proof.
  intros w o w'. unfold fsReadFile.
  destruct (x2tModule w) as [m|] eqn:Hm.
  - intros [= <- <-]. unfold moduleStep. simpl. rewrite Hm.
    repeat split; eauto.
  - intros [= <- <-]. apply moduleStep_refl.
Qed.

Lemma moduleOnly_fsReaddir path : moduleOnly (fsReaddir path).
Proof.
  intros w o w'. unfold fsReaddir.
  destruct (x2tModule w) as [m|] eqn:Hm.
  - intros [= <- <-]. unfold moduleStep. simpl. rewrite Hm.
    repeat split; eauto.
  - intros [= <- <-]. apply moduleStep_refl.
Qed.

Lemma moduleOnly_createObjectURL b : moduleOnly (createObjectURL b).
Proof.
  intros w o w' [= <- <-]. unfold moduleStep. simpl.
  repeat split; auto. exists []. symmetry. apply app_nil_r.
Qed.

Lemma moduleOnly_executeConversion path : moduleOnly (executeConversion path).
Proof.
  intros w o w'. unfold executeConversion.
  destruct (x2tModule w) as [m|] eqn:Hm.
  - destruct (ccall_main1 H path m) as [code m1].
    destruct (code =? 0)%Z.
    + intros [= <- <-]. unfold moduleStep. simpl. repeat split; eauto.
    + destruct (fsReadFile path _) as [o2 w2] eqn:E.
      intros [= <- <-].
      apply moduleOnly_fsReadFile in E.
      eapply moduleStep_trans; [|exact E].
      unfold moduleStep. simpl. repeat split; eauto.
  - intros [= <- <-]. apply moduleStep_refl.
Qed.

Lemma moduleOnly_readEachMedia files :
  forall acc, moduleOnly (readEachMedia files acc).
Proof.
  induction files as [|f rest IH]; intros acc; simpl.
  - apply moduleOnly_ret.
  - apply moduleOnly_bind; [|intros a; apply IH].
    unfold readOneMedia. apply moduleOnly_tryCatch.
    + apply moduleOnly_bind; [apply moduleOnly_fsReadFile|]. intros b.
      apply moduleOnly_bind; [apply moduleOnly_createObjectURL|]. intros u.
      apply moduleOnly_ret.
    + intros e. apply moduleOnly_ret.
Qed.

Lemma moduleOnly_readMediaFiles : moduleOnly readMediaFiles.
Proof.
  intros w o w'. unfold readMediaFiles.
  destruct (x2tModule w) as [m|].
  - apply moduleOnly_tryCatch.
    + apply moduleOnly_bind; [apply moduleOnly_fsReaddir|]. intros files.
      apply moduleOnly_readEachMedia.
    + intros e. apply moduleOnly_ret.
  - intros [= <- <-]. apply moduleStep_refl.
Qed.

Lemma moduleOnly_runX2t inputPath data : moduleOnly (runX2t inputPath data).
Proof.
  unfold runX2t.
  apply moduleOnly_bind; [apply moduleOnly_fsWriteFile|]. intros _.
  apply moduleOnly_bind; [apply moduleOnly_fsWriteFile|]. intros _.
  apply moduleOnly_bind; [apply moduleOnly_executeConversion|]. intros _.
  apply moduleOnly_fsReadFile.
Qed.

Lemma moduleOnly_convertStandard name data docType :
  moduleOnly (convertStandard name data docType).
Proof.
  unfold convertStandard.
  apply moduleOnly_bind; [apply moduleOnly_runX2t|]. intros r.
  apply moduleOnly_bind; [apply moduleOnly_readMediaFiles|]. intros md.
  apply moduleOnly_ret.
Qed.

Lemma createWorkingDirectories_log (m : modst H) log :
  exists calls, snd (createWorkingDirectories m log) = log ++ calls.
Proof.
  unfold createWorkingDirectories, WORKING_DIRS, fsMkdir. simpl.
  repeat match goal with
         | |- context [FS_mkdir H ?p ?x] =>
             destruct (FS_mkdir H p x) as [? ?]; simpl
         end.
  rewrite <- !app_assoc. eauto.
Qed.

Lemma moduleOnly_doInitialize : moduleOnly doInitialize.
Proof.
  intros w o w'. unfold doInitialize.
  destruct (if hasScriptLoaded w then Ok tt else scriptLoad H) as [[]|e];
    [|intros [= <- <-]; unfold moduleStep; simpl; repeat split; auto;
      exists []; rewrite app_nil_r; reflexivity].
  destruct (boot H) as [m0|e].
  - destruct (createWorkingDirectories m0 (hostLog w)) as [m1 log1] eqn:E.
    intros [= <- <-].
    destruct (createWorkingDirectories_log m0 (hostLog w)) as [calls Hc].
    rewrite E in Hc. simpl in Hc. subst log1.
    unfold moduleStep. simpl. repeat split; eauto.
  - intros [= <- <-]. unfold moduleStep. simpl. repeat split; auto.
    exists []. rewrite app_nil_r. reflexivity.
Qed.

Lemma moduleOnly_initialize : moduleOnly initialize.
Proof.
  intros w o w'. unfold initialize.
  destruct (isReady w), (x2tModule w) as [m|];
    try (intros [= <- <-]; apply moduleStep_refl);
    (destruct (initPromise w) as [e|];
     [intros [= <- <-]; apply moduleStep_refl | apply moduleOnly_doInitialize]).
Qed.

Lemma doInitialize_ready (w w1 : World H) :
  doInitialize w = (Ok tt, w1) ->
  isReady w1 = true /\ exists m, x2tModule w1 = Some m.
Proof.
  unfold doInitialize.
  destruct (if hasScriptLoaded w then Ok tt else scriptLoad H) as [[]|e];
    [|discriminate].
  destruct (boot H) as [m0|e]; [|discriminate].
  destruct (createWorkingDirectories m0 (hostLog w)) as [m1 log1].
  intros [= <-]. simpl. eauto.
Qed.

(** After [await this.initialize()] returns, the session is ready. *)
Lemma initialize_ready (w w1 : World H) :
  initialize w = (Ok tt, w1) ->
  isReady w1 = true /\ exists m, x2tModule w1 = Some m.
Proof.
  unfold initialize.
  destruct (isReady w) eqn:R, (x2tModule w) as [m|] eqn:X;
    try (intros [= <-]; eauto);
    (destruct (initPromise w) as [e|];
     [discriminate | apply doInitialize_ready]).
Qed.

Lemma initialize_when_ready (w : World H) m :
  isReady w = true -> x2tModule w = Some m -> initialize w = (Ok tt, w).
Proof. intros R X. unfold initialize. rewrite R, X. reflexivity. Qed.

End FrameFacts.

(** ** convertDocument *)

Section ConvertFacts.

Import Converter.

Context {H : Host}.

Lemma tryCatch_throwError_Ok_inv {A} (m : M H A) (msg : Thrown -> jsstring)
    w a w' :
  tryCatch m (fun e => throwError (msg e)) w = (Ok a, w') ->
  m w = (Ok a, w').
Proof.
  unfold tryCatch. destruct (m w) as [[a0|e] w1]; [auto|].
  unfold throwError, throw. discriminate.
Qed.

Lemma tryCatch_throwError_outcome {A} (m : M H A) (msg : Thrown -> jsstring)
    w o w' :
  tryCatch m (fun e => throwError (msg e)) w = (o, w') ->
  (exists a, m w = (Ok a, w') /\ o = Ok a)
  \/ (exists e, m w = (Throw e, w') /\ o = Throw (ErrorObj (msg e))).
Proof.
  unfold tryCatch. destruct (m w) as [[a0|e] w1].
  - intros [= <- <-]. left. eauto.
  - unfold throwError, throw. intros [= <- <-]. right. eauto.
Qed.

Lemma moduleStep_In (w w' : World H) c :
  moduleStep w w' -> In c (hostLog w) -> In c (hostLog w').
Proof.
  intros ([l Hl] & _) Hin. rewrite Hl. apply in_or_app. left. exact Hin.
Qed.

(** The first thing [runX2t] does with a module in place is the write of
    its input. *)
Lemma runX2t_first_call inputPath data (w : World H) o w' :
  is_Some (x2tModule w) ->
  runX2t inputPath data w = (o, w') ->
  exists rest,
    hostLog w' = hostLog w ++ CallWriteFile inputPath (FBytes data) :: rest.
Proof.
  intros [m Hm]. unfold runX2t, bind at 1.
  destruct (fsWriteFile inputPath (FBytes data) w) as [o1 w1] eqn:E1.
  assert (Hlog : hostLog w1
                 = hostLog w ++ [CallWriteFile inputPath (FBytes data)]).
  { unfold fsWriteFile in E1. rewrite Hm in E1.
    destruct (FS_writeFile H inputPath (FBytes data) m) as [o2 m2].
    injection E1 as <- <-. reflexivity. }
  destruct o1 as [[]|e].
  - intros Hrest.
    assert (Hstep : moduleStep w1 w').
    { revert Hrest. apply moduleOnly_bind; [apply moduleOnly_fsWriteFile|].
      intros _. apply moduleOnly_bind; [apply moduleOnly_executeConversion|].
      intros _. apply moduleOnly_fsReadFile. }
    destruct Hstep as ([l Hl] & _). exists l.
    rewrite Hl, Hlog, <- app_assoc. reflexivity.
  - intros [= <- <-]. exists []. exact Hlog.
Qed.

Lemma getDocumentType_csv ext :
  toLowerCase ext = js "csv" -> getDocumentType (H := H) ext = ret (Own cell).
Proof. intros E. unfold getDocumentType. rewrite E. reflexivity. Qed.

Lemma getDocumentType_undefined ext :
  readProp DOCUMENT_TYPE_MAP (toLowerCase ext) = Undefined ->
  getDocumentType (H := H) ext
  = throwError (js "Unsupported file format: " ++ ext).
Proof. intros E. unfold getDocumentType. rewrite E. reflexivity. Qed.

(** An extension that the table does not have and that names no inherited
    property is refused right after initialisation, before any further call
    on the module. *)
Lemma convertDocument_unknown_extension_rejected (w w1 : World H) file :
  initialize w = (Ok tt, w1) ->
  readProp DOCUMENT_TYPE_MAP (toLowerCase (resolveExtension file)) = Undefined ->
  convertDocument file w
  = (Throw (ErrorObj (js "Unsupported file format: " ++ resolveExtension file)),
     w1).
Proof.
  intros Hinit Hext. unfold convertDocument, bind at 1. rewrite Hinit.
  rewrite (getDocumentType_undefined _ Hext). reflexivity.
Qed.

End ConvertFacts.

Section ConvertTheorems.

Import Converter.

(** C6, on the code.  The extension [constructor] is not in the table, yet
    the lookup finds the property every object literal inherits, so
    getDocumentType does not throw: the conversion goes on and its first call
    after initialisation writes the file into the virtual filesystem. *)
Theorem convertDocument_inherited_key_reaches_filesystem
    (H : Host) (w w1 : World H) (data : bytes) (mime : jsstring) :
  initialize w = (Ok tt, w1) ->
  List.hd [] (getExtensions H mime) = [] ->
  let file := {| file_name := js "notes.constructor"; file_type := mime;
                 file_bytes := data |} in
  resolveExtension file = js "constructor"
  /\ DOCUMENT_TYPE_MAP !! toLowerCase (resolveExtension file) = None
  /\ exists o w',
       convertDocument file w = (o, w')
       /\ o <> Throw (ErrorObj (js "Unsupported file format: "
                                ++ resolveExtension file))
       /\ exists rest,
            hostLog w'
            = hostLog w1
              ++ CallWriteFile (js "/working/notes.constructor")
                               (FBytes data) :: rest.
Proof.
  intros Hinit Hmime file.
  assert (Hext : resolveExtension file = js "constructor").
  { unfold resolveExtension, file. simpl file_type. rewrite Hmime.
    reflexivity. }
  split; [exact Hext|]. rewrite Hext. split; [reflexivity|].
  destruct (initialize_ready w w1 Hinit) as [_ Hmod].
  unfold convertDocument, bind at 1. rewrite Hinit, Hext.
  change (getDocumentType (js "constructor"))
    with (ret (H := H) (Inherited (A := DocumentType) (js "constructor"))).
  unfold bind at 1, ret at 1.
  change (jsstring_eqb (toLowerCase (js "constructor")) (js "csv")) with false.
  cbv iota.
  destruct (tryCatch _ _ w1) as [o w'] eqn:Erun.
  exists o, w'. split; [reflexivity|].
  apply tryCatch_throwError_outcome in Erun.
  assert (Hlog : forall o0 w0,
             convertStandard (file_name file) (file_bytes file)
               (Inherited (js "constructor")) w1 = (o0, w0) ->
             exists rest,
               hostLog w0
               = hostLog w1
                 ++ CallWriteFile (js "/working/notes.constructor")
                                  (FBytes data) :: rest).
  { intros o0 w0. unfold convertStandard, bind at 1.
    destruct (runX2t _ _ w1) as [o1 wa] eqn:Ea.
    apply runX2t_first_call in Ea; [|exact Hmod].
    destruct Ea as [rest1 Ha]. destruct o1 as [result|e].
    - intros Hrest.
      assert (Hstep : moduleStep wa w0).
      { revert Hrest.
        apply moduleOnly_bind; [apply moduleOnly_readMediaFiles|].
        intros md. apply moduleOnly_ret. }
      destruct Hstep as ([l Hl] & _). exists (rest1 ++ l).
      rewrite Hl, Ha, <- app_assoc. reflexivity.
    - intros [= <- <-]. exists rest1. exact Ha. }
  destruct Erun as [(r & Erun & ->)|(e & Erun & ->)].
  - split; [discriminate | eapply Hlog, Erun].
  - split; [discriminate | eapply Hlog, Erun].
Qed.

(** The theorem on the sample page, ready and with no MIME type on the
    file. *)
Lemma convertDocument_inherited_key_witness :
  exists o w',
    convertDocument
      {| file_name := js "notes.constructor"; file_type := [];
         file_bytes := [Byte.x41] |}
      (Sample.readyWorld "report.csv") = (o, w')
    /\ o <> Throw (ErrorObj (js "Unsupported file format: constructor"))
    /\ exists rest,
         hostLog w'
         = CallWriteFile (js "/working/notes.constructor")
                         (FBytes [Byte.x41]) :: rest.
Proof.
  destruct (convertDocument_inherited_key_reaches_filesystem Sample.page
              (Sample.readyWorld "report.csv")
              (Sample.readyWorld "report.csv") [Byte.x41] []
              eq_refl eq_refl)
    as (Hext & _ & o & w' & Hrun & Hne & Hlog).
  exists o, w'. rewrite Hext in Hne. auto.
Defined.

(** The refusal, for comparison, of the extension [zzz]. *)
Lemma convertDocument_zzz_rejected :
  convertDocument
    {| file_name := js "notes.zzz"; file_type := []; file_bytes := [] |}
    (Sample.readyWorld "report.csv")
  = (Throw (ErrorObj (js "Unsupported file format: zzz")),
     Sample.readyWorld "report.csv").
Proof.
  apply (convertDocument_unknown_extension_rejected (H := Sample.page));
    reflexivity.
Qed.

End ConvertTheorems.

(** ** Opening a CSV file *)

Section CsvNameFacts.

Import Sanitize Converter.

Lemma endsWith_spec s suffix :
  endsWith s suffix = true <-> exists pre, s = pre ++ suffix.
Proof.
  unfold endsWith, jsstring_eqb. split.
  - intros Hs. apply andb_prop in Hs as [Heq _].
    apply bool_decide_eq_true in Heq.
    exists (firstn (length s - length suffix) s).
    rewrite <- Heq at 2. symmetry. apply firstn_skipn.
  - intros [pre ->]. apply andb_true_intro. split.
    + apply bool_decide_eq_true. rewrite length_app.
      replace (length pre + length suffix - length suffix)%nat
        with (length pre + 0)%nat by lia.
      rewrite skipn_app, Nat.add_0_r, skipn_all.
      replace (length pre - length pre)%nat with 0%nat by lia.
      reflexivity.
    + apply Nat.leb_le. rewrite length_app. lia.
Qed.

Lemma lowerUnit_dot d : lowerUnit d = DOT -> d = DOT.
Proof.
  unfold lowerUnit, DOT.
  destruct ((65 <=? d) && (d <=? 90)) eqn:E.
  - apply andb_prop in E as [E1 E2]. apply N.leb_le in E1. lia.
  - destruct (d =? 8490); [discriminate | auto].
Qed.

Lemma lowerUnit_letter_not_dot c x :
  lowerUnit c = x -> x <> DOT -> isDot c = false.
Proof.
  intros Hl Hx. unfold isDot. apply N.eqb_neq. intros ->.
  apply Hx. rewrite <- Hl. reflexivity.
Qed.

(** A name whose lowered text ends in [.csv] ends in a dot and three
    letters that lower to c, s and v. *)
Lemma csv_suffix_shape name :
  endsWith (toLowerCase name) (js ".csv") = true ->
  exists pre c s v,
    name = pre ++ DOT :: [c; s; v]
    /\ lowerUnit c = 99 /\ lowerUnit s = 115 /\ lowerUnit v = 118.
Proof.
  intros Hs. apply endsWith_spec in Hs as [pre' Hs].
  unfold toLowerCase in Hs. apply map_eq_app in Hs as (p & q & -> & _ & Hq).
  destruct q as [|d [|c [|s [|v [|x q]]]]]; try discriminate.
  injection Hq as Hd Hc Hs' Hv. apply lowerUnit_dot in Hd. subst d.
  exists p, c, s, v. auto.
Qed.

Lemma sanitize_csv_shape name :
  endsWith (toLowerCase name) (js ".csv") = true ->
  exists base c s v,
    sanitizeFileName name = base ++ DOT :: [c; s; v]
    /\ lowerUnit c = 99 /\ lowerUnit s = 115 /\ lowerUnit v = 118.
Proof.
  intros Hs. destruct (csv_suffix_shape name Hs) as (pre & c & s & v & -> & Hc & Hs' & Hv).
  assert (Hnd : noneOf isDot [c; s; v] = true).
  { unfold noneOf. simpl.
    rewrite (lowerUnit_letter_not_dot c 99 Hc) by discriminate.
    rewrite (lowerUnit_letter_not_dot s 115 Hs') by discriminate.
    rewrite (lowerUnit_letter_not_dot v 118 Hv) by discriminate.
    reflexivity. }
  destruct (extOf_rebuilt pre [c; s; v] Hnd eq_refl) as [He Hn].
  rewrite sanitize_nonblank by (apply trim_keeps_nonwhite; reflexivity).
  rewrite He. eauto 10.
Qed.

(** Sanitising keeps a [.csv] suffix, whatever its letter case, and so does
    not produce a name in [.xlsx]. *)
Lemma sanitize_keeps_csv_suffix name :
  endsWith (toLowerCase name) (js ".csv") = true ->
  endsWith (toLowerCase (sanitizeFileName name)) (js ".csv") = true
  /\ endsWith (toLowerCase (sanitizeFileName name)) (js ".xlsx") = false.
Proof.
  intros Hs.
  destruct (sanitize_csv_shape name Hs) as (base & c & s & v & -> & Hc & Hs' & Hv).
  assert (Hl : toLowerCase (base ++ DOT :: [c; s; v])
               = toLowerCase base ++ js ".csv").
  { unfold toLowerCase. rewrite List.map_app. simpl. rewrite Hc, Hs', Hv.
    reflexivity. }
  rewrite Hl. split.
  - apply endsWith_spec. eauto.
  - destruct (endsWith _ (js ".xlsx")) eqn:E; [|reflexivity].
    apply endsWith_spec in E as [pre E].
    apply (f_equal (@rev N)) in E. rewrite !rev_app_distr in E.
    simpl in E. discriminate.
Qed.

End CsvNameFacts.

Section CsvOpenTheorem.

Import Sanitize Converter.

(** C7.  When convertDocument succeeds on a file whose resolved extension
    is csv, the result carries the sanitised original name and the type
    cell; for an original name in [.csv] that name is again in [.csv] and
    not in [.xlsx]; and the bytes staged for the converter were written
    under the sanitised name of the synthesised XLSX file. *)
Theorem convertDocument_csv_keeps_original_name
    (H : Host) (w w' : World H) (file : File) (r : ConversionResult) :
  toLowerCase (resolveExtension file) = js "csv" ->
  convertDocument file w = (Ok r, w') ->
  fileName r = sanitizeFileName (file_name file)
  /\ type r = Own cell
  /\ (endsWith (toLowerCase (file_name file)) (js ".csv") = true ->
      endsWith (toLowerCase (fileName r)) (js ".csv") = true
      /\ endsWith (toLowerCase (fileName r)) (js ".xlsx") = false)
  /\ exists xlsxData,
       In (CallWriteFile
             (js "/working/"
              ++ sanitizeFileName (replaceCsvSuffix (file_name file)))
             (FBytes xlsxData))
          (hostLog w').
Proof.
  intros Hcsv Hrun. unfold convertDocument in Hrun.
  apply bind_Ok_inv in Hrun as ([] & w1 & Hinit & Hrun).
  rewrite (getDocumentType_csv _ Hcsv) in Hrun.
  apply bind_Ok_inv in Hrun as (dt & w1' & [= <- <-] & Hrun).
  apply tryCatch_throwError_Ok_inv in Hrun.
  rewrite Hcsv in Hrun.
  change (jsstring_eqb (js "csv") (js "csv")) with true in Hrun.
  cbv iota in Hrun. unfold convertCsv in Hrun.
  destruct (length (file_bytes file) =? 0)%nat; [discriminate|].
  apply tryCatch_throwError_Ok_inv in Hrun.
  apply bind_Ok_inv in Hrun as (xlsxFile & wa & Hxlsx & Hrun).
  apply bind_Ok_inv in Hrun as (result & wb & Hx2t & Hrun).
  apply bind_Ok_inv in Hrun as (md & wc & Hmedia & [= <- <-]).
  simpl fileName. simpl type.
  split; [reflexivity|]. split; [reflexivity|].
  split; [apply sanitize_keeps_csv_suffix|].
  (* the synthesised file is named by replaceCsvSuffix *)
  unfold convertCsvToXlsx in Hxlsx.
  apply tryCatch_throwError_Ok_inv in Hxlsx.
  apply bind_Ok_inv in Hxlsx as ([] & wx1 & Hload & Hxlsx).
  apply bind_Ok_inv in Hxlsx as (workbook & wx2 & Hread & Hxlsx).
  apply bind_Ok_inv in Hxlsx as (buffer & wx3 & Hwrite & [= <- <-]).
  simpl file_name in Hx2t. simpl file_bytes in Hx2t.
  exists buffer.
  apply moduleOnly_readMediaFiles in Hmedia.
  apply (moduleStep_In _ _ _ Hmedia).
  assert (Hmod : is_Some (x2tModule wx3)).
  { destruct (initialize_ready w w1 Hinit) as [_ [m Hm]].
    apply moduleOnly_liftOutcome in Hload, Hread, Hwrite.
    apply Hwrite, Hread, Hload. eauto. }
  destruct (runX2t_first_call _ _ _ _ _ Hmod Hx2t) as [rest ->].
  apply in_or_app. right. left. reflexivity.
Qed.

(** The theorem on the sample page, opening [report.csv]. *)
Lemma convertDocument_csv_witness :
  exists r w',
    convertDocument Sample.reportCsv (Sample.readyWorld "report.csv")
    = (Ok r, w')
    /\ fileName r = js "report.csv"
    /\ type r = Own cell.
Proof.
  assert (Hok : match fst (convertDocument Sample.reportCsv
                             (Sample.readyWorld "report.csv")) with
                | Ok _ => True
                | Throw _ => False
                end) by (vm_compute; exact I).
  destruct (convertDocument Sample.reportCsv (Sample.readyWorld "report.csv"))
    as [[r|e] w'] eqn:E; [|destruct Hok].
  destruct (convertDocument_csv_keeps_original_name Sample.page
              (Sample.readyWorld "report.csv") w' Sample.reportCsv r
              eq_refl E) as (Hname & Htype & _).
  exists r, w'. rewrite Hname. auto.
Defined.

End CsvOpenTheorem.

(** ** Saving: bin to XLSX to CSV *)

Section CsvSaveFacts.

Import Sanitize Converter.

Context {H : Host}.






(** The target test [targetExt.toUpperCase() === 'CSV'] also accepts the
    spelling with a long s, which lower-casing leaves as it is. *)
Lemma toUpperCase_long_s :
  toUpperCase [99; 383; 118] = js "CSV"
  /\ toLowerCase [99; 383; 118] = [99; 383; 118]
  /\ toUpperCase (js "csv") = js "CSV"
  /\ toUpperCase (js "Csv") = js "CSV".
Proof. repeat split; reflexivity. Qed.

(** What a successful run of the CSV branch did. *)
Lemma binToCsv_Ok binData base binName outName (w w' : World H) r :
  binToCsv binData base binName outName w = (Ok r, w') ->
  exists xlsxResult workbook csvText,
    XLSX_read_array H (toUint8 xlsxResult) = Ok workbook
    /\ XLSX_sheet_to_csv H (firstSheet workbook) = Ok csvText
    /\ r = {| out_fileName := outName;
              out_data := BUint8 (BOM ++ utf8_encode H csvText) |}
    /\ saved w'
       = saved w
         ++ [{| saved_name := outName;
                saved_data := BOM ++ utf8_encode H csvText;
                saved_viaPicker := hasSaveFilePicker H |}]
    /\ commands w' = commands w
    /\ editorAttached w' = editorAttached w
    /\ In (CallWriteFile (js "/working/params.xml")
             (FText (createConversionParams (js "/working/" ++ binName)
                       (js "/working/" ++ base ++ js ".xlsx") [])))
          (hostLog w').
Proof.
  unfold binToCsv. intros Hrun.
  apply bind_Ok_inv in Hrun as ([] & w1 & H1 & Hrun).
  apply bind_Ok_inv in Hrun as ([] & w2 & H2 & Hrun).
  apply bind_Ok_inv in Hrun as ([] & w3 & H3 & Hrun).
  apply bind_Ok_inv in Hrun as (xlsxResult & w4 & H4 & Hrun).
  apply bind_Ok_inv in Hrun as ([] & w5 & H5 & Hrun).
  apply bind_Ok_inv in Hrun as (workbook & w6 & H6 & Hrun).
  apply bind_Ok_inv in Hrun as (csvText & w7 & H7 & Hrun).
  apply bind_Ok_inv in Hrun as ([] & w8 & H8 & [= <- <-]).
  exists xlsxResult, workbook, csvText.
  assert (Hlog2 : In (CallWriteFile (js "/working/params.xml")
             (FText (createConversionParams (js "/working/" ++ binName)
                       (js "/working/" ++ base ++ js ".xlsx") [])))
          (hostLog w2)).
  { unfold fsWriteFile in H2. destruct (x2tModule w1); [|discriminate].
    destruct (FS_writeFile H _ _ _) as [o m']. injection H2 as _ <-.
    simpl. apply in_or_app. right. left. reflexivity. }
  unfold liftOutcome in H6, H7. injection H6 as E6 <-.
  injection H7 as E7 <-. injection H8 as <-.
  apply moduleOnly_fsWriteFile in H1, H2.
  apply moduleOnly_executeConversion in H3.
  apply moduleOnly_fsReadFile in H4.
  apply moduleOnly_liftOutcome in H5.
  pose proof (moduleStep_trans _ _ _ H3 (moduleStep_trans _ _ _ H4 H5)) as H35.
  pose proof (moduleStep_trans _ _ _ H1 (moduleStep_trans _ _ _ H2 H35)) as H15.
  destruct H15 as (_ & _ & S & C & _ & E).
  repeat split; auto.
  - simpl. rewrite S. reflexivity.
  - apply (moduleStep_In _ _ _ H35) in Hlog2. exact Hlog2.
Qed.

Lemma convertBin_csv_Ok binData name targetExt (w w' : World H) r :
  toUpperCase targetExt = js "CSV" ->
  convertBinToDocumentAndDownload binData name (Some targetExt) w
  = (Ok r, w') ->
  let base := stripExt (sanitizeFileNameOpt name) in
  let outName := base ++ js "." ++ toLowerCase targetExt in
  exists xlsxResult workbook csvText,
    XLSX_read_array H (toUint8 xlsxResult) = Ok workbook
    /\ XLSX_sheet_to_csv H (firstSheet workbook) = Ok csvText
    /\ r = {| out_fileName := outName;
              out_data := BUint8 (BOM ++ utf8_encode H csvText) |}
    /\ saved w'
       = saved w
         ++ [{| saved_name := outName;
                saved_data := BOM ++ utf8_encode H csvText;
                saved_viaPicker := hasSaveFilePicker H |}]
    /\ commands w' = commands w
    /\ editorAttached w' = editorAttached w
    /\ In (CallWriteFile (js "/working/params.xml")
             (FText (createConversionParams
                       (js "/working/" ++ base ++ js ".bin")
                       (js "/working/" ++ base ++ js ".xlsx") [])))
          (hostLog w').
Proof.
  intros Hup Hrun base outName.
  unfold convertBinToDocumentAndDownload in Hrun.
  simpl default in Hrun.
  apply bind_Ok_inv in Hrun as ([] & w1 & Hinit & Hrun).
  apply tryCatch_throwError_Ok_inv in Hrun.
  rewrite Hup in Hrun.
  change (jsstring_eqb (js "CSV") (js "CSV")) with true in Hrun.
  cbv iota in Hrun.
  apply binToCsv_Ok in Hrun
    as (x & wb & csv & Hread & Hcsv & -> & S & C & E & Hlog).
  apply moduleOnly_initialize in Hinit.
  destruct Hinit as (_ & _ & S1 & C1 & _ & E1).
  exists x, wb, csv. fold base in S, Hlog |- *. fold outName in S |- *.
  repeat split; auto; congruence.
Qed.

End CsvSaveFacts.

Section CsvSaveTheorems.

Import Sanitize Converter.


(** C9.  A successful conversion to a target that upper-cases to CSV
    returns, and offers for saving, the three marker bytes followed by the
    encoded CSV text of one sheet: the one the workbook's first sheet name
    designates.  The workbook is what the library read from the XLSX bytes
    the converter left; nothing of the input document enters the bytes
    otherwise. *)
Theorem convertBin_csv_marker_and_first_sheet
    (H : Host) (w w' : World H) (binData : bytes) (name : option jsstring)
    (targetExt : jsstring) (r : BinConversionResult) :
  toUpperCase targetExt = js "CSV" ->
  convertBinToDocumentAndDownload binData name (Some targetExt) w
  = (Ok r, w') ->
  exists xlsxResult workbook csvText,
    XLSX_read_array H (toUint8 xlsxResult) = Ok workbook
    /\ XLSX_sheet_to_csv H
         (Sheets workbook !! List.hd (js "undefined") (SheetNames workbook))
       = Ok csvText
    /\ out_data r
       = BUint8 (Byte.xef :: Byte.xbb :: Byte.xbf :: utf8_encode H csvText)
    /\ saved w'
       = saved w
         ++ [{| saved_name := out_fileName r;
                saved_data :=
                  Byte.xef :: Byte.xbb :: Byte.xbf :: utf8_encode H csvText;
                saved_viaPicker := hasSaveFilePicker H |}].
Proof.
  intros Hup Hrun.
  destruct (convertBin_csv_Ok _ _ _ _ _ _ Hup Hrun)
    as (x & wb & csv & Hread & Hcsv & -> & S & _).
  exists x, wb, csv. repeat split; auto.
Qed.

(** The theorem on the sample page, whose workbook has two sheets. *)
Lemma convertBin_csv_marker_witness :
  exists r w',
    convertBinToDocumentAndDownload [Byte.x01] (Some (js "report.csv"))
      (Some (js "CSV")) (Sample.readyWorld "report.csv") = (Ok r, w')
    /\ out_data r
       = BUint8 [Byte.xef; Byte.xbb; Byte.xbf; Byte.x61; Byte.x2c; Byte.x62].
Proof.
  assert (Hok : match fst (convertBinToDocumentAndDownload [Byte.x01]
                             (Some (js "report.csv")) (Some (js "CSV"))
                             (Sample.readyWorld "report.csv")) with
                | Ok _ => True
                | Throw _ => False
                end) by (vm_compute; exact I).
  destruct (convertBinToDocumentAndDownload [Byte.x01]
              (Some (js "report.csv")) (Some (js "CSV"))
              (Sample.readyWorld "report.csv")) as [[r|e] w'] eqn:E;
    [|destruct Hok].
  destruct (convertBin_csv_marker_and_first_sheet Sample.page
              (Sample.readyWorld "report.csv") w' [Byte.x01]
              (Some (js "report.csv")) (js "CSV") r eq_refl E)
    as (x & wb & csv & Hread & Hcsv & Hdata & _).
  exists r, w'. split; [reflexivity|]. rewrite Hdata.
  injection Hread as <-. injection Hcsv as <-. reflexivity.
Defined.



End CsvSaveTheorems.

(** ** handleWriteFile *)

Section WriteFileTheorem.

Import Converter.

Lemma sendCommand_returns (H : Host) c (w : World H) :
  exists w', sendCommand c w = (Ok tt, w').
Proof. unfold sendCommand. destruct (editorAttached w); eauto. Qed.

(** The three ways the [try] block can go on an event that is neither null
    nor undefined. *)
Lemma writeFileBody_cases (H : Host) (event : JsVal) :
  isNullish event = false ->
  (truthy (getField (js "data") event) = false
   /\ writeFileBody (H := H) event = ret tt)
  \/ (truthy (getField (js "data") event) = true
      /\ validWritePayload (getField (js "data") event) = false
      /\ exists message,
           (message = js "Invalid image data: expected Uint8Array"
            \/ message = js "Invalid file name")
           /\ writeFileBody (H := H) event = throwError message)
  \/ (truthy (getField (js "data") event) = true
      /\ validWritePayload (getField (js "data") event) = true
      /\ forall w : World H, exists w', writeFileBody event w = (Ok tt, w')).
Proof.
  intros Hev. unfold writeFileBody, validWritePayload. rewrite Hev.
  destruct (truthy (getField (js "data") event)); cbn [negb]; [|left; auto].
  right.
  destruct (getField (js "data") (getField (js "data") event))
    as [| |?|?|?|image|?|? ?];
    try (left; split; [reflexivity|]; split; [reflexivity|];
         exists (js "Invalid image data: expected Uint8Array");
         split; [left; reflexivity | reflexivity]).
  destruct (getField (js "file") (getField (js "data") event))
    as [| |?|?|fname|?|?|? ?];
    try (left; split; [reflexivity|]; split; [reflexivity|];
         exists (js "Invalid file name");
         split; [right; reflexivity | reflexivity]).
  destruct (isEmpty fname); cbn [negb].
  - left. split; [reflexivity|]. split; [reflexivity|].
    exists (js "Invalid file name"). split; [right; reflexivity | reflexivity].
  - right. repeat split. intros w.
    unfold bind at 1, createObjectURL. cbv beta iota. unfold bind.
    match goal with
    | |- context [sendCommand ?c ?w0] =>
        destruct (sendCommand_returns H c w0) as [w1 ->]
    end.
    apply sendCommand_returns.
Qed.

(** C10, on the code.  handleWriteFile does let an exception reach its
    caller.  Called with [null] or [undefined], which the parameter type
    [any] admits, the destructuring of [data] throws inside the [try]; the
    [catch] block reports that failure to the attached editor and then
    reads [event.callback], which throws again, and nothing guards the
    [catch] block. *)
Theorem handleWriteFile_throws_on_nullish_event (H : Host) (w : World H) :
  (exists w',
      handleWriteFile JNull w
      = (Throw (ErrorObj
                  (js "Cannot read properties of null (reading 'callback')")),
         w')
      /\ commands w'
         = commands w
           ++ (if editorAttached w
               then [asc_writeFileCallback_fail
                       (js "Cannot destructure property 'data' of 'event' as it is null.")]
               else []))
  /\ (exists w',
        handleWriteFile JUndefined w
        = (Throw (ErrorObj
                    (js "Cannot read properties of undefined (reading 'callback')")),
           w')
        /\ commands w'
           = commands w
             ++ (if editorAttached w
                 then [asc_writeFileCallback_fail
                         (js "Cannot destructure property 'data' of 'event' as it is undefined.")]
                 else [])).
Proof.
  unfold handleWriteFile, tryCatch, writeFileBody, throw, bind, sendCommand,
    notifyCallback, messageOf, cannotDestructureData, cannotReadCallback.
  cbn [isNullish nullishName].
  destruct (editorAttached w) eqn:E; split; eexists;
    (split; [reflexivity|]);
    cbn [commands withCommands]; rewrite ?app_nil_r; reflexivity.
Qed.

(** On an event that is neither null nor undefined the rest of the contract
    holds.  When [data] is absent (or otherwise falsy) the handler returns
    at once and the page is as before: no command is sent.  When [data] is
    there but its byte data is not a Uint8Array or its file name is not a
    non-empty string, the only command sent is the failure form of
    [asc_writeFileCallback], carrying the message of the validation that
    failed; it goes to the attached editor, no media entry or URL is
    created, a callback function of the event is called once with the same
    message, and the handler ends as that call ends, normally when there is
    no callback. *)
Theorem handleWriteFile_reports_invalid_payload
    (H : Host) (w : World H) (event : JsVal) :
  isNullish event = false ->
  (truthy (getField (js "data") event) = false ->
   handleWriteFile event w = (Ok tt, w))
  /\ (truthy (getField (js "data") event) = true ->
      validWritePayload (getField (js "data") event) = false ->
      exists message w',
        handleWriteFile event w
        = (match getField (js "callback") event with
           | JFun _ call => call
           | _ => Ok tt
           end, w')
        /\ (message = js "Invalid image data: expected Uint8Array"
            \/ message = js "Invalid file name")
        /\ commands w'
           = commands w
             ++ (if editorAttached w
                 then [asc_writeFileCallback_fail message] else [])
        /\ callbackCalls w'
           = callbackCalls w
             ++ match getField (js "callback") event with
                | JFun id _ => [(id, message)]
                | _ => []
                end
        /\ globalMedia w' = globalMedia w
        /\ blobs w' = blobs w).
Proof.
  intros Hev.
  assert (Hfail : forall message,
            exists w',
              (exec sendCommand (asc_writeFileCallback_fail message) ;;
               notifyCallback event message) w
              = (match getField (js "callback") event with
                 | JFun _ call => call
                 | _ => Ok tt
                 end, w')
              /\ commands w'
                 = commands w
                   ++ (if editorAttached w
                       then [asc_writeFileCallback_fail message] else [])
              /\ callbackCalls w'
                 = callbackCalls w
                   ++ match getField (js "callback") event with
                      | JFun id _ => [(id, message)]
                      | _ => []
                      end
              /\ globalMedia w' = globalMedia w
              /\ blobs w' = blobs w).
  { intros message. unfold bind, sendCommand, notifyCallback. rewrite Hev.
    destruct (editorAttached w), (getField (js "callback") event); simpl;
      eexists; rewrite ?app_nil_r; repeat split; reflexivity. }
  unfold handleWriteFile, tryCatch.
  destruct (writeFileBody_cases H event Hev)
    as [(Ht & ->)|[(Ht & Hv & message & Hm & ->)|(Ht & Hv & Hok)]].
  - split; [reflexivity | congruence].
  - unfold throwError, throw, messageOf.
    destruct (Hfail message) as (w' & Hrun & Hc).
    split; [congruence|].
    intros _ _. exists message, w'. auto.
  - split; congruence.
Qed.

(** The theorem on the sample page, for an event whose data lacks the
    byte array and whose callback throws. *)
Lemma handleWriteFile_reports_invalid_payload_witness :
  exists w',
    handleWriteFile
      (JObj (FCons (js "data")
               (JObj (FCons (js "file") (JStr (js "a.png")) FNil))
               (FCons (js "callback") (JFun 7 (Throw OtherThrown)) FNil)))
      (Sample.readyWorld "report.csv") = (Throw OtherThrown, w')
    /\ commands w'
       = [asc_writeFileCallback_fail
            (js "Invalid image data: expected Uint8Array")].
Proof.
  destruct (handleWriteFile_reports_invalid_payload Sample.page
              (Sample.readyWorld "report.csv")
              (JObj (FCons (js "data")
                       (JObj (FCons (js "file") (JStr (js "a.png")) FNil))
                       (FCons (js "callback") (JFun 7 (Throw OtherThrown))
                          FNil)))
              eq_refl)
    as (_ & Hinvalid).
  destruct (Hinvalid eq_refl eq_refl) as (message & w' & Hrun & _).
  exists w'. split; [exact Hrun|].
  apply (f_equal snd) in Hrun. cbn [snd] in Hrun. rewrite <- Hrun.
  reflexivity.
Defined.

End WriteFileTheorem.

(** ** The editor operation queue *)

Section QueueTheorems.

Import EditorQueue.

(** C1, on the code.  Two calls of createEditorInstance made one after the
    other, neither awaited, on a page with no editor yet: both pass the
    [await] of the same settled tail before either installs its own, so the
    two operations run interleaved.  Neither sees an editor to destroy, both
    construct one, and when everything has settled two instances are live
    and destroyEditor was never called. *)
Theorem two_rapid_creates_leave_two_editors (cfg1 cfg2 : Config) :
  let final := quiesce 50 (step 50 (Script [cfg1; cfg2]) (initial true)) in
  quiescent final = true
  /\ live final = [0; 1]%nat
  /\ editor final = Some 1%nat
  /\ trace final
     = [ BodyStarted (cfg_fileName cfg1); ContainerCleared;
         BodyStarted (cfg_fileName cfg2); ContainerCleared;
         Constructed 0 (cfg_fileName cfg1);
         Constructed 1 (cfg_fileName cfg2) ].
Proof. cbv zeta. repeat apply conj; vm_compute; reflexivity. Qed.

(** The same two calls on a page that already shows an editor: the one
    editor is destroyed twice and two new instances end up live. *)
Lemma two_rapid_creates_over_an_editor (cfg0 cfg1 cfg2 : Config) :
  let shown := quiesce 50 (step 50 (Script [cfg0]) (initial true)) in
  let final := quiesce 50 (step 50 (Script [cfg1; cfg2]) shown) in
  live shown = [0]%nat
  /\ quiescent final = true
  /\ live final = [1; 2]%nat
  /\ trace final
     = trace shown
       ++ [ BodyStarted (cfg_fileName cfg1); DestroyCalled 0;
            BodyStarted (cfg_fileName cfg2); DestroyCalled 0;
            ContainerCleared; ContainerCleared;
            Constructed 1 (cfg_fileName cfg1);
            Constructed 2 (cfg_fileName cfg2) ].
Proof. cbv zeta. repeat apply conj; vm_compute; reflexivity. Qed.

(** When the second call is made in a later task, after the first has
    installed its tail, the queue does serialise the two: the first instance
    is destroyed before the second is constructed and one instance is
    live at the end. *)
Lemma creates_in_separate_tasks_are_serialised (cfg1 cfg2 : Config) :
  let final :=
    quiesce 50 (runActions 50 [Script [cfg1]; Script [cfg2]] (initial true)) in
  quiescent final = true
  /\ live final = [1]%nat
  /\ trace final
     = [ BodyStarted (cfg_fileName cfg1); ContainerCleared;
         Constructed 0 (cfg_fileName cfg1);
         BodyStarted (cfg_fileName cfg2); DestroyCalled 0; ContainerCleared;
         Constructed 1 (cfg_fileName cfg2) ].
Proof. cbv zeta. repeat apply conj; vm_compute; reflexivity. Qed.

(** C3, on the code.  An operation whose body throws (here the editor API
    is not loaded when the editor is constructed) does settle the tail, by
    rejecting it.  A create queued afterwards, even once the API has loaded,
    awaits that rejected tail outside any [try]: its call is rejected with
    the old error, its body never starts, and the tail stays the rejected
    promise, so the same happens to every later call. *)
Theorem failed_operation_blocks_later_operations (cfg1 cfg2 cfg3 : Config) :
  let failed := quiesce 50 (step 50 (Script [cfg1]) (initial false)) in
  let loaded := step 50 LoadDocsApi failed in
  let second := createEditorInstance cfg2 loaded in
  let after2 := quiesce 50 (drain 50 (snd second)) in
  let third := createEditorInstance cfg3 after2 in
  let after3 := quiesce 50 (drain 50 (snd third)) in
  trace failed
  = [ BodyStarted (cfg_fileName cfg1); ContainerCleared;
      ConstructFailed (cfg_fileName cfg1) ]
  /\ promiseState (editorOperationQueue failed) (rt failed)
     = Some (Done (Rejected docsApiMissing))
  /\ docsApiLoaded loaded = true
  /\ promiseState (fst second) (rt after2)
     = Some (Done (Rejected docsApiMissing))
  /\ trace after2 = trace failed
  /\ editor after2 = None
  /\ editorOperationQueue after2 = editorOperationQueue failed
  /\ quiescent after2 = true
  /\ promiseState (fst third) (rt after3)
     = Some (Done (Rejected docsApiMissing))
  /\ trace after3 = trace failed.
Proof. cbv zeta. repeat apply conj; vm_compute; reflexivity. Qed.

(** For comparison: with the API loaded the same create runs its body. *)
Lemma operation_runs_on_a_healthy_queue (cfg : Config) :
  let final := quiesce 50 (step 50 (Script [cfg]) (initial true)) in
  trace final
  = [ BodyStarted (cfg_fileName cfg); ContainerCleared;
      Constructed 0 (cfg_fileName cfg) ]
  /\ promiseState (editorOperationQueue final) (rt final)
     = Some (Done (Fulfilled tt)).
Proof. cbv zeta. repeat apply conj; vm_compute; reflexivity. Qed.

End QueueTheorems.

(** ** Booting the converter *)

Section InitTheorems.

Import Init.

Lemma lookup_snoc {A} (l : list A) (x : A) : (l ++ [x]) !! length l = Some x.
Proof.
  rewrite lookup_app_r by lia. rewrite Nat.sub_diag. reflexivity.
Qed.

(** Once ready, initialize answers from the cache: the caller's promise is
    already fulfilled with the stored module, and no boot, script, job or
    timer is started. *)
Lemma initialize_cached (st : State) (m : nat) :
  isReady st = true -> x2tModule st = Some m ->
  settledAs (fst (initialize st)) (snd (initialize st))
  = Some (Fulfilled (Some m))
  /\ boots (snd (initialize st)) = boots st
  /\ pendingScripts (snd (initialize st)) = pendingScripts st
  /\ microtasks (rt (snd (initialize st))) = microtasks (rt st)
  /\ timers (rt (snd (initialize st))) = timers (rt st).
Proof.
  intros R X. unfold initialize. rewrite R, X. simpl.
  unfold settledAs, promiseState. simpl. rewrite lookup_snoc. auto.
Qed.

(** C2, on the code.  The script loads but registers no module: the
    promise built inside the [try] is rejected, and as it was returned
    without [await] the [catch] that clears [initPromise] does not run.  The
    next call finds the rejected promise still stored, starts no boot and is
    rejected with the same error.  The readiness timeout goes the same way.
    Only a failure of the script load itself clears the promise and lets the
    next call boot afresh.  After a boot that succeeded, later calls get
    the stored module and start nothing. *)
Theorem failed_boot_is_retried_only_after_script_failure :
  (* module missing *)
  (let st1 := runActions 50 [CallInitialize 1; ScriptLoaded None] initial in
   let call2 := initialize st1 in
   let st2 := drain 50 (snd call2) in
   settledAs 0 st1 = Some (Rejected moduleMissing)
   /\ initPromise st1 = Some 1%nat
   /\ settledAs 1 st1 = Some (Rejected moduleMissing)
   /\ boots st2 = 1%nat
   /\ pendingScripts st2 = []
   /\ settledAs (fst call2) st2 = Some (Rejected moduleMissing))
  (* ready-signal timeout *)
  /\ (let st1 :=
        runActions 50 [CallInitialize 1; ScriptLoaded (Some 7%nat); NextTimer]
          initial in
      let call2 := initialize st1 in
      let st2 := drain 50 (snd call2) in
      settledAs 0 st1 = Some (Rejected initTimeout)
      /\ initPromise st1 = Some 1%nat
      /\ boots st2 = 1%nat
      /\ timers (rt st2) = []
      /\ settledAs (fst call2) st2 = Some (Rejected initTimeout))
  (* script-load failure *)
  /\ (let st1 := runActions 50 [CallInitialize 1; ScriptFailed] initial in
      let call2 := initialize st1 in
      let st2 := drain 50 (snd call2) in
      settledAs 0 st1 = Some (Rejected scriptFailed)
      /\ initPromise st1 = None
      /\ boots st2 = 2%nat
      /\ length (pendingScripts st2) = 1%nat)
  (* successful boot *)
  /\ (let st1 :=
        runActions 50 [CallInitialize 1; ScriptLoaded (Some 7%nat);
                       RuntimeReady] initial in
      let call2 := initialize st1 in
      settledAs 0 st1 = Some (Fulfilled (Some 7%nat))
      /\ isReady st1 = true
      /\ settledAs (fst call2) (snd call2) = Some (Fulfilled (Some 7%nat))
      /\ boots (snd call2) = 1%nat).
Proof. cbv zeta. repeat apply conj; vm_compute; reflexivity. Qed.

(** Two overlapping calls share one boot and resolve to the same module. *)
Lemma concurrent_initialize_boots_once :
  let st :=
    runActions 50 [CallInitialize 2; ScriptLoaded (Some 7%nat); RuntimeReady]
      initial in
  boots st = 1%nat
  /\ settledAs 0 st = Some (Fulfilled (Some 7%nat))
  /\ settledAs 4 st = Some (Fulfilled (Some 7%nat)).
Proof. cbv zeta. repeat apply conj; vm_compute; reflexivity. Qed.

End InitTheorems.

(** * Further properties *)

(** ** More on sanitizeFileName and the names built from it *)

Section SanitizeMore.

Import Sanitize Converter.

Lemma firstn_nonempty (n : nat) (s : jsstring) :
  isEmpty s = false -> (0 < n)%nat -> isEmpty (firstn n s) = false.
Proof. destruct s, n; simpl; auto; lia. Qed.

(** The base name of every sanitised name has between 1 and 200 units,
    holds no unsafe character either, and the extension after it is not
    empty and has no dot. *)
Theorem sanitizeFileName_base_bounds (input : jsstring) :
  exists base ext,
    sanitizeFileName input = base ++ DOT :: ext
    /\ (1 <= length base <= 200)%nat
    /\ noneOf unsafeChar base = true
    /\ isEmpty ext = false
    /\ noneOf isDot ext = true.
Proof.
  destruct (isEmpty (trim input)) eqn:Hb.
  - rewrite (sanitize_blank input Hb).
    exists (js "file"), (js "bin"). repeat apply conj; try reflexivity.
    + vm_compute. lia.
    + vm_compute. lia.
  - rewrite (sanitize_nonblank input Hb).
    exists (firstn 200 (cleanName (nameOf input))), (extOf input).
    repeat apply conj.
    + reflexivity.
    + pose proof (firstn_nonempty 200 _ (cleanName_nonempty (nameOf input))) as Hn.
      destruct (firstn 200 (cleanName (nameOf input))); simpl in *.
      * discriminate Hn. lia.
      * lia.
    + rewrite length_firstn. lia.
    + apply firstn_forallb, cleanName_no_unsafe.
    + apply extOf_nonempty.
    + apply extOf_no_dot.
Qed.

(** A name that needs no cleaning is returned as it is. *)
Theorem sanitizeFileName_clean_name_unchanged (name ext : jsstring) :
  noneOf illegalChar name = true ->
  noneOf controlChar name = true ->
  noneOf unsafeChar name = true ->
  trim name = name ->
  isEmpty name = false ->
  allDots name = false ->
  (length name <= 200)%nat ->
  noneOf isDot ext = true ->
  isEmpty ext = false ->
  sanitizeFileName (name ++ DOT :: ext) = name ++ DOT :: ext.
Proof.
  intros Hi Hc Hu Ht Hn Hd Hl Hed Hee.
  rewrite sanitize_nonblank by (apply trim_keeps_nonwhite; reflexivity).
  destruct (extOf_rebuilt name ext Hed Hee) as [-> ->].
  unfold cleanName.
  rewrite (removeAll_id _ _ Hi), (removeAll_id _ _ Hc).
  unfold removeReserved. rewrite Hd, (removeAll_id _ _ Hu), Ht.
  unfold orElse. rewrite Hn, firstn_all2 by exact Hl. reflexivity.
Qed.

Lemma sanitizeFileName_clean_name_witness :
  sanitizeFileName (js "report" ++ DOT :: js "csv")
  = js "report" ++ DOT :: js "csv".
Proof.
  apply sanitizeFileName_clean_name_unchanged;
    try reflexivity. vm_compute. lia.
Defined.

(** Removing the extension of a sanitised name gives back its base name,
    unless the extension holds a slash, in which case nothing is removed. *)
Theorem stripExt_of_sanitized (input : jsstring) :
  exists base ext,
    sanitizeFileName input = base ++ DOT :: ext
    /\ stripExt (sanitizeFileName input)
       = if forallb (fun c => negb (c =? SLASH)) ext then base
         else sanitizeFileName input.
Proof.
  destruct (sanitizeFileName_base_bounds input)
    as (base & ext & Hout & _ & _ & Hne & Hnd).
  exists base, ext. split; [exact Hout|]. rewrite Hout.
  unfold stripExt. rewrite (split_app_sep DOT base ext Hnd), pop_snoc.
  pose proof (split_nonempty DOT base) as Hs.
  destruct (split DOT base) as [|p ps] eqn:E; [congruence|].
  rewrite Hne. simpl negb. simpl andb.
  destruct (forallb _ ext); [|reflexivity].
  rewrite <- E. apply join_split.
Qed.

End SanitizeMore.

(** ** The format tables *)

Section TableFacts.

Import Converter Tables.

Lemma lookupCode_In (l : list (jsstring * Z)) code name :
  List.fold_right
    (fun kv acc => if (snd kv =? code)%Z then Some (fst kv) else acc)
    None l = Some name ->
  In (name, code) l.
Proof.
  induction l as [|[n c] l IH]; simpl; [discriminate|].
  destruct (Z.eqb_spec c code) as [->|Hne].
  - intros [= ->]. left. reflexivity.
  - intros Hl. right. apply IH, Hl.
Qed.

Lemma lookupCode_found (l : list (jsstring * Z)) code name :
  List.NoDup (List.map snd l) ->
  In (name, code) l ->
  List.fold_right
    (fun kv acc => if (snd kv =? code)%Z then Some (fst kv) else acc)
    None l = Some name.
Proof.
  induction l as [|[n c] l IH]; simpl; [tauto|].
  intros Hnd Hin. apply NoDup_cons_iff in Hnd as [Hnotin Hnd].
  destruct Hin as [[= -> ->]|Hin].
  - rewrite Z.eqb_refl. reflexivity.
  - destruct (Z.eqb_spec c code) as [->|Hne]; [|apply IH; assumption].
    exfalso. apply Hnotin. apply in_map_iff. exists (name, code). auto.
Qed.

Lemma oAscFileType_codes_distinct : List.NoDup (List.map snd oAscFileType).
Proof.
  apply NoDup_ListNoDup. apply (bool_decide_unpack _). vm_compute.
  reflexivity.
Qed.

(** [c_oAscFileType2] is the inverse of [oAscFileType]: a code maps to a
    name exactly when the table lists that name with that code. *)
Theorem c_oAscFileType2_inverts_oAscFileType (name : jsstring) (code : Z) :
  c_oAscFileType2 code = Some name <-> In (name, code) oAscFileType.
Proof.
  split.
  - apply lookupCode_In.
  - apply lookupCode_found, oAscFileType_codes_distinct.
Qed.

Lemma lower_upper_unit c :
  (c < 128)%N ->
  exists u, upperUnits c = [u] /\ lowerUnit u = lowerUnit c.
Proof.
  intros Hc. unfold upperUnits.
  destruct ((97 <=? c) && (c <=? 122)) eqn:E1.
  - apply andb_prop in E1 as [A1 A2].
    apply N.leb_le in A1. apply N.leb_le in A2.
    exists (c - 32)%N. split; [reflexivity|]. unfold lowerUnit.
    replace ((65 <=? c - 32) && (c - 32 <=? 90)) with true
      by (symmetry; apply andb_true_intro; split; apply N.leb_le; lia).
    replace ((65 <=? c) && (c <=? 90)) with false
      by (symmetry; apply andb_false_intro2; apply N.leb_gt; lia).
    replace (c =? 8490) with false by (symmetry; apply N.eqb_neq; lia).
    lia.
  - exists c. split; [|reflexivity].
    repeat match goal with
           | |- context [(c =? ?k)] =>
               replace (c =? k) with false by (symmetry; apply N.eqb_neq; lia)
           end.
    reflexivity.
Qed.

Lemma lower_upper s :
  forallb (fun c => c <? 128) s = true ->
  toLowerCase (toUpperCase s) = toLowerCase s.
Proof.
  unfold toLowerCase, toUpperCase.
  induction s as [|c s IH]; [reflexivity|].
  intros Hs. apply andb_prop in Hs as [Hc Hs]. apply N.ltb_lt in Hc.
  destruct (lower_upper_unit c Hc) as (u & Hu & Hl).
  cbn [List.map List.concat]. rewrite Hu. cbn [app List.map].
  rewrite Hl, (IH Hs). reflexivity.
Qed.

(** The case of the letters a to z does not matter to any of the extension
    tables: for an extension made of Basic Latin units, the upper-cased
    extension reads the same entry of the converter's type table (the read
    getDocumentType decides on), and gets the same result from the exported
    getDocumentType, the same MIME types and the same description. *)
Theorem extension_tables_ignore_case (extension : jsstring) :
  forallb (fun c => c <? 128) extension = true ->
  readProp DOCUMENT_TYPE_MAP (toLowerCase (toUpperCase extension))
  = readProp DOCUMENT_TYPE_MAP (toLowerCase extension)
  /\ getDocumentTypeExported (toUpperCase extension)
     = getDocumentTypeExported extension
  /\ converterMimeType (toUpperCase extension) = converterMimeType extension
  /\ getFileDescription (toUpperCase extension)
     = getFileDescription extension
  /\ getMimeTypeFromExtension (toUpperCase extension)
     = getMimeTypeFromExtension extension.
Proof.
  intros Hascii.
  unfold getDocumentTypeExported, converterMimeType, getFileDescription,
    getMimeTypeFromExtension.
  rewrite !(lower_upper _ Hascii). repeat apply conj; reflexivity.
Qed.

Lemma extension_tables_ignore_case_witness :
  getDocumentTypeExported (toUpperCase (js "xlsx"))
  = getDocumentTypeExported (js "xlsx")
  /\ getDocumentTypeExported (js "XLSX") = Some cell.
Proof.
  destruct (extension_tables_ignore_case (js "xlsx") eq_refl)
    as (_ & Hd & _).
  split; [exact Hd | reflexivity].
Defined.

Lemma jsstring_eqb_true a b : jsstring_eqb a b = true -> a = b.
Proof. unfold jsstring_eqb. apply bool_decide_eq_true. Qed.

(** The exported getDocumentType agrees with the converter's table wherever
    it answers; it answers null for exactly five extensions the converter
    accepts: odt, rtf, txt, ods and odp. *)
Theorem getDocumentTypeExported_within_converter_table (fileType : jsstring) :
  (forall d,
      getDocumentTypeExported fileType = Some d ->
      readProp DOCUMENT_TYPE_MAP (toLowerCase fileType) = Own d)
  /\ (forall d,
        getDocumentTypeExported fileType = None ->
        readProp DOCUMENT_TYPE_MAP (toLowerCase fileType) = Own d ->
        In (toLowerCase fileType)
           [js "odt"; js "rtf"; js "txt"; js "ods"; js "odp"]).
Proof.
  unfold getDocumentTypeExported, readProp.
  set (type := toLowerCase fileType). split.
  - intros d.
    repeat match goal with
      | |- context [jsstring_eqb type ?lit] =>
          let E := fresh "E" in
          destruct (jsstring_eqb type lit) eqn:E;
            [apply jsstring_eqb_true in E; rewrite E;
             simpl; intros [= <-]; reflexivity|]
      end.
    simpl. discriminate.
  - intros d Hnone Hown.
    destruct (DOCUMENT_TYPE_MAP !! type) as [d'|] eqn:Hl;
      [|destruct (bool_decide _); discriminate].
    apply elem_of_list_to_map_2 in Hl.
    repeat (apply elem_of_cons in Hl as [Hl|Hl];
            [injection Hl as Ht _; rewrite Ht in *;
             first [discriminate Hnone | simpl; tauto]|]).
    apply elem_of_nil in Hl. destruct Hl.
Qed.

(** Every extension the converter accepts has its own MIME type and its
    own description for the save dialog, so the request built for a file
    named with it never falls back to the defaults. *)
Theorem pickerRequest_for_supported_extension
    (base extension : jsstring) (d : DocumentType) :
  DOCUMENT_TYPE_MAP !! extension = Some d ->
  exists mime text,
    pickerRequest (base ++ DOT :: extension)
    = {| suggestedName := base ++ DOT :: extension;
         description := Own text;
         acceptMime := Own mime;
         acceptExtension := DOT :: extension |}
    /\ mimeMap !! extension = Some mime
    /\ descriptionMap !! extension = Some text.
Proof.
  intros Hl. apply elem_of_list_to_map_2 in Hl.
  unfold pickerRequest.
  repeat (apply elem_of_cons in Hl as [Hl|Hl];
          [injection Hl as -> _;
           rewrite split_app_sep by reflexivity; rewrite pop_snoc;
           eexists; eexists; split; [reflexivity|split; reflexivity]|]).
  apply elem_of_nil in Hl. destruct Hl.
Qed.

Lemma pickerRequest_witness :
  acceptMime (pickerRequest (js "report" ++ DOT :: js "csv"))
  = Own (js "text/csv").
Proof.
  destruct (pickerRequest_for_supported_extension (js "report") (js "csv")
              cell eq_refl) as (mime & text & -> & Hm & _).
  simpl. vm_compute in Hm. injection Hm as <-. reflexivity.
Defined.

Lemma decodeCsv_marker (H : Host) (data : bytes) :
  hasBOM data = false -> decodeCsv (H := H) (BOM ++ data) = decodeCsv data.
Proof.
  intros Hb. unfold decodeCsv, BOM. simpl app. unfold hasBOM in Hb.
  destruct data as [|a [|b [|c rest]]]; try reflexivity;
    destruct a; try reflexivity;
    destruct b; try reflexivity;
    destruct c; try reflexivity; discriminate.
Qed.

(** The marker convertCsvDirectly puts in front is the one
    convertCsvToXlsx takes off: data made to carry the marker start with
    it, making that twice changes nothing more, and the text decoded from
    it is the text decoded from the data as they were. *)
Theorem withBOM_then_decodeCsv (H : Host) (data : bytes) :
  hasBOM (withBOM data) = true
  /\ withBOM (withBOM data) = withBOM data
  /\ decodeCsv (H := H) (withBOM data) = decodeCsv data.
Proof.
  unfold withBOM. destruct (hasBOM data) eqn:Hb.
  - rewrite Hb. auto.
  - repeat apply conj; try reflexivity. apply decodeCsv_marker, Hb.
Qed.

End TableFacts.

(** ** More on the converter session *)

Section ConverterMore.

Import Sanitize Converter.

Context {H : Host}.

Lemma fsWriteFile_Ok path data (w w' : World H) :
  fsWriteFile path data w = (Ok tt, w') ->
  hostLog w' = hostLog w ++ [CallWriteFile path data]
  /\ is_Some (x2tModule w) /\ is_Some (x2tModule w').
Proof.
  unfold fsWriteFile. destruct (x2tModule w) as [m|]; [|discriminate].
  destruct (FS_writeFile H path data m) as [o m'].
  intros [= -> <-]. simpl. eauto.
Qed.

Lemma fsReadFile_Ok path (w w' : World H) b :
  fsReadFile path w = (Ok b, w') ->
  hostLog w' = hostLog w ++ [CallReadFile path]
  /\ exists m, x2tModule w = Some m /\ x2tModule w' = Some m
               /\ FS_readFile H path m = Ok b.
Proof.
  unfold fsReadFile. destruct (x2tModule w) as [m|] eqn:E; [|discriminate].
  intros [= Hb <-]. simpl. eauto.
Qed.

(** executeConversion: a return code of zero is success; any other code
    is reported in an error that carries the code, after the parameters
    file has been read back for the console, whatever that read gives. *)
Theorem executeConversion_reports_the_code
    (w : World H) (m m' : modst H) (paramsPath : jsstring) (code : Z) :
  x2tModule w = Some m ->
  ccall_main1 H paramsPath m = (code, m') ->
  (code = 0%Z ->
   exists w', executeConversion paramsPath w = (Ok tt, w')
              /\ hostLog w' = hostLog w ++ [CallMain1 paramsPath]
              /\ x2tModule w' = Some m')
  /\ (code <> 0%Z ->
      exists w',
        executeConversion paramsPath w
        = (Throw (ErrorObj (js "Conversion failed with code: " ++ showZ code)),
           w')
        /\ hostLog w'
           = hostLog w ++ [CallMain1 paramsPath; CallReadFile paramsPath]
        /\ x2tModule w' = Some m').
Proof.
  intros Hm Hc. unfold executeConversion. rewrite Hm, Hc. split.
  - intros ->. simpl. eauto.
  - intros Hne. apply Z.eqb_neq in Hne. rewrite Hne.
    unfold fsReadFile. simpl. eexists. split; [reflexivity|].
    simpl. rewrite <- app_assoc. auto.
Qed.

Lemma executeConversion_without_module (w : World H) paramsPath :
  x2tModule w = None ->
  executeConversion paramsPath w
  = (Throw (ErrorObj (js "X2T module not initialized")), w).
Proof. intros Hm. unfold executeConversion. rewrite Hm. reflexivity. Qed.

Lemma createWorkingDirectories_calls (m : modst H) log :
  snd (createWorkingDirectories m log)
  = log ++ List.map CallMkdir WORKING_DIRS.
Proof.
  unfold createWorkingDirectories, WORKING_DIRS, fsMkdir. simpl.
  repeat match goal with
         | |- context [FS_mkdir H ?p ?x] =>
             destruct (FS_mkdir H p x) as [? ?]; simpl
         end.
  rewrite <- !app_assoc. reflexivity.
Qed.

(** A first call on a session that is not ready and has no promise
    stored.  When the script loads (or had loaded) and the boot succeeds,
    each of the four working directories is asked for, in order, whatever
    [mkdir] answers for any of them, and the session is ready.  When the
    boot fails after the script has loaded, no directory is asked for, the
    session stays not ready and the rejected promise stays stored.  When
    the script itself fails to load, the session is left as it was. *)
Theorem initialize_creates_working_directories (w : World H) :
  isReady w = false ->
  initPromise w = None ->
  ((hasScriptLoaded w = true \/ scriptLoad H = Ok tt) ->
   forall m,
     boot H = Ok m ->
     exists w1,
       initialize w = (Ok tt, w1)
       /\ isReady w1 = true
       /\ is_Some (x2tModule w1)
       /\ hostLog w1
          = hostLog w
            ++ [CallMkdir (js "/working"); CallMkdir (js "/working/media");
                CallMkdir (js "/working/fonts");
                CallMkdir (js "/working/themes")])
  /\ ((hasScriptLoaded w = true \/ scriptLoad H = Ok tt) ->
      forall e,
        boot H = Throw e ->
        exists w1,
          initialize w = (Throw e, w1)
          /\ isReady w1 = false
          /\ x2tModule w1 = x2tModule w
          /\ hostLog w1 = hostLog w
          /\ initPromise w1 = Some e)
  /\ (hasScriptLoaded w = false ->
      forall e, scriptLoad H = Throw e -> initialize w = (Throw e, w)).
Proof.
  intros Hr Hp. unfold initialize. rewrite Hr, Hp. unfold doInitialize.
  split; [|split].
  - intros Hs m Hb.
    assert (Hl : (if hasScriptLoaded w then Ok tt else scriptLoad H)
                 = Ok tt)
      by (destruct Hs as [-> | Hs]; [|destruct (hasScriptLoaded w)]; auto).
    rewrite Hl, Hb.
    pose proof (createWorkingDirectories_calls m (hostLog w)) as Hc.
    destruct (createWorkingDirectories m (hostLog w)) as [m1 log1].
    simpl in Hc. subst log1. eexists. split; [reflexivity|].
    simpl. eauto.
  - intros Hs e Hb.
    assert (Hl : (if hasScriptLoaded w then Ok tt else scriptLoad H)
                 = Ok tt)
      by (destruct Hs as [-> | Hs]; [|destruct (hasScriptLoaded w)]; auto).
    rewrite Hl, Hb. eexists. split; [reflexivity|]. simpl. auto.
  - intros Hs e He. rewrite Hs, He. f_equal.
    destruct w. simpl in *. subst. reflexivity.
Qed.

End ConverterMore.

Section ConverterMoreWitnesses.

Import Sanitize Converter.

Lemma executeConversion_reports_the_code_witness :
  exists w',
    executeConversion (js "/working/params.xml")
      (Sample.readyWorld "report.csv") = (Ok tt, w')
    /\ hostLog w' = [CallMain1 (js "/working/params.xml")].
Proof.
  destruct (executeConversion_reports_the_code (H := Sample.page)
              (Sample.readyWorld "report.csv") _ _
              (js "/working/params.xml") 0 eq_refl eq_refl) as [Hzero _].
  destruct (Hzero eq_refl) as (w' & Hrun & Hlog & _).
  exists w'. split; [exact Hrun | exact Hlog].
Defined.

Lemma initialize_creates_working_directories_witness :
  exists w1,
    initialize (freshWorld (H := Sample.page)) = (Ok tt, w1)
    /\ length (hostLog w1) = 4%nat.
Proof.
  destruct (initialize_creates_working_directories (H := Sample.page)
              freshWorld eq_refl eq_refl) as [Hok _].
  destruct (Hok (or_intror eq_refl) _ eq_refl) as (w1 & Hrun & _ & _ & Hlog).
  exists w1. split; [exact Hrun|]. rewrite Hlog. reflexivity.
Defined.

End ConverterMoreWitnesses.

(** ** More on convertDocument *)

Section ConvertMore.

Import Sanitize Converter.

Context {H : Host}.

Lemma bind_cases {A B} (m : M H A) (k : A -> M H B) w o w' :
  bind m k w = (o, w') ->
  (exists e, m w = (Throw e, w') /\ o = Throw e)
  \/ (exists a w1, m w = (Ok a, w1) /\ k a w1 = (o, w')).
Proof.
  unfold bind. destruct (m w) as [[a|e] w1].
  - intros Hk. right. eauto.
  - intros [= <- <-]. left. eauto.
Qed.

Lemma moduleOnly_getDocumentType ext : moduleOnly (getDocumentType ext).
Proof.
  unfold getDocumentType.
  destruct (readProp _ _); try apply moduleOnly_ret. apply moduleOnly_throw.
Qed.

Lemma moduleOnly_convertCsvToXlsx data name :
  moduleOnly (convertCsvToXlsx data name).
Proof.
  unfold convertCsvToXlsx. apply moduleOnly_tryCatch.
  - apply moduleOnly_bind; [apply moduleOnly_liftOutcome|]. intros _.
    apply moduleOnly_bind; [apply moduleOnly_liftOutcome|]. intros wb.
    apply moduleOnly_bind; [apply moduleOnly_liftOutcome|]. intros buf.
    apply moduleOnly_ret.
  - intros e. apply moduleOnly_throw.
Qed.

Lemma moduleOnly_convertCsv name data docType :
  moduleOnly (convertCsv name data docType).
Proof.
  unfold convertCsv. destruct (length data =? 0)%nat.
  - apply moduleOnly_throw.
  - apply moduleOnly_tryCatch; [|intros e; apply moduleOnly_throw].
    apply moduleOnly_bind; [apply moduleOnly_convertCsvToXlsx|]. intros f.
    apply moduleOnly_bind; [apply moduleOnly_runX2t|]. intros r.
    apply moduleOnly_bind; [apply moduleOnly_readMediaFiles|]. intros md.
    apply moduleOnly_ret.
Qed.

Lemma moduleOnly_convertDocument file : moduleOnly (convertDocument file).
Proof.
  unfold convertDocument.
  apply moduleOnly_bind; [apply moduleOnly_initialize|]. intros _.
  apply moduleOnly_bind; [apply moduleOnly_getDocumentType|]. intros d.
  apply moduleOnly_tryCatch; [|intros e; apply moduleOnly_throw].
  destruct (jsstring_eqb _ _);
    [apply moduleOnly_convertCsv | apply moduleOnly_convertStandard].
Qed.

(** convertDocument only ever touches the converter side: it offers no
    file for saving, sends the editor nothing and leaves the tracked
    document alone.  When it fails, the error is the one of the boot, or
    the unsupported-format error raised before anything else is done, or
    an error whose message starts with [Document conversion failed: ]. *)
Theorem convertDocument_effects_and_errors (file : File) (w w' : World H) o :
  convertDocument file w = (o, w') ->
  saved w' = saved w
  /\ commands w' = commands w
  /\ docFileName w' = docFileName w
  /\ (exists calls, hostLog w' = hostLog w ++ calls)
  /\ (forall e,
        o = Throw e ->
        initialize w = (Throw e, w')
        \/ (initialize w = (Ok tt, w')
            /\ e = ErrorObj (js "Unsupported file format: "
                             ++ resolveExtension file))
        \/ exists message,
             e = ErrorObj (js "Document conversion failed: " ++ message)).
Proof.
  intros Hrun.
  destruct (moduleOnly_convertDocument file w o w' Hrun)
    as (Hlog & _ & Hs & Hc & Hd & _).
  repeat (split; [assumption|]).
  intros e ->. unfold convertDocument in Hrun.
  apply bind_cases in Hrun as [(e0 & Hi & [= <-])|([] & w1 & Hi & Hrun)];
    [left; exact Hi|].
  right. unfold getDocumentType in Hrun.
  destruct (readProp DOCUMENT_TYPE_MAP _) as [d|k|].
  - right. apply bind_cases in Hrun
      as [(e0 & Hr & _)|(d0 & w2 & _ & Hrun)]; [discriminate Hr|].
    apply tryCatch_throwError_outcome in Hrun
      as [(a & _ & Ha)|(e1 & _ & [= ->])]; [discriminate|eauto].
  - right. apply bind_cases in Hrun
      as [(e0 & Hr & _)|(d0 & w2 & _ & Hrun)]; [discriminate Hr|].
    apply tryCatch_throwError_outcome in Hrun
      as [(a & _ & Ha)|(e1 & _ & [= ->])]; [discriminate|eauto].
  - left. apply bind_cases in Hrun
      as [(e0 & Hr & He)|(d0 & w2 & Hr & _)]; [|discriminate Hr].
    unfold throwError, throw in Hr. injection He as <-.
    assert (Hw : w1 = w') by congruence. subst w'.
    split; [exact Hi|]. congruence.
Qed.

(** An empty CSV file is refused right after the type is resolved, with
    nothing written. *)
Theorem convertDocument_empty_csv (file : File) (w w1 : World H) :
  initialize w = (Ok tt, w1) ->
  toLowerCase (resolveExtension file) = js "csv" ->
  file_bytes file = [] ->
  convertDocument file w
  = (Throw (ErrorObj (js "Document conversion failed: CSV file is empty")),
     w1).
Proof.
  intros Hi Hcsv Hb. unfold convertDocument, bind at 1. rewrite Hi.
  rewrite (getDocumentType_csv _ Hcsv). unfold bind at 1, ret at 1.
  rewrite Hcsv. change (jsstring_eqb (js "csv") (js "csv")) with true.
  cbv iota. unfold convertCsv. rewrite Hb. reflexivity.
Qed.

(** A successful conversion of a file of a listed type other than CSV:
    the result has the sanitised name, the listed type and the bytes the
    module returned for the output path, and the calls made after the boot
    start with the write of the input, the write of the parameters naming
    input and output, the converter run and the read of the output, in this
    order. *)
Theorem convertDocument_standard_protocol
    (file : File) (w w1 w' : World H) (d : DocumentType)
    (r : ConversionResult) :
  initialize w = (Ok tt, w1) ->
  readProp DOCUMENT_TYPE_MAP (toLowerCase (resolveExtension file)) = Own d ->
  jsstring_eqb (toLowerCase (resolveExtension file)) (js "csv") = false ->
  convertDocument file w = (Ok r, w') ->
  let input := js "/working/" ++ sanitizeFileName (file_name file) in
  let output := input ++ js ".bin" in
  fileName r = sanitizeFileName (file_name file)
  /\ type r = Own d
  /\ (exists m, FS_readFile H output m = Ok (bin r))
  /\ exists rest,
       hostLog w'
       = hostLog w1
         ++ [CallWriteFile input (FBytes (file_bytes file));
             CallWriteFile (js "/working/params.xml")
               (FText (createConversionParams input output []));
             CallMain1 (js "/working/params.xml");
             CallReadFile output]
         ++ rest.
Proof.
  intros Hi Hd Hncsv Hrun input output. unfold convertDocument in Hrun.
  apply bind_Ok_inv in Hrun as ([] & w1' & Hi' & Hrun).
  rewrite Hi in Hi'. injection Hi' as <-.
  unfold getDocumentType in Hrun. rewrite Hd in Hrun.
  apply bind_Ok_inv in Hrun as (d0 & w2 & [= <- <-] & Hrun).
  apply tryCatch_throwError_Ok_inv in Hrun. rewrite Hncsv in Hrun.
  unfold convertStandard in Hrun.
  apply bind_Ok_inv in Hrun as (result & wa & Hx & Hrun).
  apply bind_Ok_inv in Hrun as (md & wb & Hmedia & [= <- <-]).
  unfold runX2t in Hx.
  apply bind_Ok_inv in Hx as ([] & wx1 & H1 & Hx).
  apply bind_Ok_inv in Hx as ([] & wx2 & H2 & Hx).
  apply bind_Ok_inv in Hx as ([] & wx3 & H3 & H4).
  apply fsWriteFile_Ok in H1 as (L1 & _ & _).
  apply fsWriteFile_Ok in H2 as (L2 & _ & [m2 M2]).
  apply fsReadFile_Ok in H4 as (L4 & m & _ & _ & Hread).
  assert (L3 : hostLog wx3 = hostLog wx2 ++ [CallMain1 (js "/working/params.xml")]).
  { unfold executeConversion in H3. rewrite M2 in H3.
    destruct (ccall_main1 H _ m2) as [code m3].
    destruct (code =? 0)%Z.
    - injection H3 as <-. reflexivity.
    - destruct (fsReadFile _ _) as [o5 w5]. discriminate. }
  apply moduleOnly_readMediaFiles in Hmedia as ([rest Lm] & _).
  simpl. repeat (split; [eauto|]).
  exists rest. rewrite Lm, L4, L3, L2, L1. fold input. fold output.
  rewrite <- !app_assoc. reflexivity.
Qed.

End ConvertMore.

Section ConvertMoreWitnesses.

Import Sanitize Converter.

Lemma convertDocument_effects_and_errors_witness :
  exists o w',
    convertDocument Sample.reportCsv (Sample.readyWorld "report.csv")
    = (o, w')
    /\ saved w' = [] /\ commands w' = [].
Proof.
  destruct (convertDocument Sample.reportCsv (Sample.readyWorld "report.csv"))
    as [o w'] eqn:E.
  destruct (convertDocument_effects_and_errors (H := Sample.page) _ _ _ _ E)
    as (Hs & Hc & _).
  exists o, w'. auto.
Defined.

Lemma convertDocument_empty_csv_witness :
  fst (convertDocument
         {| file_name := js "empty.csv"; file_type := []; file_bytes := [] |}
         (Sample.readyWorld "report.csv"))
  = Throw (ErrorObj (js "Document conversion failed: CSV file is empty")).
Proof.
  rewrite (convertDocument_empty_csv (H := Sample.page)
             {| file_name := js "empty.csv"; file_type := [];
                file_bytes := [] |}
             (Sample.readyWorld "report.csv")
             (Sample.readyWorld "report.csv") eq_refl eq_refl eq_refl).
  reflexivity.
Defined.

Lemma convertDocument_standard_protocol_witness :
  exists r w',
    convertDocument
      {| file_name := js "report.docx"; file_type := [];
         file_bytes := [Byte.x41] |}
      (Sample.readyWorld "report.csv") = (Ok r, w')
    /\ fileName r = js "report.docx"
    /\ type r = Own word.
Proof.
  assert (Hok : match fst (convertDocument
                             {| file_name := js "report.docx";
                                file_type := []; file_bytes := [Byte.x41] |}
                             (Sample.readyWorld "report.csv")) with
                | Ok _ => True
                | Throw _ => False
                end) by (vm_compute; exact I).
  destruct (convertDocument _ (Sample.readyWorld "report.csv"))
    as [[r|e] w'] eqn:E; [|destruct Hok].
  destruct (convertDocument_standard_protocol (H := Sample.page)
              {| file_name := js "report.docx"; file_type := [];
                 file_bytes := [Byte.x41] |}
              (Sample.readyWorld "report.csv")
              (Sample.readyWorld "report.csv") w' word r
              eq_refl eq_refl eq_refl E) as (Hn & Ht & _).
  exists r, w'. rewrite Hn, Ht. auto.
Defined.

End ConvertMoreWitnesses.

(** ** More on saving *)

Section SaveMore.

Import Sanitize Converter.

Context {H : Host}.

Lemma quietOnThrow_moduleOnly {A} (m : M H A) : moduleOnly m -> quietOnThrow m.
Proof.
  intros Hm w e w' Hrun.
  destruct (Hm _ _ _ Hrun) as (_ & _ & S & C & _ & E). auto.
Qed.

Lemma quietOnThrow_bind {A B} (m : M H A) (k : A -> M H B) :
  moduleOnly m -> (forall a, quietOnThrow (k a)) -> quietOnThrow (bind m k).
Proof.
  intros Hm Hk w e w' Hrun.
  apply bind_cases in Hrun as [(e0 & Hr & _)|(a & w1 & Hr & Hrun)].
  - destruct (Hm _ _ _ Hr) as (_ & _ & S & C & _ & E). auto.
  - destruct (Hm _ _ _ Hr) as (_ & _ & S & C & _ & E).
    destruct (Hk a _ _ _ Hrun) as (S' & C' & E').
    repeat split; congruence.
Qed.

Lemma quietOnThrow_save_ret {A} data name (r : A) :
  quietOnThrow (exec saveWithFileSystemAPI (H := H) data name ;; ret r).
Proof. intros w e w'. unfold bind, saveWithFileSystemAPI, ret. discriminate. Qed.

Lemma quietOnThrow_binToCsv binData base binName outName :
  quietOnThrow (binToCsv binData base binName outName).
Proof.
  unfold binToCsv.
  apply quietOnThrow_bind; [apply moduleOnly_fsWriteFile|]. intros _.
  apply quietOnThrow_bind; [apply moduleOnly_fsWriteFile|]. intros _.
  apply quietOnThrow_bind; [apply moduleOnly_executeConversion|]. intros _.
  apply quietOnThrow_bind; [apply moduleOnly_fsReadFile|]. intros x.
  apply quietOnThrow_bind; [apply moduleOnly_liftOutcome|]. intros _.
  apply quietOnThrow_bind; [apply moduleOnly_liftOutcome|]. intros wb.
  apply quietOnThrow_bind; [apply moduleOnly_liftOutcome|]. intros csv.
  apply quietOnThrow_save_ret.
Qed.

Lemma quietOnThrow_binToStandard binData targetExt binName outName :
  quietOnThrow (binToStandard binData targetExt binName outName).
Proof.
  unfold binToStandard.
  apply quietOnThrow_bind; [apply moduleOnly_fsWriteFile|]. intros _.
  apply quietOnThrow_bind; [apply moduleOnly_fsWriteFile|]. intros _.
  apply quietOnThrow_bind; [apply moduleOnly_executeConversion|]. intros _.
  apply quietOnThrow_bind; [apply moduleOnly_fsReadFile|]. intros x.
  apply quietOnThrow_save_ret.
Qed.

Lemma binToStandard_Ok binData targetExt binName outName (w w' : World H) r :
  binToStandard binData targetExt binName outName w = (Ok r, w') ->
  out_fileName r = outName
  /\ saved w'
     = saved w
       ++ [{| saved_name := outName; saved_data := toUint8 (out_data r);
              saved_viaPicker := hasSaveFilePicker H |}]
  /\ commands w' = commands w
  /\ editorAttached w' = editorAttached w
  /\ (exists m, FS_readFile H (js "/working/" ++ outName) m = Ok (out_data r))
  /\ In (CallWriteFile (js "/working/params.xml")
           (FText (createConversionParams (js "/working/" ++ binName)
                     (js "/working/" ++ outName)
                     (if jsstring_eqb targetExt (js "PDF")
                      then js "<m_sFontDir>/working/fonts/</m_sFontDir>"
                      else []))))
        (hostLog w').
Proof.
  unfold binToStandard. intros Hrun.
  apply bind_Ok_inv in Hrun as ([] & w1 & H1 & Hrun).
  apply bind_Ok_inv in Hrun as ([] & w2 & H2 & Hrun).
  apply bind_Ok_inv in Hrun as ([] & w3 & H3 & Hrun).
  apply bind_Ok_inv in Hrun as (result & w4 & H4 & Hrun).
  apply bind_Ok_inv in Hrun as ([] & w5 & H5 & [= <- <-]).
  injection H5 as <-.
  pose proof (fsWriteFile_Ok _ _ _ _ H2) as (L2 & _ & _).
  pose proof (fsReadFile_Ok _ _ _ _ H4) as (_ & m & _ & _ & Hread).
  apply moduleOnly_fsWriteFile in H1, H2.
  apply moduleOnly_executeConversion in H3.
  apply moduleOnly_fsReadFile in H4.
  pose proof (moduleStep_trans _ _ _ H3 H4) as H34.
  pose proof (moduleStep_trans _ _ _ H1 (moduleStep_trans _ _ _ H2 H34)) as H14.
  destruct H14 as (_ & _ & S & C & _ & E).
  simpl. split; [reflexivity|]. split; [rewrite S; reflexivity|].
  split; [exact C|]. split; [exact E|]. split; [eauto|].
  apply (moduleStep_In _ _ _ H34). rewrite L2.
  apply in_or_app. right. left. reflexivity.
Qed.

(** What a run of convertBinToDocumentAndDownload leaves, whatever the
    target. *)
Lemma convertBin_outcome binData name target (w w' : World H) o :
  convertBinToDocumentAndDownload binData name target w = (o, w') ->
  commands w' = commands w
  /\ editorAttached w' = editorAttached w
  /\ match o with
     | Ok r =>
         out_fileName r
         = stripExt (sanitizeFileNameOpt name) ++ js "."
           ++ toLowerCase (default (js "DOCX") target)
         /\ saved w'
            = saved w
              ++ [{| saved_name := out_fileName r;
                     saved_data := toUint8 (out_data r);
                     saved_viaPicker := hasSaveFilePicker H |}]
     | Throw e =>
         saved w' = saved w
         /\ (initialize w = (Throw e, w')
             \/ exists message,
                  e = ErrorObj (js "Bin to document conversion failed: "
                                ++ message))
     end.
Proof.
  unfold convertBinToDocumentAndDownload. intros Hrun.
  apply bind_cases in Hrun as [(e & Hi & ->)|([] & w1 & Hi & Hrun)].
  - destruct (moduleOnly_initialize _ _ _ Hi) as (_ & _ & S & C & _ & E).
    split; [exact C|]. split; [exact E|]. split; [exact S|]. left. exact Hi.
  - destruct (moduleOnly_initialize _ _ _ Hi) as (_ & _ & S & C & _ & E).
    apply tryCatch_throwError_outcome in Hrun
      as [(r & Hrun & ->)|(e & Hrun & ->)].
    + destruct (jsstring_eqb _ (js "CSV")).
      * apply binToCsv_Ok in Hrun
          as (x & wb & csv & _ & _ & -> & S' & C' & E' & _).
        cbn [out_fileName out_data toUint8].
        split; [congruence|]. split; [congruence|].
        split; [reflexivity|]. rewrite S', S. reflexivity.
      * apply binToStandard_Ok in Hrun as (Hn & S' & C' & E' & _).
        rewrite Hn.
        split; [congruence|]. split; [congruence|].
        split; [reflexivity|]. rewrite S', S. reflexivity.
    + assert (Hq : saved w' = saved w1 /\ commands w' = commands w1
                   /\ editorAttached w' = editorAttached w1).
      { destruct (jsstring_eqb _ (js "CSV")).
        - eapply quietOnThrow_binToCsv, Hrun.
        - eapply quietOnThrow_binToStandard, Hrun. }
      destruct Hq as (S' & C' & E').
      split; [congruence|]. split; [congruence|].
      split; [congruence|]. right. eauto.
Qed.

End SaveMore.

Section SaveMoreTheorems.

Import Sanitize Converter.

(** convertBinToDocumentAndDownload offers a file for saving exactly when
    it succeeds: on success one file, named after the sanitised base name
    and the lower-cased target (docx when none is given) and holding the
    returned data; on failure none, the error being the boot's or one whose
    message starts with [Bin to document conversion failed: ].  It never
    sends the editor anything. *)
Theorem convertBin_offers_file_exactly_on_success
    (H : Host) (binData : bytes) (name target : option jsstring)
    (w w' : World H) (o : Outcome BinConversionResult) :
  convertBinToDocumentAndDownload binData name target w = (o, w') ->
  commands w' = commands w
  /\ match o with
     | Ok r =>
         out_fileName r
         = stripExt (sanitizeFileNameOpt name) ++ js "."
           ++ toLowerCase (default (js "DOCX") target)
         /\ saved w'
            = saved w
              ++ [{| saved_name := out_fileName r;
                     saved_data := toUint8 (out_data r);
                     saved_viaPicker := hasSaveFilePicker H |}]
     | Throw e =>
         saved w' = saved w
         /\ (initialize w = (Throw e, w')
             \/ exists message,
                  e = ErrorObj (js "Bin to document conversion failed: "
                                ++ message))
     end.
Proof.
  intros Hrun. destruct (convertBin_outcome _ _ _ _ _ _ Hrun) as (C & _ & Ho).
  auto.
Qed.

Lemma convertBin_offers_file_witness :
  exists r w',
    convertBinToDocumentAndDownload [Byte.x01] (Some (js "report.docx"))
      (Some (js "XLSX")) (Sample.readyWorld "report.docx") = (Ok r, w')
    /\ List.map saved_name (saved w') = [js "report.xlsx"].
Proof.
  assert (Hok : match fst (convertBinToDocumentAndDownload [Byte.x01]
                             (Some (js "report.docx")) (Some (js "XLSX"))
                             (Sample.readyWorld "report.docx")) with
                | Ok _ => True
                | Throw _ => False
                end) by (vm_compute; exact I).
  destruct (convertBinToDocumentAndDownload [Byte.x01]
              (Some (js "report.docx")) (Some (js "XLSX"))
              (Sample.readyWorld "report.docx")) as [[r|e] w'] eqn:E;
    [|destruct Hok].
  destruct (convertBin_offers_file_exactly_on_success Sample.page _ _ _ _ _ _ E)
    as (_ & Hn & Hs).
  exists r, w'. split; [reflexivity|]. rewrite Hs, Hn. reflexivity.
Defined.

(** For a target other than CSV, a successful conversion returns the bytes
    the module holds under the output name, and the parameters written for
    the converter name the staged bin file and that output; the font
    directory is added for the target spelled [PDF] and for no other. *)
Theorem convertBin_standard_parameters
    (H : Host) (binData : bytes) (name : option jsstring)
    (targetExt : jsstring) (w w' : World H) (r : BinConversionResult) :
  jsstring_eqb (toUpperCase targetExt) (js "CSV") = false ->
  convertBinToDocumentAndDownload binData name (Some targetExt) w
  = (Ok r, w') ->
  let base := stripExt (sanitizeFileNameOpt name) in
  (exists m, FS_readFile H (js "/working/" ++ out_fileName r) m
             = Ok (out_data r))
  /\ In (CallWriteFile (js "/working/params.xml")
           (FText (createConversionParams
                     (js "/working/" ++ base ++ js ".bin")
                     (js "/working/" ++ out_fileName r)
                     (if jsstring_eqb targetExt (js "PDF")
                      then js "<m_sFontDir>/working/fonts/</m_sFontDir>"
                      else []))))
        (hostLog w').
Proof.
  intros Hn Hrun base. unfold convertBinToDocumentAndDownload in Hrun.
  simpl default in Hrun.
  apply bind_Ok_inv in Hrun as ([] & w1 & Hi & Hrun).
  apply tryCatch_throwError_Ok_inv in Hrun. rewrite Hn in Hrun.
  apply binToStandard_Ok in Hrun as (-> & _ & _ & _ & Hread & Hlog).
  split; [exact Hread | exact Hlog].
Qed.

Lemma convertBin_standard_parameters_witness :
  exists r w',
    convertBinToDocumentAndDownload [Byte.x01] (Some (js "report.docx"))
      (Some (js "XLSX")) (Sample.readyWorld "report.docx") = (Ok r, w')
    /\ out_data r = BUint8 [Byte.x50; Byte.x4b].
Proof.
  assert (Hok : match fst (convertBinToDocumentAndDownload [Byte.x01]
                             (Some (js "report.docx")) (Some (js "XLSX"))
                             (Sample.readyWorld "report.docx")) with
                | Ok _ => True
                | Throw _ => False
                end) by (vm_compute; exact I).
  destruct (convertBinToDocumentAndDownload [Byte.x01]
              (Some (js "report.docx")) (Some (js "XLSX"))
              (Sample.readyWorld "report.docx")) as [[r|e] w'] eqn:E;
    [|destruct Hok].
  destruct (convertBin_standard_parameters Sample.page [Byte.x01]
              (Some (js "report.docx")) (js "XLSX")
              (Sample.readyWorld "report.docx") w' r eq_refl E)
    as (_ & _).
  exists r, w'. split; [reflexivity|].
  assert (Hd : match fst (convertBinToDocumentAndDownload [Byte.x01]
                            (Some (js "report.docx")) (Some (js "XLSX"))
                            (Sample.readyWorld "report.docx")) with
               | Ok r0 => out_data r0 = BUint8 [Byte.x50; Byte.x4b]
               | Throw _ => True
               end) by (vm_compute; reflexivity).
  rewrite E in Hd. exact Hd.
Defined.

Lemma sendCommand_effect (H : Host) c (w w' : World H) o :
  sendCommand c w = (o, w') ->
  o = Ok tt
  /\ commands w' = commands w ++ (if editorAttached w then [c] else [])
  /\ saved w' = saved w /\ hostLog w' = hostLog w.
Proof.
  unfold sendCommand. destruct (editorAttached w); intros [= <- <-];
    simpl; rewrite ?app_nil_r; auto.
Qed.

(** handleSaveDocument tells the editor that the save is complete only
    after the conversion has returned: an event without data is answered at
    once and nothing else happens; a conversion that fails makes the handler
    fail with nothing sent and nothing offered for saving; a handler that
    returns has sent exactly the completion command. *)
Theorem handleSaveDocument_notifies_after_conversion
    (H : Host) (event : SaveEvent) (w w' : World H) (o : Outcome unit) :
  handleSaveDocument event w = (o, w') ->
  let notified :=
    commands w ++ (if editorAttached w then [asc_onSaveCallback 0] else []) in
  ((sv_data event = None
    \/ exists payload, sv_data event = Some payload /\ sp_data payload = None) ->
   o = Ok tt /\ saved w' = saved w /\ hostLog w' = hostLog w
   /\ commands w' = notified)
  /\ (o = Ok tt -> commands w' = notified)
  /\ (forall e, o = Throw e -> commands w' = commands w /\ saved w' = saved w).
Proof.
  intros Hrun notified. unfold handleSaveDocument in Hrun.
  destruct (sv_data event) as [payload|] eqn:Hp.
  - destruct (sp_data payload) as [binData|] eqn:Hd.
    + apply bind_cases in Hrun as [(e & Hc & ->)|([] & w1 & Hc & Hsend)].
      * apply bind_cases in Hc as [(e0 & Hc & _)|(r & w1 & _ & Hr)];
          [|discriminate Hr].
        apply convertBin_outcome in Hc as (C & _ & S & _).
        split; [|split].
        -- intros [Hn|(p & [= <-] & Hn)]; congruence.
        -- discriminate.
        -- auto.
      * apply bind_cases in Hc as [(e0 & _ & He)|(r & w2 & Hc & [= <-])];
          [discriminate He|].
        apply convertBin_outcome in Hc as (C & E & _).
        apply sendCommand_effect in Hsend as (-> & Hcmd & _).
        rewrite C, E in Hcmd.
        split; [|split].
        -- intros [Hn|(p & [= <-] & Hn)]; congruence.
        -- auto.
        -- discriminate.
    + unfold bind at 1, ret at 1 in Hrun.
      apply sendCommand_effect in Hrun as (-> & Hcmd & S & L).
      split; [|split]; [auto | auto | discriminate].
  - unfold bind at 1, ret at 1 in Hrun.
    apply sendCommand_effect in Hrun as (-> & Hcmd & S & L).
    split; [|split]; [auto | auto | discriminate].
Qed.

Lemma handleSaveDocument_notifies_witness :
  exists w',
    handleSaveDocument {| sv_data := None |} (Sample.readyWorld "report.csv")
    = (Ok tt, w')
    /\ commands w' = [asc_onSaveCallback 0].
Proof.
  destruct (handleSaveDocument {| sv_data := None |}
              (Sample.readyWorld "report.csv")) as [o w'] eqn:E.
  destruct (handleSaveDocument_notifies_after_conversion Sample.page _ _ _ _ E)
    as (Hnone & _).
  destruct (Hnone (or_introl eq_refl)) as (-> & _ & _ & Hc).
  exists w'. split; [reflexivity | exact Hc].
Defined.

(** When the tracked document is not a CSV file, the saved file takes the
    format the editor reported: its name is the sanitised base name with the
    lower-cased name of the reported format code, or [docx] for a code the
    table does not know. *)
Theorem handleSaveDocument_uses_reported_format
    (H : Host) (binData : bytes) (fmt : Z) (w w' : World H) :
  tracksCsv (docFileName w) = false ->
  handleSaveDocument
    {| sv_data := Some {| sp_data := Some binData; sp_outputformat := fmt |} |}
    w = (Ok tt, w') ->
  exists data,
    saved w'
    = saved w
      ++ [{| saved_name :=
               stripExt (sanitizeFileNameOpt (docFileName w)) ++ js "."
               ++ toLowerCase (default (js "DOCX") (c_oAscFileType2 fmt));
             saved_data := data;
             saved_viaPicker := hasSaveFilePicker H |}].
Proof.
  intros Ht Hrun. unfold handleSaveDocument in Hrun.
  cbn [sv_data sp_data sp_outputformat] in Hrun.
  apply bind_Ok_inv in Hrun as ([] & w1 & Hc & Hsend).
  rewrite Ht in Hc.
  apply bind_Ok_inv in Hc as (r & w2 & Hc & [= <-]).
  apply convertBin_outcome in Hc as (_ & _ & Hn & S).
  apply sendCommand_effect in Hsend as (_ & _ & S' & _).
  exists (toUint8 (out_data r)). rewrite S', S, Hn. reflexivity.
Qed.

Lemma handleSaveDocument_uses_reported_format_witness :
  exists w',
    handleSaveDocument
      {| sv_data := Some {| sp_data := Some [Byte.x01];
                            sp_outputformat := 257 |} |}
      (Sample.readyWorld "report.docx") = (Ok tt, w')
    /\ List.map saved_name (saved w') = [js "report.xlsx"].
Proof.
  assert (Hok : match fst (handleSaveDocument
                             {| sv_data := Some {| sp_data := Some [Byte.x01];
                                                   sp_outputformat := 257 |} |}
                             (Sample.readyWorld "report.docx")) with
                | Ok _ => True
                | Throw _ => False
                end) by (vm_compute; exact I).
  destruct (handleSaveDocument _ (Sample.readyWorld "report.docx"))
    as [[[]|e] w'] eqn:E; [|destruct Hok].
  destruct (handleSaveDocument_uses_reported_format Sample.page [Byte.x01] 257
              (Sample.readyWorld "report.docx") w' eq_refl E) as (data & Hs).
  exists w'. split; [reflexivity|]. rewrite Hs. reflexivity.
Defined.

End SaveMoreTheorems.

(** ** More on handleWriteFile and on the CSV adapter *)

Section WriteFileMore.

Import Sanitize Converter.

(** A valid write-file event adds one entry to the global media map and
    keeps all the others: the image gets a fresh object URL, stored under
    [media/<file>]; the attached editor is sent the updated map and then the
    acknowledgement naming that URL and file; the event's callback is not
    called. *)
Theorem handleWriteFile_adds_the_image
    (H : Host) (w : World H) (event : JsVal)
    (image : bytes) (name : jsstring) :
  getField (js "data") (getField (js "data") event) = JUint8 image ->
  getField (js "file") (getField (js "data") event) = JStr name ->
  isEmpty name = false ->
  exists w',
    handleWriteFile event w = (Ok tt, w')
    /\ let url := length (blobs w) in
       globalMedia w' = <[js "media/" ++ name := url]> (globalMedia w)
       /\ (forall key, key <> js "media/" ++ name ->
                       globalMedia w' !! key = globalMedia w !! key)
       /\ globalMedia w' !! (js "media/" ++ name) = Some url
       /\ (exists mime,
             blobs w'
             = blobs w ++ [{| blob_part := BUint8 image;
                              blob_type := Some mime |}])
       /\ commands w'
          = commands w
            ++ (if editorAttached w
                then [asc_setImageUrls (globalMedia w');
                      asc_writeFileCallback_ok url name]
                else [])
       /\ callbackCalls w' = callbackCalls w.
Proof.
  intros Hd Hf Hn.
  assert (Ht : truthy (getField (js "data") event) = true).
  { destruct (getField (js "data") event); try discriminate Hd. reflexivity. }
  assert (Hev : isNullish event = false).
  { destruct event; try reflexivity; discriminate Hd. }
  unfold handleWriteFile, tryCatch, writeFileBody.
  rewrite Hev, Ht, Hd, Hf, Hn. cbn [negb].
  unfold bind at 1, createObjectURL. cbv beta iota.
  unfold bind, sendCommand.
  cbn [editorAttached withGlobalMedia withBlobs withCommands commands
       globalMedia blobs callbackCalls].
  destruct (editorAttached w) eqn:E;
    cbn [editorAttached withGlobalMedia withBlobs withCommands commands
         globalMedia blobs callbackCalls];
    rewrite ?E;
    (eexists; split; [reflexivity|];
     cbn [editorAttached withGlobalMedia withBlobs withCommands commands
          globalMedia blobs callbackCalls];
     split; [reflexivity|];
     split; [intros key Hk; apply lookup_insert_ne; congruence|];
     split; [apply lookup_insert_eq|];
     split; [eexists; reflexivity|];
     split; [rewrite ?app_nil_r, <- ?app_assoc; reflexivity | reflexivity]).
Qed.

Lemma handleWriteFile_adds_the_image_witness :
  exists w',
    handleWriteFile
      (JObj (FCons (js "data")
               (JObj (FCons (js "data") (JUint8 [Byte.x89])
                        (FCons (js "file") (JStr (js "a.png")) FNil)))
               FNil))
      (Sample.readyWorld "report.csv") = (Ok tt, w')
    /\ globalMedia w' !! js "media/a.png" = Some 0%nat.
Proof.
  destruct (handleWriteFile_adds_the_image Sample.page
              (Sample.readyWorld "report.csv")
              (JObj (FCons (js "data")
                       (JObj (FCons (js "data") (JUint8 [Byte.x89])
                                (FCons (js "file") (JStr (js "a.png"))
                                   FNil)))
                       FNil))
              [Byte.x89] (js "a.png") eq_refl eq_refl eq_refl)
    as (w' & Hrun & _ & _ & Hl & _).
  exists w'. split; [exact Hrun | exact Hl].
Defined.

(** convertCsvToXlsx does not depend on a leading marker: data that do not
    start with it convert the same with the marker put in front.  On success
    the file is named by replacing a final [.csv] with [.xlsx] and has the
    spreadsheet MIME type; every failure is reported with the message
    that starts [Failed to convert CSV to XLSX: ] and ends with the advice to
    convert by hand.  The page is left as it was either way. *)
Theorem convertCsvToXlsx_marker_and_errors
    (H : Host) (data : bytes) (name : jsstring) (w : World H) :
  (Tables.hasBOM data = false ->
   convertCsvToXlsx (BOM ++ data) name w = convertCsvToXlsx data name w)
  /\ (forall f w',
        convertCsvToXlsx data name w = (Ok f, w') ->
        w' = w /\ file_name f = replaceCsvSuffix name
        /\ file_type f = xlsxMimeType)
  /\ (forall e w',
        convertCsvToXlsx data name w = (Throw e, w') ->
        w' = w
        /\ exists reason,
             e = ErrorObj
                   (js "Failed to convert CSV to XLSX: " ++ reason
                    ++ js ". "
                    ++ js "Please convert your CSV file to XLSX format manually and try again.")).
Proof.
  split; [|split].
  - intros Hb. unfold convertCsvToXlsx.
    rewrite (decodeCsv_marker H data Hb). reflexivity.
  - intros f w' Hrun. unfold convertCsvToXlsx in Hrun.
    apply tryCatch_throwError_Ok_inv in Hrun.
    apply bind_Ok_inv in Hrun as ([] & w1 & [= _ <-] & Hrun).
    apply bind_Ok_inv in Hrun as (wb & w2 & [= _ <-] & Hrun).
    apply bind_Ok_inv in Hrun as (buf & w3 & [= _ <-] & [= <- <-]).
    auto.
  - intros e w' Hrun. unfold convertCsvToXlsx in Hrun.
    apply tryCatch_throwError_outcome in Hrun
      as [(a & _ & Ha)|(e0 & Hrun & [= ->])]; [discriminate|].
    split; [|eauto].
    unfold bind, liftOutcome, ret, loadXlsxLibrary in Hrun.
    destruct (loadXlsx H);
      [|injection Hrun as _ <-; reflexivity].
    destruct (XLSX_read_string H _);
      [|injection Hrun as _ <-; reflexivity].
    destruct (XLSX_write H _);
      [discriminate|injection Hrun as _ <-; reflexivity].
Qed.

End WriteFileMore.

(** ** More on booting the converter *)

Section InitMore.

Import Init.

Lemma await_timers {K V} p (k : K) (r : Rt K V) :
  timers (Runtime.await p k r) = timers r.
Proof.
  unfold Runtime.await. destruct (promises r !! p) as [[rs|s]|]; reflexivity.
Qed.

Lemma initialize_shares (st : State) (p : nat) :
  isReady st = false -> initPromise st = Some p ->
  boots (snd (initialize st)) = boots st
  /\ pendingScripts (snd (initialize st)) = pendingScripts st
  /\ initPromise (snd (initialize st)) = Some p
  /\ isReady (snd (initialize st)) = false
  /\ timers (rt (snd (initialize st))) = timers (rt st).
Proof.
  intros R P. unfold initialize. rewrite R. simpl. rewrite P. simpl. auto.
Qed.

Lemma initialize_first (st : State) :
  isReady st = false -> initPromise st = None ->
  boots (snd (initialize st)) = S (boots st)
  /\ (exists added,
        pendingScripts (snd (initialize st)) = pendingScripts st ++ added
        /\ length added = if hasScriptLoaded st then 0%nat else 1%nat)
  /\ is_Some (initPromise (snd (initialize st)))
  /\ isReady (snd (initialize st)) = false
  /\ timers (rt (snd (initialize st))) = timers (rt st).
Proof.
  intros R P. unfold initialize. rewrite R. simpl. rewrite P.
  unfold doInitialize, loadScript. simpl.
  destruct (hasScriptLoaded st); simpl; rewrite await_timers; simpl.
  - repeat split; eauto. exists []. rewrite app_nil_r. auto.
  - repeat split; eauto.
Qed.

(** However many times initialize is called before the boot has finished,
    one boot is started: doInitialize is entered once, at most one script
    element is added (none when the script had loaded before), no timer is
    set yet, and every call after the first finds the promise of the
    first. *)
Theorem overlapping_initialize_calls_boot_once (n : nat) (st : State) :
  isReady st = false ->
  initPromise st = None ->
  let st' := perform (CallInitialize (S n)) st in
  boots st' = S (boots st)
  /\ (exists added,
        pendingScripts st' = pendingScripts st ++ added
        /\ length added = if hasScriptLoaded st then 0%nat else 1%nat)
  /\ is_Some (initPromise st')
  /\ isReady st' = false
  /\ timers (rt st') = timers (rt st).
Proof.
  intros R P. unfold perform.
  induction n as [|n IH].
  - simpl. apply initialize_first; assumption.
  - rewrite Nat.iter_succ.
    destruct IH as (B & S' & [p I] & R' & T).
    destruct (initialize_shares _ p R' I) as (B2 & S2 & I2 & R2 & T2).
    cbv zeta. rewrite B2, S2, I2, R2, T2. repeat split; eauto.
Qed.

Lemma overlapping_initialize_calls_witness :
  boots (perform (CallInitialize 5) initial) = 1%nat
  /\ length (pendingScripts (perform (CallInitialize 5) initial)) = 1%nat.
Proof.
  destruct (overlapping_initialize_calls_boot_once 4 initial eq_refl eq_refl)
    as (B & S' & _).
  split; [exact B|]. destruct S' as (added & -> & Hl).
  rewrite length_app, Hl. reflexivity.
Defined.

End InitMore.
(** ** More on handleDocumentOperation *)

Section FacadeMore.

Import Sanitize Converter Facade.

Context {H : Host}.
Context (g_sEmpty_bin : jsstring -> option BlobPart).
Context (t : MessageKey -> jsstring).
Context (awaitCreate : EditorQueue.Config -> Outcome unit).

Local Abbreviation run := (handleDocumentOperation g_sEmpty_bin t awaitCreate).

(** A request that cannot be served is refused before anything is touched:
    a new document whose type has no empty template, or an existing document
    given without its file.  The converter is not started, no editor is
    asked for, the user sees one alert made of the translated prefix and the
    message, and the same error is thrown on to the caller. *)
Theorem handleDocumentOperation_refuses_before_any_work
    (options : Options) (w : World H) :
  (opt_isNew options = true
   /\ g_sEmpty_bin (DOT :: resolveFileType options) = None)
  \/ (opt_isNew options = false /\ opt_file options = None) ->
  let message :=
    if opt_isNew options
    then t unsupportedFileType ++ resolveFileType options
    else t invalidFileObject in
  run options w
  = ({| outcome := Throw (ErrorObj message);
        alerts := [t documentOperationFailed ++ message];
        created := [] |}, w).
Proof.
  intros [[N G]|[N F]]; unfold handleDocumentOperation, documentData;
    rewrite N.
  - rewrite G. reflexivity.
  - rewrite F. reflexivity.
Qed.

(** A new document never reaches the converter.  Of a file that
    accompanies the request only the MIME type is read, to resolve the
    document type as for any request; its name and its bytes play no part.
    The page is left as it was, and the editor is asked for once, with the
    template and without media, exactly when the template table has an
    entry for the resolved type. *)
Theorem handleDocumentOperation_new_uses_template_only
    (options : Options) (w : World H) :
  opt_isNew options = true ->
  snd (run options w) = w
  /\ created (fst (run options w))
     = match g_sEmpty_bin (DOT :: resolveFileType options) with
       | Some emptyBin =>
           [{| EditorQueue.cfg_fileName := opt_fileName options;
               EditorQueue.cfg_fileType := resolveFileType options;
               EditorQueue.cfg_binData := emptyBin;
               EditorQueue.cfg_media := None |}]
       | None => []
       end
  /\ (forall options',
        opt_isNew options' = true ->
        opt_fileName options' = opt_fileName options ->
        option_map file_type (opt_file options')
        = option_map file_type (opt_file options) ->
        run options' w = run options w).
Proof.
  intros N. split; [|split].
  - unfold handleDocumentOperation, documentData. rewrite N.
    destruct (g_sEmpty_bin _) as [b|]; simpl; [|reflexivity].
    destruct (awaitCreate _); reflexivity.
  - unfold handleDocumentOperation, documentData. rewrite N.
    destruct (g_sEmpty_bin _) as [b|]; simpl; [|reflexivity].
    destruct (awaitCreate _); reflexivity.
  - intros options' N' Hname Htype.
    assert (Hres : resolveFileType options' = resolveFileType options).
    { unfold resolveFileType. rewrite Hname.
      destruct (opt_file options') as [f'|], (opt_file options) as [f|];
        simpl in Htype; try discriminate Htype; [|reflexivity].
      injection Htype as ->. reflexivity. }
    unfold handleDocumentOperation, documentData.
    rewrite N, N', Hres, Hname. reflexivity.
Qed.

(** Opening an existing file: the editor is asked for exactly when the
    conversion succeeded, once, under the name the caller gave (not the
    sanitized one) and with the converted data and media; when it failed the
    conversion error is what the caller gets.  Either way the page changes
    only through the converter: nothing is offered for saving and no
    command is sent to an editor. *)
Theorem handleDocumentOperation_opens_after_conversion
    (options : Options) (file : File) (w : World H) :
  opt_isNew options = false ->
  opt_file options = Some file ->
  let r := fst (run options w) in
  snd (run options w) = snd (convertDocument file w)
  /\ moduleStep w (snd (run options w))
  /\ match fst (convertDocument file w) with
     | Ok c =>
         let cfg :=
           {| EditorQueue.cfg_fileName := opt_fileName options;
              EditorQueue.cfg_fileType := resolveFileType options;
              EditorQueue.cfg_binData := bin c;
              EditorQueue.cfg_media := Some (media c) |} in
         created r = [cfg]
         /\ outcome r = match awaitCreate cfg with
                        | Ok _ => Ok tt
                        | Throw e => Throw e
                        end
     | Throw e => created r = [] /\ outcome r = Throw e
     end.
Proof.
  intros N F. cbv zeta.
  assert (Hw : snd (run options w) = snd (convertDocument file w)).
  { unfold handleDocumentOperation, documentData. rewrite N, F.
    unfold bind, ret.
    destruct (convertDocument file w) as [[c|e] w1]; simpl; [|reflexivity].
    destruct (awaitCreate _); reflexivity. }
  split; [exact Hw|]. split.
  - rewrite Hw. destruct (convertDocument file w) as [o w1] eqn:E.
    exact (moduleOnly_convertDocument file w o w1 E).
  - unfold handleDocumentOperation, documentData. rewrite N, F.
    unfold bind, ret.
    destruct (convertDocument file w) as [[c|e] w1]; simpl.
    + destruct (awaitCreate _); split; reflexivity.
    + split; reflexivity.
Qed.

End FacadeMore.

Section FacadeMoreWitnesses.

Import Sanitize Converter Facade.

Lemma handleDocumentOperation_refuses_witness :
  handleDocumentOperation (H := Sample.page)
    (fun _ => None)
    (fun k => match k with
              | unsupportedFileType => js "Unsupported file type: "
              | invalidFileObject => js "Invalid file object"
              | documentOperationFailed => js "Document operation failed: "
              end)
    (fun _ => Ok tt)
    {| opt_isNew := true; opt_fileName := js "New.docx"; opt_file := None |}
    (Sample.readyWorld "report.csv")
  = ({| outcome := Throw (ErrorObj (js "Unsupported file type: docx"));
        alerts :=
          [js "Document operation failed: Unsupported file type: docx"];
        created := [] |},
     Sample.readyWorld "report.csv").
Proof.
  exact (handleDocumentOperation_refuses_before_any_work (H := Sample.page)
           (fun _ => None) _ (fun _ => Ok tt)
           {| opt_isNew := true; opt_fileName := js "New.docx";
              opt_file := None |}
           (Sample.readyWorld "report.csv")
           (or_introl (conj eq_refl eq_refl))).
Defined.

Lemma handleDocumentOperation_new_witness :
  snd (handleDocumentOperation (H := Sample.page)
         (fun _ => Some (BBuffer []))
         (fun _ => js "x") (fun _ => Ok tt)
         {| opt_isNew := true; opt_fileName := js "New.xlsx";
            opt_file := Some Sample.reportCsv |}
         (Sample.readyWorld "report.csv"))
  = Sample.readyWorld "report.csv"
  /\ List.map EditorQueue.cfg_fileType
       (created
          (fst (handleDocumentOperation (H := Sample.page)
                  (fun _ => Some (BBuffer []))
                  (fun _ => js "x") (fun _ => Ok tt)
                  {| opt_isNew := true; opt_fileName := js "New.xlsx";
                     opt_file := Some Sample.reportCsv |}
                  (Sample.readyWorld "report.csv"))))
     = [js "csv"].
Proof.
  destruct (handleDocumentOperation_new_uses_template_only
              (H := Sample.page)
              (fun _ => Some (BBuffer [])) (fun _ => js "x")
              (fun _ => Ok tt)
              {| opt_isNew := true; opt_fileName := js "New.xlsx";
                 opt_file := Some Sample.reportCsv |}
              (Sample.readyWorld "report.csv") eq_refl)
    as (Hw & Hc & _).
  split; [exact Hw|]. rewrite Hc. reflexivity.
Defined.

Lemma handleDocumentOperation_opens_witness :
  length (created (fst (handleDocumentOperation (H := Sample.page)
            (fun _ => None) (fun _ => js "x") (fun _ => Ok tt)
            {| opt_isNew := false; opt_fileName := js "report.csv";
               opt_file := Some Sample.reportCsv |}
            (Sample.readyWorld "report.csv")))) = 1%nat.
Proof.
  pose proof (handleDocumentOperation_opens_after_conversion
                (H := Sample.page)
                (fun _ => None) (fun _ => js "x") (fun _ => Ok tt)
                {| opt_isNew := false; opt_fileName := js "report.csv";
                   opt_file := Some Sample.reportCsv |}
                Sample.reportCsv (Sample.readyWorld "report.csv")
                eq_refl eq_refl) as (_ & _ & Hc).
  assert (Hok : match fst (convertDocument Sample.reportCsv
                             (Sample.readyWorld "report.csv")) with
                | Ok _ => True | Throw _ => False end)
    by (vm_compute; exact I).
  destruct (fst (convertDocument Sample.reportCsv
                   (Sample.readyWorld "report.csv"))) as [c|e];
    [|destruct Hok].
  destruct Hc as [Hc _]. rewrite Hc. reflexivity.
Defined.

End FacadeMoreWitnesses.
(** ** The language of the page (i18n) *)

Section I18nFacts.

Import I18n.

Lemma split_cons_part sep p s :
  forallb (fun c => negb (c =? sep)) p = true ->
  split sep (p ++ sep :: s) = p :: split sep s.
Proof.
  induction p as [|c p IH]; simpl.
  - intros _. rewrite N.eqb_refl. reflexivity.
  - intros Hp. apply andb_prop in Hp as [Hc Hp].
    destruct (c =? sep); [discriminate|].
    rewrite (IH Hp). reflexivity.
Qed.

Lemma split_join sep (parts : list jsstring) :
  parts <> [] ->
  forallb (forallb (fun c => negb (c =? sep))) parts = true ->
  split sep (join sep parts) = parts.
Proof.
  induction parts as [|p ps IH]; [congruence|].
  intros _ Hp. simpl in Hp. apply andb_prop in Hp as [Hp Hps].
  destruct ps as [|q qs].
  - simpl. apply split_no_sep. exact Hp.
  - change (join sep (p :: q :: qs)) with (p ++ sep :: join sep (q :: qs)).
    rewrite (split_cons_part _ _ _ Hp), IH; [reflexivity|discriminate|].
    exact Hps.
Qed.

Lemma findCookie_app nameEQ before rest :
  findCookie nameEQ before = None ->
  findCookie nameEQ (before ++ rest) = findCookie nameEQ rest.
Proof.
  induction before as [|c cs IH]; simpl; [reflexivity|].
  destruct (Tables.startsWith (dropSpaces c) nameEQ); [discriminate|].
  exact IH.
Qed.

Lemma dropSpaces_app spaces s :
  forallb (fun c => c =? SPACE) spaces = true ->
  dropSpaces (spaces ++ s) = dropSpaces s.
Proof.
  induction spaces as [|c cs IH]; simpl; [reflexivity|].
  intros Hs. apply andb_prop in Hs as [Hc Hs]. rewrite Hc. exact (IH Hs).
Qed.

Lemma dropSpaces_fixed s : List.hd 0%N s <> SPACE -> dropSpaces s = s.
Proof.
  destruct s as [|c s]; simpl; [reflexivity|].
  intros Hc. apply N.eqb_neq in Hc. rewrite Hc. reflexivity.
Qed.


(** getCookie returns the value of the first cookie of that name: the
    cookies before it that do not match are passed over, the blanks that
    follow a semicolon are skipped, and the value is everything between the
    equals sign and the next semicolon. *)
Theorem getCookie_returns_first_match
    (before after : list jsstring) (spaces name value : jsstring) :
  forallb (forallb (fun c => negb (c =? SEMICOLON))) before = true ->
  forallb (forallb (fun c => negb (c =? SEMICOLON))) after = true ->
  forallb (fun c => negb (c =? SEMICOLON)) name = true ->
  forallb (fun c => negb (c =? SEMICOLON)) value = true ->
  forallb (fun c => c =? SPACE) spaces = true ->
  List.hd 0%N name <> SPACE ->
  findCookie (name ++ js "=") before = None ->
  getCookie
    (Some (join SEMICOLON
             (before ++ (spaces ++ (name ++ js "=") ++ value) :: after)))
    name
  = Some value.
Proof.
  intros Hb Ha Hn Hv Hs Hh Hnone. unfold getCookie.
  rewrite split_join.
  - rewrite (findCookie_app _ _ _ Hnone). simpl findCookie.
    rewrite (dropSpaces_app _ _ Hs).
    rewrite dropSpaces_fixed.
    + unfold Tables.startsWith, jsstring_eqb.
      rewrite take_app_length, bool_decide_eq_true_2 by reflexivity.
      rewrite drop_app_length. reflexivity.
    + destruct name as [|c name']; [|exact Hh].
      vm_compute. discriminate.
  - destruct before; discriminate.
  - rewrite forallb_app. rewrite Hb. simpl. rewrite Ha, andb_true_r.
    rewrite !forallb_app, Hn, Hv, andb_true_r.
    assert (Hsp : forallb (fun c => negb (c =? SEMICOLON)) spaces = true).
    { clear -Hs. induction spaces as [|c cs IH]; [reflexivity|].
      simpl in *. apply andb_prop in Hs as [Hc Hs].
      apply N.eqb_eq in Hc. subst c. rewrite (IH Hs). reflexivity. }
    rewrite Hsp. reflexivity.
Qed.

Lemma getCookie_returns_first_match_witness :
  getCookie (Some (js "theme=dark; locale=zh-CN;path=/")) (js "locale")
  = Some (js "zh-CN").
Proof.
  refine (getCookie_returns_first_match
            [js "theme=dark"] [js "path=/"] (js " ") (js "locale")
            (js "zh-CN") _ _ _ _ _ _ _);
    try (vm_compute; reflexivity).
  vm_compute. discriminate.
Defined.

(** normalizeLanguage looks only at the letters before the first hyphen or
    underscore and ignores their case: a tag that spells a language code,
    with or without a region after it, gives that language.  The tag
    getOnlyOfficeLang hands to the editor is read back as the language it
    came from. *)
Theorem normalizeLanguage_ignores_case_and_region
    (l : Language) (s region : jsstring) (sep : N) :
  toLowerCase s = languageCode l ->
  sep = HYPHEN \/ sep = UNDERSCORE ->
  normalizeLanguage (Some s) = Some l
  /\ normalizeLanguage (Some (s ++ sep :: region)) = Some l
  /\ normalizeLanguage (Some (getOnlyOfficeLang l)) = Some l.
Proof.
  intros Hs Hsep.
  assert (Hne : s <> []).
  { intros ->. destruct l; discriminate Hs. }
  split; [|split].
  - unfold normalizeLanguage. destruct s as [|c s']; [congruence|].
    unfold isEmpty. rewrite Hs. destruct l; vm_compute; reflexivity.
  - unfold normalizeLanguage. destruct s as [|c s']; [congruence|].
    rewrite <- app_comm_cons. unfold isEmpty.
    rewrite app_comm_cons. unfold toLowerCase in *.
    rewrite map_app, Hs.
    destruct l; destruct Hsep as [-> | ->]; vm_compute; reflexivity.
  - destruct l; vm_compute; reflexivity.
Qed.

Lemma normalizeLanguage_ignores_case_and_region_witness :
  normalizeLanguage (Some (js "ZH")) = Some ZH
  /\ normalizeLanguage (Some (js "ZH" ++ UNDERSCORE :: js "Hant_TW"))
     = Some ZH
  /\ normalizeLanguage (Some (getOnlyOfficeLang ZH)) = Some ZH.
Proof.
  exact (normalizeLanguage_ignores_case_and_region ZH (js "ZH")
           (js "Hant_TW") UNDERSCORE eq_refl (or_intror eq_refl)).
Defined.

(** A language chosen with setLanguage is found again when the page is
    loaded anew: with no language in the URL and none in the cookie, the
    constructor takes the item setLanguage stored, whatever the browser
    language is. *)
Theorem setLanguage_is_found_on_reload
    (l : Language) (st : I18nState) (env : Environment) :
  normalizeLanguage (urlLocale env) = None ->
  normalizeLanguage (getCookie (documentCookie env) (js "locale")) = None ->
  storedLang env = localStorageLang (setLanguage (languageCode l) st) ->
  currentLanguage (setLanguage (languageCode l) st) = l
  /\ dispatched (setLanguage (languageCode l) st)
     = dispatched st ++ [languageCode l]
  /\ detectLanguage env = l.
Proof.
  intros Hu Hc Hst.
  assert (Hset : setLanguage (languageCode l) st
                 = {| currentLanguage := l;
                      localStorageLang := Some (languageCode l);
                      dispatched := dispatched st ++ [languageCode l] |}).
  { destruct l; reflexivity. }
  rewrite Hset in *. simpl in Hst.
  split; [reflexivity|]. split; [reflexivity|].
  unfold detectLanguage. rewrite Hu, Hc, Hst.
  destruct l; reflexivity.
Qed.

Lemma setLanguage_is_found_on_reload_witness :
  detectLanguage
    {| urlLocale := None; documentCookie := Some (js "theme=dark");
       storedLang := Some (js "zh");
       navigatorLanguage := Some (js "en-US") |}
  = ZH.
Proof.
  exact (proj2 (proj2
    (setLanguage_is_found_on_reload ZH
       {| currentLanguage := EN; localStorageLang := None;
          dispatched := [] |}
       {| urlLocale := None; documentCookie := Some (js "theme=dark");
          storedLang := Some (js "zh");
          navigatorLanguage := Some (js "en-US") |}
       eq_refl eq_refl eq_refl))).
Defined.

End I18nFacts.
(** ** The queue on an idle page *)

Section QueueMore.

Import EditorQueue QueueState.

Lemma lookup_app_plus {A} (l1 l2 : list A) k :
  (l1 ++ l2) !! (length l1 + k)%nat = l2 !! k.
Proof. rewrite lookup_app_r by lia. f_equal. lia. Qed.

Lemma lookup_app_len {A} (l1 l2 : list A) :
  (l1 ++ l2) !! (length l1) = l2 !! 0%nat.
Proof. rewrite lookup_app_r by lia. f_equal. lia. Qed.

Lemma insert_app_len {A} (l1 l2 : list A) x :
  <[length l1 := x]> (l1 ++ l2) = l1 ++ <[0%nat := x]> l2.
Proof. rewrite <- (insert_app_r l1 l2 0 x). f_equal. lia. Qed.

Lemma drain_nil fuel st : microtasks (rt st) = [] -> drain fuel st = st.
Proof.
  intros Hm. destruct fuel; simpl; [reflexivity|]. rewrite Hm. reflexivity.
Qed.

Lemma drain_unfold fuel st :
  drain (S fuel) st
  = match microtasks (rt st) with
    | [] => st
    | (k, s) :: rest =>
        drain fuel (resume k s (withRt st (withMicrotasks (rt st) rest)))
    end.
Proof. reflexivity. Qed.

Lemma quiesce_unfold fuel st :
  quiesce (S fuel) st
  = match timers (rt st) with
    | [] => st
    | _ => quiesce fuel (step (S fuel) NextTimer st)
    end.
Proof. reflexivity. Qed.

(** Runs the code of one task on a state whose parts are known. *)
Ltac queue_cbn :=
  cbn [withRt withQueue withEditor withLive logEvent
       withPromises withMicrotasks withDocsApi
       rt editor live nextInstance editorOperationQueue
       docsApiLoaded destroyThrows trace
       promises microtasks timers nextTimer clock
       timer_id timer_due timer_callback
       newPromise newSettled setTimeout awaitTimeout
       opStart opCleanup opConstruct resume
       createEditorInstance queueEditorOperation popTimer earliest
       fst snd app length List.map List.filter fold_left
       negb Nat.eqb Nat.add lookup list_lookup insert list_insert];
  cbv [withRt withQueue withEditor withLive logEvent
       withPromises withMicrotasks withDocsApi
       rt editor live nextInstance editorOperationQueue
       docsApiLoaded destroyThrows trace
       promises microtasks timers nextTimer clock
       timer_id timer_due timer_callback].

Ltac queue_lists :=
  repeat first
    [ rewrite <- app_assoc
    | rewrite length_app
    | rewrite <- Nat.add_assoc
    | rewrite lookup_app_plus
    | rewrite lookup_app_len
    | rewrite insert_app_r
    | rewrite insert_app_len
    | rewrite Nat.eqb_refl ]; queue_cbn.

Ltac queue_eval :=
  repeat progress (queue_cbn; try unfold await, settle; queue_lists).

Ltac queue_task := rewrite drain_unfold; queue_eval.

Ltac queue_timer :=
  rewrite quiesce_unfold; queue_eval; unfold step, perform; queue_eval.

(** One create on an idle page, followed to the end. *)
Lemma create_on_idle_page (cfg : Config) (st : State) (fuel : nat) :
  idle st -> (3 <= fuel)%nat ->
  exists r added,
    quiesce fuel (step fuel (Script [cfg]) st)
    = {| rt := r;
         editor := Some (nextInstance st);
         live := [nextInstance st];
         nextInstance := S (nextInstance st);
         editorOperationQueue := (length (promises (rt st)) + 1)%nat;
         docsApiLoaded := true;
         destroyThrows := false;
         trace := trace st
                  ++ BodyStarted (cfg_fileName cfg)
                     :: match editor st with
                        | Some e => [DestroyCalled e]
                        | None => []
                        end
                  ++ [ContainerCleared;
                      Constructed (nextInstance st) (cfg_fileName cfg)] |}
    /\ microtasks r = [] /\ timers r = []
    /\ promises r
       = promises (rt st)
         ++ Done (Fulfilled tt) :: Done (Fulfilled tt) :: added
    /\ Forall (fun p => p = Done (Fulfilled tt)) added.
Proof.
  intros (Hm & Ht & Hq & Hd & Hx & Hl) Hf.
  destruct st as [[ps ms ts nt ck] ed lv ni q dl dt tr]. simpl in *. subst.
  destruct fuel as [|[|[|fuel]]]; try lia. clear Hf.
  assert (Hq' : forall l, (ps ++ l) !! q = Some (Done (Fulfilled tt))).
  { intros l. apply lookup_app_l_Some. exact Hq. }
  destruct ed as [e|].
  - unfold step at 1. unfold perform. queue_cbn. unfold await. queue_cbn.
    rewrite Hq'. queue_cbn.
    queue_task. queue_task.
    queue_timer. queue_task. queue_task.
    queue_timer. queue_task. queue_task.
    rewrite drain_nil by reflexivity.
    rewrite quiesce_unfold. queue_eval.
    eexists _, _. split; [reflexivity|]. queue_cbn.
    split; [reflexivity|]. split; [reflexivity|]. split; [reflexivity|].
    repeat constructor.
  - unfold step at 1. unfold perform. queue_cbn. unfold await. queue_cbn.
    rewrite Hq'. queue_cbn.
    queue_task. queue_task.
    queue_timer. queue_task. queue_task. queue_task.
    rewrite quiesce_unfold. queue_eval.
    eexists _, _. split; [reflexivity|]. queue_cbn.
    split; [reflexivity|]. split; [reflexivity|]. split; [reflexivity|].
    repeat constructor.
Qed.

(** On an idle page a create does what the queue is for: the editor that
    was shown is destroyed, once and before the new one is constructed, the
    new instance is the only one alive and is the one in window.editor, the
    promise of the call is fulfilled, and the page is idle again, ready for
    the next create. *)
Theorem create_on_idle_page_replaces_the_editor
    (cfg : Config) (st : State) (fuel : nat) :
  idle st -> (3 <= fuel)%nat ->
  let final := quiesce fuel (step fuel (Script [cfg]) st) in
  idle final
  /\ editor final = Some (nextInstance st)
  /\ live final = [nextInstance st]
  /\ trace final
     = trace st
       ++ BodyStarted (cfg_fileName cfg)
          :: match editor st with
             | Some e => [DestroyCalled e]
             | None => []
             end
       ++ [ContainerCleared;
           Constructed (nextInstance st) (cfg_fileName cfg)]
  /\ promiseState (fst (createEditorInstance cfg st)) (rt final)
     = Some (Done (Fulfilled tt)).
Proof.
  intros Hi Hf. cbv zeta.
  destruct (create_on_idle_page cfg st fuel Hi Hf)
    as (r & added & -> & Hm & Ht & Hp & Ha).
  unfold idle, promiseState. cbn [rt editor live trace editorOperationQueue
                                  docsApiLoaded destroyThrows].
  rewrite Hp.
  repeat apply conj; try reflexivity; try assumption.
  - rewrite lookup_app_plus. reflexivity.
  - unfold createEditorInstance, queueEditorOperation. cbn [newPromise fst].
    rewrite lookup_app_len. reflexivity.
Qed.

Lemma create_on_idle_page_witness :
  live (quiesce 3 (step 3 (Script [simpleConfig "a.docx"]) (initial true)))
  = [0%nat].
Proof.
  assert (Hi : idle (initial true)) by (repeat split; reflexivity).
  destruct (create_on_idle_page_replaces_the_editor
              (simpleConfig "a.docx") (initial true) 3 Hi (le_n 3))
    as (_ & _ & Hl & _).
  exact Hl.
Defined.

(** Documents opened one after the other, each once the one before is
    shown, never pile up: however many there were, the page ends idle with
    the last one's editor as the only instance alive. *)
Theorem documents_opened_in_turn_leave_one_editor
    (configs : list Config) (st : State) (fuel : nat) :
  idle st -> (3 <= fuel)%nat -> configs <> [] ->
  let final := openInTurn fuel configs st in
  idle final
  /\ nextInstance final = (nextInstance st + length configs)%nat
  /\ editor final = Some (nextInstance st + length configs - 1)%nat
  /\ live final = [(nextInstance st + length configs - 1)%nat].
Proof.
  intros Hi Hf Hne. cbv zeta. revert st Hi.
  induction configs as [|cfg rest IH]; [congruence|]. intros st Hi.
  unfold openInTurn. cbn [fold_left].
  destruct (create_on_idle_page cfg st fuel Hi Hf)
    as (r & added & Hfin & Hm & Ht & Hp & Ha).
  assert (Hi' : idle (quiesce fuel (step fuel (Script [cfg]) st))).
  { rewrite Hfin. unfold idle.
    cbn [rt editor live editorOperationQueue docsApiLoaded destroyThrows].
    rewrite Hp, lookup_app_plus. repeat apply conj; auto. }
  assert (Hn : nextInstance (quiesce fuel (step fuel (Script [cfg]) st))
               = S (nextInstance st)) by (rewrite Hfin; reflexivity).
  destruct rest as [|cfg2 rest'].
  - cbn [fold_left length]. split; [exact Hi'|]. rewrite Hfin.
    cbn [nextInstance editor live].
    replace (nextInstance st + 1 - 1)%nat with (nextInstance st) by lia.
    repeat split; try reflexivity. lia.
  - specialize (IH ltac:(discriminate) _ Hi').
    unfold openInTurn in IH.
    destruct IH as (I1 & I2 & I3 & I4).
    rewrite Hn in I2, I3, I4.
    split; [exact I1|]. rewrite I2, I3, I4.
    replace (S (nextInstance st) + length (cfg2 :: rest'))%nat
      with (nextInstance st + length (cfg :: cfg2 :: rest'))%nat
      by (cbn [length]; lia).
    repeat split; reflexivity.
Qed.

Lemma documents_opened_in_turn_witness :
  live (openInTurn 3
          [simpleConfig "a.docx"; simpleConfig "b.xlsx";
           simpleConfig "c.pptx"]
          (initial true))
  = [2%nat].
Proof.
  assert (Hi : idle (initial true)) by (repeat split; reflexivity).
  destruct (documents_opened_in_turn_leave_one_editor
              [simpleConfig "a.docx"; simpleConfig "b.xlsx";
               simpleConfig "c.pptx"]
              (initial true) 3 Hi (le_n 3) ltac:(discriminate))
    as (_ & _ & _ & Hl).
  exact Hl.
Defined.

End QueueMore.
